(** * B-MCP: the Bolagsverket annual-report server

    A shallow embedding of the extraction and risk-scoring core of
    [bolagsverket_mcp.py]: organisation-number normalisation, the iXBRL
    fact extractor ([IXBRLParser]), the ratio calculator
    ([Nyckeltal.berakna_nyckeltal]), report retrieval and the rule-based
    risk classifier ([analyze_risks]).

    Python values are represented as follows.
    - [int] is [Z]; [Optional[int]] is [option Z].
    - [float] is an IEEE-754 binary64 value, [spec_float] at precision 53
      and maximal exponent 1024, with the operations of [SpecFloat].
    - [str] is [string]; a character outside ASCII is the run of bytes of
      its UTF-8 encoding.
    - a raised exception is the [Raise] branch of [result]. *)

From Stdlib Require Import ZArith List String Ascii Bool Lia.
From Stdlib Require Import SpecFloat DecimalString.
Import ListNotations.
Local Open Scope string_scope.
Local Open Scope list_scope.
Local Open Scope Z_scope.

(* ================================================================== *)
(** * Python run-time values and built-ins *)
(* ================================================================== *)

Module Py.

(** The exception classes the modelled code can raise. *)
Inductive exn : Type :=
| TypeError
| ValueError
| OverflowError
| ZeroDivisionError
| IndexError
| KeyError
| Exception (msg : string).

Inductive result (A : Type) : Type :=
| Ok (a : A)
| Raise (e : exn).

Arguments Ok {A} a.
Arguments Raise {A} e.

Definition bind {A B : Type} (r : result A) (k : A -> result B) : result B :=
  match r with
  | Ok a => k a
  | Raise e => Raise e
  end.

(** ** Floats *)

Definition float : Type := spec_float.
Definition prec : Z := 53.
Definition emax : Z := 1024.

Definition fmul : float -> float -> float := SFmul prec emax.
Definition fdiv : float -> float -> float := SFdiv prec emax.

(** The least magnitude that rounds (to nearest, ties to even) up to
    [2^1024], that is, out of the range of a float. *)
Definition float_overflow_threshold : Z := 2 ^ 1024 - 2 ^ 970.

(** An integer seen as an unrounded binary number [m * 2^0]. *)
Definition exact_int (z : Z) : float :=
  match z with
  | Z0 => S754_zero false
  | Zpos p => S754_finite false p 0
  | Zneg p => S754_finite true p 0
  end.

(** [float(z)] for an [int]: the nearest float, or [OverflowError]
    ("int too large to convert to float"). *)
Definition float_of_int (z : Z) : result float :=
  if float_overflow_threshold <=? Z.abs z then Raise OverflowError
  else Ok (binary_normalize prec emax z 0 false).

(** [a / b] on two [int]s: the correctly rounded quotient.  A zero
    dividend gives a zero carrying the sign of the divisor. *)
Definition int_truediv (a b : Z) : result float :=
  if b =? 0 then Raise ZeroDivisionError
  else if a =? 0 then Ok (S754_zero (b <? 0))
  else if float_overflow_threshold * Z.abs b <=? Z.abs a then Raise OverflowError
  else Ok (fdiv (exact_int a) (exact_int b)).

(** [x * z] for a float [x] and an [int] [z]: [z] is converted first. *)
Definition fmul_int (x : float) (z : Z) : result float :=
  bind (float_of_int z) (fun y => Ok (fmul x y)).

(** [z * x] for an [int] [z] and a float [x]. *)
Definition int_mul_float (z : Z) (x : float) : result float :=
  bind (float_of_int z) (fun y => Ok (fmul y x)).

(** Comparison of a float with an [int]: Python compares the two exact
    values, without converting the [int].  [None] for a NaN. *)
Definition float_compare_int (x : float) (z : Z) : option comparison :=
  match x with
  | S754_nan => None
  | S754_infinity s => Some (if s then Lt else Gt)
  | S754_zero _ => Some (0 ?= z)
  | S754_finite s m e =>
      let sm := if s then Zneg m else Zpos m in
      Some (if 0 <=? e then (sm * 2 ^ e ?= z) else (sm ?= z * 2 ^ (- e)))
  end.

Definition float_lt_int (x : float) (z : Z) : bool :=
  match float_compare_int x z with Some Lt => true | _ => false end.

Definition float_gt_int (x : float) (z : Z) : bool :=
  match float_compare_int x z with Some Gt => true | _ => false end.

Definition float_le_int (x : float) (z : Z) : bool :=
  match float_compare_int x z with Some Lt | Some Eq => true | _ => false end.

Definition float_ge_int (x : float) (z : Z) : bool :=
  match float_compare_int x z with Some Gt | Some Eq => true | _ => false end.

(** [z < x] for an [int] [z] and a float [x]. *)
Definition int_lt_float (z : Z) (x : float) : bool := float_gt_int x z.

(** Truth value of a float: everything but the two zeros. *)
Definition float_truthy (x : float) : bool :=
  match x with
  | S754_zero _ => false
  | _ => true
  end.

(** [n / d] rounded to the nearest integer, a tie going to the even one
    ([0 <= n], [0 < d]). *)
Definition div_half_even (n d : Z) : Z :=
  let q := n / d in
  match 2 * (n mod d) ?= d with
  | Lt => q
  | Gt => q + 1
  | Eq => if Z.even q then q else q + 1
  end.

(** [round(x, 2)]: the exact value of [x] is rounded half-even to two
    decimals, and the decimal [k / 100] is read back as the nearest
    float; the sign of [x] is kept, infinities and NaN round to
    themselves. *)
Definition round2 (x : float) : float :=
  match x with
  | S754_finite s m e =>
      let k := if 0 <=? e then 100 * Zpos m * 2 ^ e
               else div_half_even (100 * Zpos m) (2 ^ (- e)) in
      match k with
      | Zpos p => fdiv (S754_finite s p 0) (exact_int 100)
      | _ => S754_zero s
      end
  | _ => x
  end.

(** Truth value of an [Optional[int]]: [None] and [0] are false. *)
Definition truthy (o : option Z) : bool :=
  match o with
  | Some z => negb (z =? 0)
  | None => false
  end.

(** Reading an [Optional[int]] where an [int] is required. *)
Definition as_int (o : option Z) : result Z :=
  match o with
  | Some z => Ok z
  | None => Raise TypeError
  end.

(** ** Strings

    A string is the sequence of the bytes of its UTF-8 encoding.  The
    functions that count characters ([len], slices) count the bytes that
    start a character, which are all the bytes but the continuation
    bytes [0x80] to [0xBF]. *)

Definition code (c : ascii) : N := N_of_ascii c.

Definition between (lo hi : N) (c : ascii) : bool :=
  ((lo <=? code c) && (code c <=? hi))%N.

(** A continuation byte of a character of several bytes. *)
Definition is_cont (c : ascii) : bool := between 128 191 c.

(** [len(s)]. *)
Fixpoint len (s : string) : nat :=
  match s with
  | "" => O
  | String c s' => if is_cont c then len s' else S (len s')
  end.

(** [s[:n]] and [s[n:]] for [0 <= n]: the first [n] characters with
    their continuation bytes, and the rest. *)
Fixpoint take (n : nat) (s : string) : string :=
  match s with
  | "" => ""
  | String c s' =>
      if is_cont c then String c (take n s')
      else match n with
           | O => ""
           | S k => String c (take k s')
           end
  end.

Fixpoint drop (n : nat) (s : string) : string :=
  match s with
  | "" => ""
  | String c s' =>
      if is_cont c then drop n s'
      else match n with
           | O => s
           | S k => drop k s'
           end
  end.

(** [s.replace(old, new)]: the occurrences of [old] are replaced from
    the left, without overlap.  [skip] counts the characters of an
    occurrence that are still to be passed over. *)
Fixpoint replace_from (skip : nat) (old new s : string) : string :=
  match s with
  | "" => ""
  | String c s' =>
      match skip with
      | S k => replace_from k old new s'
      | O =>
          if String.prefix old s
          then (new ++ replace_from (String.length old - 1) old new s')%string
          else String c (replace_from 0 old new s')
      end
  end.

(** With an empty [old], [new] goes before every character and at the
    end. *)
Fixpoint interleave (new s : string) : string :=
  match s with
  | "" => new
  | String c s' =>
      if is_cont c then String c (interleave new s')
      else (new ++ String c (interleave new s'))%string
  end.

Definition replace (old new s : string) : string :=
  match old with
  | "" => interleave new s
  | _ => replace_from 0 old new s
  end.

(** [sub in s]. *)
Fixpoint contains (sub s : string) : bool :=
  String.prefix sub s ||
  match s with
  | "" => false
  | String _ s' => contains sub s'
  end.

(** [c.isspace()] on ASCII: tab to carriage return, the four separators
    and the space. *)
Definition is_space (c : ascii) : bool := between 9 13 c || between 28 32 c.

(** What follows one leading whitespace character, if there is one.  The
    whitespace characters outside ASCII are U+0085, U+00A0, U+1680,
    U+2000 to U+200A, U+2028, U+2029, U+202F, U+205F and U+3000. *)
Definition after_space (s : string) : option string :=
  match s with
  | "" => None
  | String c s1 =>
      if is_space c then Some s1
      else
        match s1 with
        | "" => None
        | String d s2 =>
            if (code c =? 194)%N then
              if (code d =? 133)%N || (code d =? 160)%N then Some s2 else None
            else
              match s2 with
              | "" => None
              | String e s3 =>
                  if ((code c =? 225)%N && (code d =? 154)%N && (code e =? 128)%N)
                     || ((code c =? 226)%N && (code d =? 128)%N
                         && (between 128 138 e || between 168 169 e
                             || (code e =? 175)%N))
                     || ((code c =? 226)%N && (code d =? 129)%N && (code e =? 159)%N)
                     || ((code c =? 227)%N && (code d =? 128)%N && (code e =? 128)%N)
                  then Some s3
                  else None
              end
        end
  end.

Definition is_digit (c : ascii) : bool := between 48 57 c.

Fixpoint all_chars (p : ascii -> bool) (s : string) : bool :=
  match s with
  | "" => true
  | String c s' => p c && all_chars p s'
  end.

(** [s.isdigit()]: at least one character, and digits only; the digits
    are those of ASCII. *)
Definition isdigit (s : string) : bool :=
  match s with
  | "" => false
  | _ => all_chars is_digit s
  end.

(** [s.lower()]; the letters A to Z are mapped, the other characters are
    left as they are. *)
Definition lower_char (c : ascii) : ascii :=
  if between 65 90 c then ascii_of_N (code c + 32) else c.

Fixpoint lower (s : string) : string :=
  match s with
  | "" => ""
  | String c s' => String (lower_char c) (lower s')
  end.

(** [s.endswith(suffix)]. *)
Fixpoint endswith (suffix s : string) : bool :=
  String.eqb s suffix ||
  match s with
  | "" => false
  | String _ s' => endswith suffix s'
  end.

(** [s.lstrip()]: at most [n] leading whitespace characters are
    removed, and a string has no more of them than it has bytes. *)
Fixpoint lstrip_upto (n : nat) (s : string) : string :=
  match n with
  | O => s
  | S k =>
      match after_space s with
      | Some rest => lstrip_upto k rest
      | None => s
      end
  end.

Definition lstrip (s : string) : string := lstrip_upto (String.length s) s.

(** [s.rstrip()]: the string is cut where nothing but whitespace
    follows. *)
Fixpoint rstrip (s : string) : string :=
  match s with
  | "" => ""
  | String c s' =>
      match lstrip s with
      | "" => ""
      | _ => String c (rstrip s')
      end
  end.

(** [s.strip()]. *)

Definition strip (s : string) : string := rstrip (lstrip s).

(** Truth value of a string: everything but the empty string. *)
Definition str_truthy (s : string) : bool :=
  match s with
  | "" => false
  | _ => true
  end.

(** [str(z)] for an [int]. *)
Definition str_of_int (z : Z) : string :=
  NilZero.string_of_int (Z.to_int z).

(** ** Lists *)

(** [l[i]]: a negative index counts from the end. *)
Definition list_index {A : Type} (l : list A) (i : Z) : result A :=
  let n := Z.of_nat (List.length l) in
  let j := if i <? 0 then n + i else i in
  if (j <? 0) || (n <=? j) then Raise IndexError
  else match nth_error l (Z.to_nat j) with
       | Some a => Ok a
       | None => Raise IndexError
       end.

(** [try: body  except ValueError: handler]. *)
Definition except_ValueError {A : Type} (body handler : result A) : result A :=
  match body with
  | Raise ValueError => handler
  | r => r
  end.

(** [try: body  except Exception as e: handler(e)]; every exception of
    the model is an [Exception]. *)
Definition except_Exception {A B : Type} (body : result A)
    (normal : A -> B) (handler : exn -> B) : B :=
  match body with
  | Ok a => normal a
  | Raise e => handler e
  end.

(** ** Reading numbers *)

Definition digit_val (c : ascii) : option Z :=
  if is_digit c then Some (Z.of_N (code c) - 48) else None.

(** The rest of a digit part, [([_] digit)*]: the digits read so far are
    worth [acc] and number [cnt]. *)
Fixpoint digits_tail (acc cnt : Z) (s : string) : Z * Z * string :=
  match s with
  | String c s' =>
      match digit_val c with
      | Some d => digits_tail (10 * acc + d) (cnt + 1) s'
      | None =>
          if Ascii.eqb c "_" then
            match s' with
            | String c2 s'' =>
                match digit_val c2 with
                | Some d => digits_tail (10 * acc + d) (cnt + 1) s''
                | None => (acc, cnt, s)
                end
            | "" => (acc, cnt, s)
            end
          else (acc, cnt, s)
      end
  | "" => (acc, cnt, s)
  end.

(** A digit part, [digit ([_] digit)*], continuing the value [acc]:
    the value, the number of digits and what follows. *)
Definition digitpart (acc : Z) (s : string) : option (Z * Z * string) :=
  match s with
  | String c s' =>
      match digit_val c with
      | Some d => Some (digits_tail (10 * acc + d) 1 s')
      | None => None
      end
  | "" => None
  end.

(** An optional sign: [true] for a minus. *)
Definition sign (s : string) : bool * string :=
  match s with
  | String "-" s' => (true, s')
  | String "+" s' => (false, s')
  | _ => (false, s)
  end.

(** [int(s)] on a string, in base ten: an optional sign and a digit
    part, of ASCII digits and of at most 4300 of them (the limit of
    CPython on the conversion of a string to an integer). *)
Definition int_of_str (s : string) : result Z :=
  let (neg, body) := sign (strip s) in
  match digitpart 0 body with
  | Some (v, cnt, "") =>
      if 4300 <? cnt then Raise ValueError
      else Ok (if neg then - v else v)
  | _ => Raise ValueError
  end.

(** The float nearest to [m * 10^e], for [0 <= m]. *)
Definition decimal_float (neg : bool) (m e : Z) : float :=
  match m with
  | Zpos p =>
      if 0 <=? e
      then binary_normalize prec emax (if neg then - (m * 10 ^ e) else m * 10 ^ e) 0 false
      else fdiv (S754_finite neg p 0) (exact_int (10 ^ (- e)))
  | _ => S754_zero neg
  end.

(** What may follow the mantissa [m * 10^(-k)]: nothing, or an exponent
    [(e|E) [sign] digitpart]. *)
Definition float_exponent (neg : bool) (m k : Z) (s : string) : result float :=
  match s with
  | "" => Ok (decimal_float neg m (- k))
  | String c s' =>
      if Ascii.eqb c "e" || Ascii.eqb c "E" then
        let (eneg, body) := sign s' in
        match digitpart 0 body with
        | Some (e, _, "") =>
            Ok (decimal_float neg m ((if eneg then - e else e) - k))
        | _ => Raise ValueError
        end
      else Raise ValueError
  end.

(** [float(s)] on a string: an optional sign, then [inf], [infinity],
    [nan] in any case, or a decimal number
    [digitpart [. [digitpart]] [exponent] | . digitpart [exponent]];
    the digits are those of ASCII. *)
Definition float_of_str (s : string) : result float :=
  let (neg, body) := sign (strip s) in
  let word := lower body in
  if String.eqb word "inf" || String.eqb word "infinity" then
    Ok (S754_infinity neg)
  else if String.eqb word "nan" then Ok S754_nan
  else
    match digitpart 0 body with
    | Some (ip, _, String "." rest) =>
        match digitpart ip rest with
        | Some (m, k, rest') => float_exponent neg m k rest'
        | None => float_exponent neg ip 0 rest
        end
    | Some (ip, _, rest) => float_exponent neg ip 0 rest
    | None =>
        match body with
        | String "." rest =>
            match digitpart 0 rest with
            | Some (m, k, rest') => float_exponent neg m k rest'
            | None => Raise ValueError
            end
        | _ => Raise ValueError
        end
    end.

(** [int(x)] on a float: the integer part; [OverflowError] on an
    infinity and [ValueError] on a NaN. *)
Definition int_of_float (x : float) : result Z :=
  match x with
  | S754_zero _ => Ok 0
  | S754_finite s m e =>
      let a := if 0 <=? e then Zpos m * 2 ^ e else Zpos m / 2 ^ (- e) in
      Ok (if s then - a else a)
  | S754_infinity _ => Raise OverflowError
  | S754_nan => Raise ValueError
  end.

End Py.

Import Py.

Declare Scope py_scope.
Delimit Scope py_scope with py.
Notation "x <- c ;; k" := (bind c (fun x => k))
  (at level 61, c at next level, right associativity) : py_scope.
Local Open Scope py_scope.

(* ================================================================== *)
(** * Dataklasser *)
(* ================================================================== *)

(** A number that is an [int] or a [float] at run time. *)
Inductive num : Type :=
| Int (z : Z)
| Float (x : float).

Record Nyckeltal : Type := mkNyckeltal {
  nettoomsattning : option Z;
  resultat_efter_finansiella : option Z;
  arets_resultat : option Z;
  eget_kapital : option Z;
  balansomslutning : option Z;
  soliditet : option num;
  antal_anstallda : option Z;
  vinstmarginal : option float;
  roe : option float
}.

Definition set_vinstmarginal (v : float) (n : Nyckeltal) : Nyckeltal :=
  mkNyckeltal (nettoomsattning n) (resultat_efter_finansiella n)
    (arets_resultat n) (eget_kapital n) (balansomslutning n) (soliditet n)
    (antal_anstallda n) (Some v) (roe n).

Definition set_roe (v : float) (n : Nyckeltal) : Nyckeltal :=
  mkNyckeltal (nettoomsattning n) (resultat_efter_finansiella n)
    (arets_resultat n) (eget_kapital n) (balansomslutning n) (soliditet n)
    (antal_anstallda n) (vinstmarginal n) (Some v).

(** ** [Nyckeltal.berakna_nyckeltal]

    The method mutates [self]: a method is a function from the object
    before the call to the outcome of the call and the object after it.
    An exception leaves the assignments made before it in place. *)

Definition method (A : Type) : Type := Nyckeltal -> result A * Nyckeltal.

Definition pass : method unit := fun self => (Ok tt, self).

(** [self.field = e], where evaluating [e] may raise. *)
Definition assign (set : float -> Nyckeltal -> Nyckeltal) (e : result float)
  : method unit :=
  fun self =>
    match e with
    | Ok v => (Ok tt, set v self)
    | Raise x => (Raise x, self)
    end.

(** Two statements in sequence. *)
Definition seq (s1 s2 : method unit) : method unit :=
  fun self =>
    match s1 self with
    | (Ok _, self') => s2 self'
    | (Raise x, self') => (Raise x, self')
    end.

(** [round((x / y) * 100, 2)] on two attributes of the object. *)
Definition procent (x y : option Z) : result float :=
  a <- as_int x ;;
  b <- as_int y ;;
  q <- int_truediv a b ;;
  p <- fmul_int q 100 ;;
  Ok (round2 p).

(** [x > 0] on an attribute, reached only when the attribute is true. *)
Definition positive_int (o : option Z) : bool :=
  match o with
  | Some z => 0 <? z
  | None => false
  end.

Definition berakna_nyckeltal : method unit :=
  seq
    (fun self =>
       if truthy (nettoomsattning self) && truthy (arets_resultat self)
       then assign set_vinstmarginal
              (procent (arets_resultat self) (nettoomsattning self)) self
       else pass self)
    (fun self =>
       if truthy (eget_kapital self) && truthy (arets_resultat self)
          && positive_int (eget_kapital self)
       then assign set_roe
              (procent (arets_resultat self) (eget_kapital self)) self
       else pass self).

Record Person : Type := mkPerson {
  fornamn : string;
  efternamn : string;
  roll : string;
  datum : option string
}.

(** A dictionary: the keys in insertion order, each at most once. *)
Definition dict (V : Type) : Type := list (string * V).

Fixpoint dict_get {V : Type} (k : string) (d : dict V) : option V :=
  match d with
  | [] => None
  | (k', v) :: d' => if String.eqb k k' then Some v else dict_get k d'
  end.

(** [d[k] = v]: an existing key keeps its place. *)
Fixpoint dict_set {V : Type} (k : string) (v : V) (d : dict V) : dict V :=
  match d with
  | [] => [(k, v)]
  | (k', v') :: d' =>
      if String.eqb k k' then (k, v) :: d' else (k', v') :: dict_set k v d'
  end.

(** [d[k]]. *)
Definition dict_item {V : Type} (k : string) (d : dict V) : result V :=
  match dict_get k d with
  | Some v => Ok v
  | None => Raise KeyError
  end.

Definition dict_keys {V : Type} (d : dict V) : list string := map fst d.

Record Arsredovisning : Type := mkArsredovisning {
  org_nummer : string;
  foretag_namn : string;
  rakenskapsar_start : string;
  rakenskapsar_slut : string;
  nyckeltal : Nyckeltal;
  personer : list Person;
  balansrakning : dict (dict (option Z));
  resultatrakning : dict (option Z);
  noter : dict string;
  metadata : dict string
}.


(** [Person.fullnamn]: [f"{self.fornamn} {self.efternamn}".strip()]. *)
Definition fullnamn (self : Person) : string :=
  strip (fornamn self ++ " " ++ efternamn self)%string.
(* ================================================================== *)
(** * API-hjälpfunktioner: organisation numbers *)
(* ================================================================== *)

Definition clean_org_nummer (org_nummer : string) : string :=
  replace " " "" (replace "-" "" org_nummer).

Definition format_org_nummer (org_nummer : string) : string :=
  let clean := clean_org_nummer org_nummer in
  if Nat.eqb (len clean) 10
  then (take 6 clean ++ "-" ++ drop 6 clean)%string
  else clean.

(** The pair is [(valid, message or cleaned number)]. *)
Definition validate_org_nummer (org_nummer : string) : bool * string :=
  let clean := clean_org_nummer org_nummer in
  if negb (isdigit clean) then
    (false, "Organisationsnummer får endast innehålla siffror")
  else if negb (Nat.eqb (len clean) 10 || Nat.eqb (len clean) 12) then
    (false, "Organisationsnummer måste vara 10 eller 12 siffror")
  else (true, clean).

(* ================================================================== *)
(** * iXBRL Parser *)
(* ================================================================== *)

(** ** The parsed document

    [BeautifulSoup(xhtml_content, 'lxml')] is the list of the tags of
    the document in document order; a tag has its name, its attributes
    and its text (the text of everything inside it). *)

Record Tag : Type := mkTag {
  tag_name : string;
  tag_attrs : dict string;
  tag_text : string
}.

Definition Soup : Type := list Tag.

(** [tag.get(key)] and [tag.get(key, default)]. *)
Definition tag_get (key : string) (t : Tag) : option string :=
  dict_get key (tag_attrs t).

Definition tag_get_default (key default : string) (t : Tag) : string :=
  match tag_get key t with
  | Some v => v
  | None => default
  end.

(** A requirement on one attribute: a string the value must equal, or a
    function applied to the value ([None] when the attribute is absent). *)
Inductive matcher : Type :=
| Exactly (v : string)
| Satisfies (p : option string -> bool).

Definition attr_matches (m : matcher) (v : option string) : bool :=
  match m, v with
  | Exactly s, Some x => String.eqb x s
  | Exactly _, None => false
  | Satisfies p, _ => p v
  end.

Definition tag_matches (name : string) (attrs : dict matcher) (t : Tag) : bool :=
  String.eqb (tag_name t) name &&
  forallb (fun km => attr_matches (snd km) (tag_get (fst km) t)) attrs.

(** [soup.find_all(name, attrs)] and [soup.find(name, attrs)]. *)
Definition find_all (name : string) (attrs : dict matcher) (soup : Soup)
  : list Tag :=
  filter (tag_matches name attrs) soup.

Definition find (name : string) (attrs : dict matcher) (soup : Soup)
  : option Tag :=
  List.find (tag_matches name attrs) soup.

(** ** [IXBRLParser] *)

(** What [_get_value] returns: an [int] or a [str]. *)
Inductive scalar : Type :=
| VInt (z : Z)
| VStr (s : string).

Definition int_value (v : option scalar) : option Z :=
  match v with
  | Some (VInt z) => Some z
  | _ => None
  end.

Definition str_value (v : option scalar) : option string :=
  match v with
  | Some (VStr s) => Some s
  | _ => None
  end.

(** [x or default] on an optional string. *)
Definition str_or (v : option string) (default : string) : string :=
  match v with
  | Some s => if str_truthy s then s else default
  | None => default
  end.

Section Parser.

(** [10 ** scale] for a negative [scale] is the float that the
    platform's [pow] gives. *)
Variable pow10_neg : Z -> float.

(** [10 ** scale]. *)
Definition pow10 (scale : Z) : num :=
  if scale <? 0 then Float (pow10_neg scale) else Int (10 ^ scale).

(** [x * y] for a float [x]. *)
Definition fmul_num (x : float) (y : num) : result float :=
  match y with
  | Int z => fmul_int x z
  | Float f => Ok (fmul x f)
  end.

(** The parser object is its [soup]. *)
Definition IXBRLParser : Type := Soup.

Definition name_match (name_pattern : string) (x : option string) : bool :=
  match x with
  | Some x => str_truthy x && contains (lower name_pattern) (lower x)
  | None => false
  end.

Definition _get_value (self : IXBRLParser) (name_pattern : string)
    (context : option string) (numeric : bool) : result (option scalar) :=
  let tag_type := if numeric then "ix:nonfraction" else "ix:nonnumeric" in
  let attrs := [("name", Satisfies (name_match name_pattern))] in
  let attrs :=
    match context with
    | Some c => if str_truthy c then dict_set "contextref" (Exactly c) attrs
                else attrs
    | None => attrs
    end in
  match find tag_type attrs self with
  | Some tag =>
      let value := strip (tag_text tag) in
      if numeric then
        let value := replace "−" "-" (replace "," "." (replace " " "" value)) in
        except_ValueError
          (scale <- int_of_str (tag_get_default "scale" "0" tag) ;;
           x <- float_of_str value ;;
           y <- fmul_num x (pow10 scale) ;;
           z <- int_of_float y ;;
           Ok (Some (VInt z)))
          (Ok None)
      else Ok (Some (VStr value))
  | None => Ok None
  end.

(** The two uses of [_get_value]. *)
Definition get_int (self : IXBRLParser) (name_pattern : string)
    (context : string) : result (option Z) :=
  v <- _get_value self name_pattern (Some context) true ;;
  Ok (int_value v).

Definition get_str (self : IXBRLParser) (name_pattern : string)
  : result string :=
  v <- _get_value self name_pattern None false ;;
  Ok (str_or (str_value v) "").

Definition get_metadata (self : IXBRLParser) : result (dict string) :=
  foretag_namn <- get_str self "ForetagetsNamn" ;;
  org_nummer <- get_str self "Organisationsnummer" ;;
  rakenskapsar_start <- get_str self "RakenskapsarForstaDag" ;;
  rakenskapsar_slut <- get_str self "RakenskapsarSistaDag" ;;
  undertecknat_datum <- get_str self "UndertecknandeDatum" ;;
  sate <- get_str self "ForetagetsSate" ;;
  Ok [("foretag_namn", foretag_namn);
      ("org_nummer", org_nummer);
      ("rakenskapsar_start", rakenskapsar_start);
      ("rakenskapsar_slut", rakenskapsar_slut);
      ("undertecknat_datum", undertecknat_datum);
      ("sate", sate)].

Definition get_nyckeltal (self : IXBRLParser) (period : string)
  : result Nyckeltal :=
  let balans := replace "period" "balans" period in
  oms <- get_int self "Nettoomsattning" period ;;
  ref <- get_int self "ResultatEfterFinansiellaPoster" period ;;
  res <- get_int self "AretsResultat" period ;;
  ek <- get_int self "EgetKapital" balans ;;
  tillgangar <- get_int self "Tillgangar" balans ;;
  bal <- (if truthy tillgangar then Ok tillgangar
          else get_int self "SummaEgetKapitalSkulder" balans) ;;
  sol <- get_int self "Soliditet" balans ;;
  ans <- get_int self "MedelantalAnstallda" period ;;
  let nyckeltal :=
    mkNyckeltal oms ref res ek bal (option_map Int sol) ans None None in
  match berakna_nyckeltal nyckeltal with
  | (Ok _, nyckeltal) => Ok nyckeltal
  | (Raise e, _) => Raise e
  end.

(** One turn of the loop of [get_flerarsoversikt]. *)
Definition flerarsoversikt_step (self : IXBRLParser)
    (oversikt : result (dict Nyckeltal)) (i : Z) : result (dict Nyckeltal) :=
  oversikt <- oversikt ;;
  let period := ("period" ++ str_of_int i)%string in
  nyckeltal <- get_nyckeltal self period ;;
  match nettoomsattning nyckeltal with
  | Some _ => Ok (dict_set period nyckeltal oversikt)
  | None => Ok oversikt
  end.

Definition get_flerarsoversikt (self : IXBRLParser) : result (dict Nyckeltal) :=
  fold_left (flerarsoversikt_step self) [0; 1; 2; 3] (Ok []).

(** The name filter of [get_personer], [lambda x: x and pat in x]. *)
Definition name_has (pat : string) (x : option string) : bool :=
  match x with
  | Some x => str_truthy x && contains pat x
  | None => false
  end.

(** The key of the set [seen]. *)
Definition person_key : Type := string * string * string.

Definition person_key_eqb (k1 k2 : person_key) : bool :=
  let '(a1, b1, c1) := k1 in
  let '(a2, b2, c2) := k2 in
  String.eqb a1 a2 && String.eqb b1 b2 && String.eqb c1 c2.

(** [key in seen]. *)
Definition key_in (key : person_key) (seen : list person_key) : bool :=
  existsb (person_key_eqb key) seen.

Definition patterns : list (string * string * option string) :=
  [("UnderskriftFaststallelseintygForetradareTilltalsnamn",
    "UnderskriftFaststallelseintygForetradareEfternamn",
    Some "UnderskriftFaststallelseintygForetradareForetradarroll");
   ("UnderskriftHandlingTilltalsnamn", "UnderskriftHandlingEfternamn", None);
   ("UnderskriftRevisionsberattelseRevisorTilltalsnamn",
    "UnderskriftRevisionsberattelseRevisorEfternamn",
    Some "UnderskriftRevisionsberattelseRevisorTitel")].

(** The text of the first [ix:nonnumeric] tag named like [pat] in the
    tuple [tuple_ref], or the empty string. *)
Definition tuple_text (self : IXBRLParser) (pat tuple_ref : string) : string :=
  match find "ix:nonnumeric"
          [("name", Satisfies (name_has pat)); ("tupleref", Exactly tuple_ref)]
          self with
  | Some t => strip (tag_text t)
  | None => ""
  end.

(** The body of the inner loop of [get_personer], on the lists
    [personer] and [seen]. *)
Definition personer_step (self : IXBRLParser)
    (pat : string * string * option string)
    (st : list Person * list person_key) (tag : Tag)
  : list Person * list person_key :=
  let '(fornamn_pat, efternamn_pat, roll_pat) := pat in
  let '(personer, seen) := st in
  let fornamn := strip (tag_text tag) in
  let tuple_ref := tag_get "tupleref" tag in
  let '(efternamn, roll) :=
    match tuple_ref with
    | Some ref =>
        if str_truthy ref then
          (tuple_text self efternamn_pat ref,
           match roll_pat with
           | Some rp => if str_truthy rp then tuple_text self rp ref else ""
           | None => ""
           end)
        else ("", "")
    | None => ("", "")
    end in
  let roll :=
    if negb (str_truthy roll) then
      if contains "Revisor" fornamn_pat then "Revisor"
      else if contains "Foretradar" fornamn_pat then "Företrädare"
      else "Styrelseledamot"
    else roll in
  let key := (fornamn, efternamn, roll) in
  if negb (key_in key seen) && str_truthy fornamn
  then (personer ++ [mkPerson fornamn efternamn roll None], key :: seen)
  else (personer, seen).

(** The outer loop: the tags of one pattern. *)
Definition personer_pattern (self : IXBRLParser)
    (st : list Person * list person_key)
    (pat : string * string * option string)
  : list Person * list person_key :=
  fold_left (personer_step self pat)
    (find_all "ix:nonnumeric"
       [("name", Satisfies (name_has (fst (fst pat))))] self)
    st.

Definition get_personer (self : IXBRLParser) : list Person :=
  fst (fold_left (personer_pattern self) patterns ([], [])).

(** The entries of a dictionary display [{key: self._get_value(pat,
    period), ...}], evaluated in order. *)
Fixpoint get_fields (self : IXBRLParser) (period : string)
    (fields : list (string * string)) : result (dict (option Z)) :=
  match fields with
  | [] => Ok []
  | (key, pat) :: rest =>
      v <- get_int self pat period ;;
      d <- get_fields self period rest ;;
      Ok ((key, v) :: d)
  end.

Definition get_balansrakning (self : IXBRLParser) (period : string)
  : result (dict (dict (option Z))) :=
  tillgangar <- get_fields self period
    [("immateriella", "ImmateriellAnlaggningstillgangar");
     ("materiella", "MateriellaAnlaggningstillgangar");
     ("finansiella", "FinansiellaAnlaggningstillgangar");
     ("varulager", "VarulagerMm");
     ("kundfordringar", "Kundfordringar");
     ("kassa_bank", "KassaBank");
     ("summa_omsattning", "Omsattningstillgangar");
     ("summa_tillgangar", "Tillgangar")] ;;
  eget_kapital_skulder <- get_fields self period
    [("aktiekapital", "Aktiekapital");
     ("balanserat_resultat", "BalanseratResultat");
     ("arets_resultat", "AretsResultatEgetKapital");
     ("summa_eget_kapital", "EgetKapital");
     ("langfristiga_skulder", "LangfristigaSkulder");
     ("kortfristiga_skulder", "KortfristigaSkulder");
     ("leverantorsskulder", "Leverantorsskulder");
     ("summa_skulder", "Skulder")] ;;
  Ok [("tillgangar", tillgangar);
      ("eget_kapital_skulder", eget_kapital_skulder)].

Definition get_resultatrakning (self : IXBRLParser) (period : string)
  : result (dict (option Z)) :=
  get_fields self period
    [("nettoomsattning", "Nettoomsattning");
     ("ovriga_rorelseinktakter", "OvrigaRorelseintakter");
     ("summa_intakter", "RorelseintakterLagerforandringarMm");
     ("varor_handelsvaror", "HandelsvarorKostnader");
     ("ovriga_externa_kostnader", "OvrigaExternaKostnader");
     ("personalkostnader", "Personalkostnader");
     ("avskrivningar",
      "AvskrivningarNedskrivningarMateriellaImmateriellaAnlaggningstillgangar");
     ("rorelseresultat", "Rorelseresultat");
     ("finansiella_intakter", "FinansiellaIntakter");
     ("finansiella_kostnader", "FinansiellaKostnader");
     ("resultat_efter_finansiella", "ResultatEfterFinansiellaPoster");
     ("skatt", "SkattAretsResultat");
     ("arets_resultat", "AretsResultat")].

Definition parse_full (self : IXBRLParser) : result Arsredovisning :=
  metadata <- get_metadata self ;;
  org_nummer <- dict_item "org_nummer" metadata ;;
  foretag_namn <- dict_item "foretag_namn" metadata ;;
  rakenskapsar_start <- dict_item "rakenskapsar_start" metadata ;;
  rakenskapsar_slut <- dict_item "rakenskapsar_slut" metadata ;;
  nyckeltal <- get_nyckeltal self "period0" ;;
  let personer := get_personer self in
  balansrakning <- get_balansrakning self "balans0" ;;
  resultatrakning <- get_resultatrakning self "period0" ;;
  Ok (mkArsredovisning org_nummer foretag_namn rakenskapsar_start
        rakenskapsar_slut nyckeltal personer balansrakning resultatrakning
        [] metadata).

End Parser.

(* ================================================================== *)
(** * Report retrieval and the tools built on it *)
(* ================================================================== *)

(** ** Strukturerade felkoder *)

Inductive ErrorCode : Type :=
| COMPANY_NOT_FOUND
| ANNUAL_REPORT_NOT_FOUND
| API_ERROR
| AUTH_ERROR
| PARSE_ERROR
| INVALID_INPUT
| EXPORT_ERROR.

(** The message of an error: a text, or [str(e)] of a caught exception. *)
Inductive message : Type :=
| Text (s : string)
| StrOf (e : exn).

Record MCPError : Type := mkMCPError {
  code : ErrorCode;
  error_message : message;
  details : dict string
}.

(** What a tool returns: a text, or [error.to_response()], the JSON
    document of an [MCPError]. *)
Inductive reply : Type :=
| Reply (text : string)
| to_response (error : MCPError).

Definition handle_error (code : ErrorCode) (msg : message)
    (details : dict string) : reply :=
  to_response (mkMCPError code msg details).

(** ** Pydantic-modeller *)

Inductive ResponseFormat : Type :=
| MARKDOWN | JSON | CSV | EXCEL | PDF | DOCX | PPTX | XHTML | ZIP.

(** [format.value]. *)
Definition format_value (f : ResponseFormat) : string :=
  match f with
  | MARKDOWN => "markdown"
  | JSON => "json"
  | CSV => "csv"
  | EXCEL => "excel"
  | PDF => "pdf"
  | DOCX => "docx"
  | PPTX => "pptx"
  | XHTML => "xhtml"
  | ZIP => "zip"
  end.

Record FinansiellDataInput : Type := mkFinansiellDataInput {
  fd_org_nummer : string;
  fd_index : Z;
  fd_response_format : ResponseFormat
}.

Record ExportInput : Type := mkExportInput {
  ex_org_nummer : string;
  ex_index : Z;
  ex_format : ResponseFormat;
  ex_filename : option string
}.

Record DownloadInput : Type := mkDownloadInput {
  dl_org_nummer : string;
  dl_index : Z;
  dl_format : string;
  dl_destination : option string
}.

(** ** The collaborators

    The network, the archive reader, the document parser and the
    renderers are outside the modelled core; a [World] gives what they
    answer. *)

Record Dokument : Type := mkDokument {
  dokumentId : option string
}.

Record World : Type := mkWorld {
  (** [make_api_request("POST", "/dokumentlista",
      {"identitetsbeteckning": nr}).get("dokument", [])] *)
  dokumentlista : string -> result (list Dokument);
  (** [download_document_bytes(dok_id)] *)
  download_document_bytes : option string -> result string;
  (** [zipfile.ZipFile(BytesIO(zip_bytes))]: the names of [namelist()] in
      order, each with [zf.read(name).decode('utf-8')] *)
  zip_members : string -> result (list (string * result string));
  (** [BeautifulSoup(xhtml_content, 'lxml')] *)
  parse_xhtml : string -> Soup;
  (** [pow(10.0, scale)] for a negative [scale] *)
  libm_pow10 : Z -> float;
  (** what the tools do with a report once it is retrieved *)
  render_nyckeltal : Arsredovisning -> ResponseFormat -> result string;
  render_export : Arsredovisning * string * string -> ExportInput
                  -> result string;
  render_download : Arsredovisning * string * string -> DownloadInput
                    -> result reply
}.

Section Server.

Variable world : World.

(** The loop over [zf.namelist()]: the content of the first member whose
    name ends in [.xhtml], [.html] or [.xml]. *)
Fixpoint first_xhtml (members : list (string * result string))
  : result (option string) :=
  match members with
  | [] => Ok None
  | (name, content) :: rest =>
      if endswith ".xhtml" (lower name) || endswith ".html" (lower name)
         || endswith ".xml" (lower name)
      then xhtml_content <- content ;; Ok (Some xhtml_content)
      else first_xhtml rest
  end.

Definition fetch_and_parse_arsredovisning (org_nummer : string) (index : Z)
  : result (Arsredovisning * string * string) :=
  let clean_nr := clean_org_nummer org_nummer in
  dokument <- dokumentlista world clean_nr ;;
  match dokument with
  | [] => Raise (Exception "Inga årsredovisningar hittades")
  | _ =>
      if Z.of_nat (List.length dokument) <=? index then
        Raise (Exception ("Index " ++ str_of_int index
                          ++ " finns inte. Det finns "
                          ++ str_of_int (Z.of_nat (List.length dokument))
                          ++ " årsredovisningar.")%string)
      else
        dok <- list_index dokument index ;;
        let dok_id := dokumentId dok in
        zip_bytes <- download_document_bytes world dok_id ;;
        members <- zip_members world zip_bytes ;;
        xhtml_content <- first_xhtml members ;;
        match xhtml_content with
        | Some xhtml_content =>
            if negb (str_truthy xhtml_content) then
              Raise (Exception "Ingen XHTML-fil hittades i ZIP-arkivet")
            else
              let parser := parse_xhtml world xhtml_content in
              arsredovisning <- parse_full (libm_pow10 world) parser ;;
              Ok (arsredovisning, xhtml_content, zip_bytes)
        | None => Raise (Exception "Ingen XHTML-fil hittades i ZIP-arkivet")
        end
  end.

(** ** The tools that take a filing index *)

Definition bolagsverket_get_nyckeltal (params : FinansiellDataInput) : reply :=
  except_Exception
    (let (valid, result) := validate_org_nummer (fd_org_nummer params) in
     if negb valid then Ok (handle_error INVALID_INPUT (Text result) [])
     else
       fetched <- fetch_and_parse_arsredovisning result (fd_index params) ;;
       let '(arsredovisning, _, _) := fetched in
       text <- render_nyckeltal world arsredovisning
                 (fd_response_format params) ;;
       Ok (Reply text))
    (fun r => r)
    (fun e => handle_error ANNUAL_REPORT_NOT_FOUND (StrOf e)
                [("org_nummer", fd_org_nummer params)]).

Definition bolagsverket_export (params : ExportInput) : reply :=
  except_Exception
    (let (valid, result) := validate_org_nummer (ex_org_nummer params) in
     if negb valid then Ok (handle_error INVALID_INPUT (Text result) [])
     else
       fetched <- fetch_and_parse_arsredovisning result (ex_index params) ;;
       text <- render_export world fetched params ;;
       Ok (Reply text))
    (fun r => r)
    (fun e => handle_error EXPORT_ERROR (StrOf e)
                [("format", format_value (ex_format params))]).

Definition bolagsverket_download_original (params : DownloadInput) : reply :=
  except_Exception
    (let (valid, result) := validate_org_nummer (dl_org_nummer params) in
     if negb valid then Ok (handle_error INVALID_INPUT (Text result) [])
     else
       fetched <- fetch_and_parse_arsredovisning result (dl_index params) ;;
       render_download world fetched params)
    (fun r => r)
    (fun e => handle_error EXPORT_ERROR (StrOf e) []).

End Server.


(* ================================================================== *)
(** * Jämförelse och snapshot: the debt ratio *)
(* ================================================================== *)

(** [calc_skuldsattning], the local function of [bolagsverket_compare];
    [bolagsverket_finansiell_snapshot] computes its [skuldsattning] by
    the same statements. *)
Definition calc_skuldsattning (nyckeltal : Nyckeltal) : result (option float) :=
  if truthy (eget_kapital nyckeltal) && truthy (balansomslutning nyckeltal)
     && positive_int (eget_kapital nyckeltal)
  then
    bal <- as_int (balansomslutning nyckeltal) ;;
    ek <- as_int (eget_kapital nyckeltal) ;;
    let skulder := bal - ek in
    q <- int_truediv skulder ek ;;
    Ok (Some (round2 q))
  else Ok None.

(** The assessment ([bedomning]) that the snapshot prints beside the
    debt ratio. *)
Definition bedomning_skuldsattning (skuldsattning : float) : string :=
  if float_gt_int skuldsattning 3 then "⚠️ Hög"
  else if float_gt_int skuldsattning 2 then "⚡ Förhöjd"
  else "✓ Normal".
(* ================================================================== *)
(** * Djupanalys: the risk classifier *)
(* ================================================================== *)

Inductive RiskLevel : Type :=
| CRITICAL
| HIGH
| MEDIUM
| LOW
| INFO.

(** The [value] of a flag is a formatted text; the flag keeps the format
    and the numbers that go into it. *)
Inductive flag_value : Type :=
| fmt_sek (z : Z)                 (* f"{z:,} SEK" *)
| fmt_ek_ak (ek ak : Z)           (* f"EK: {ek:,} vs AK: {ak:,}" *)
| fmt_percent (x : num)           (* f"{x}%" *)
| fmt_ratio (x : float)           (* f"{x:.1f}x" *)
| fmt_percent1 (x : float).       (* f"{x:.1f}%" *)

Record RiskFlag : Type := mkRiskFlag {
  level : RiskLevel;
  category : string;
  description : string;
  value : option flag_value;
  recommendation : option string
}.

(** Truth value and comparisons of a number that is an [int] or a
    [float]. *)
Definition num_truthy (o : option num) : bool :=
  match o with
  | Some (Int z) => negb (z =? 0)
  | Some (Float x) => float_truthy x
  | None => false
  end.

Definition num_lt (x : num) (z : Z) : bool :=
  match x with
  | Int a => a <? z
  | Float f => float_lt_int f z
  end.

Definition num_gt (x : num) (z : Z) : bool :=
  match x with
  | Int a => z <? a
  | Float f => float_gt_int f z
  end.

Definition num_ge (x : num) (z : Z) : bool :=
  match x with
  | Int a => z <=? a
  | Float f => float_ge_int f z
  end.

(** The float [0.5]. *)
Definition half : float := S754_finite false 4503599627370496 (-53).

(** [sorted] on a list of strings. *)
Fixpoint insert_sorted (s : string) (l : list string) : list string :=
  match l with
  | [] => [s]
  | t :: l' => if String.leb s t then s :: l else t :: insert_sorted s l'
  end.

Definition sorted (l : list string) : list string :=
  fold_right insert_sorted [] l.

(** ** The rules of [analyze_risks], in the order of the source.  Each
    gives the flags that its block appends. *)

(* Negativt eget kapital *)
Definition rule_negativt_eget_kapital (nyckeltal : Nyckeltal) : list RiskFlag :=
  match eget_kapital nyckeltal with
  | Some ek =>
      if truthy (Some ek) && (ek <? 0) then
        [mkRiskFlag CRITICAL "Kapitalstruktur" "Negativt eget kapital"
           (Some (fmt_sek ek))
           (Some "Bolaget kan behöva kapitaltillskott eller kontrollbalansräkning")]
      else []
  | None => []
  end.

(* Kontrollbalansräkning (EK < 50% av aktiekapital) *)
Definition rule_kontrollbalansrakning (nyckeltal : Nyckeltal)
    (balans : dict (dict (option Z))) : result (list RiskFlag) :=
  let aktiekapital :=
    match dict_get "eget_kapital_skulder" balans with
    | Some d => match dict_get "aktiekapital" d with
                | Some v => v
                | None => None
                end
    | None => None
    end in
  if truthy aktiekapital && truthy (eget_kapital nyckeltal) then
    ak <- as_int aktiekapital ;;
    ek <- as_int (eget_kapital nyckeltal) ;;
    limit <- int_mul_float ak half ;;
    if int_lt_float ek limit then
      Ok [mkRiskFlag CRITICAL "Kapitalstruktur"
            "Eget kapital understiger 50% av aktiekapitalet"
            (Some (fmt_ek_ak ek ak))
            (Some "Kontrollbalansräkning kan vara aktuell enligt ABL 25 kap")]
    else Ok []
  else Ok [].

(* Negativ soliditet *)
Definition rule_negativ_soliditet (nyckeltal : Nyckeltal) : list RiskFlag :=
  match soliditet nyckeltal with
  | Some s =>
      if num_truthy (Some s) && num_lt s 0 then
        [mkRiskFlag CRITICAL "Finansiell styrka" "Negativ soliditet"
           (Some (fmt_percent s))
           (Some "Allvarlig finansiell obalans - överväg rekonstruktion")]
      else []
  | None => []
  end.

(* Låg soliditet *)
Definition rule_lag_soliditet (nyckeltal : Nyckeltal) : list RiskFlag :=
  match soliditet nyckeltal with
  | Some s =>
      if num_truthy (Some s) && (num_gt s 0 && num_lt s 20) then
        [mkRiskFlag HIGH "Finansiell styrka" "Låg soliditet (under 20%)"
           (Some (fmt_percent s))
           (Some "Stärk eget kapital genom nyemission eller balanserade vinster")]
      else []
  | None => []
  end.

(* Förlust *)
Definition rule_forlust (nyckeltal : Nyckeltal) : list RiskFlag :=
  match arets_resultat nyckeltal with
  | Some res =>
      if truthy (Some res) && (res <? 0) then
        [mkRiskFlag HIGH "Lönsamhet" "Förlust under räkenskapsåret"
           (Some (fmt_sek res))
           (Some "Analysera kostnadsstruktur och intäktsmöjligheter")]
      else []
  | None => []
  end.

(* Negativ vinstmarginal *)
Definition rule_negativ_vinstmarginal (nyckeltal : Nyckeltal) : list RiskFlag :=
  match vinstmarginal nyckeltal with
  | Some vm =>
      if float_truthy vm && float_lt_int vm (-10) then
        [mkRiskFlag HIGH "Lönsamhet" "Kraftigt negativ vinstmarginal"
           (Some (fmt_percent (Float vm)))
           (Some "Omgående kostnadsöversyn behövs")]
      else []
  | None => []
  end.

(* Hög skuldsättning *)
Definition rule_hog_skuldsattning (nyckeltal : Nyckeltal)
  : result (list RiskFlag) :=
  if truthy (eget_kapital nyckeltal) && truthy (balansomslutning nyckeltal) then
    bal <- as_int (balansomslutning nyckeltal) ;;
    ek <- as_int (eget_kapital nyckeltal) ;;
    let skulder := bal - ek in
    if 0 <? ek then
      skuldsattningsgrad <- int_truediv skulder ek ;;
      if float_gt_int skuldsattningsgrad 3 then
        Ok [mkRiskFlag HIGH "Skuldsättning" "Hög skuldsättningsgrad (över 3x)"
              (Some (fmt_ratio skuldsattningsgrad))
              (Some "Överväg amortering eller kapitaltillskott")]
      else Ok []
    else Ok []
  else Ok [].

(* Låg vinstmarginal *)
Definition rule_lag_vinstmarginal (nyckeltal : Nyckeltal) : list RiskFlag :=
  match vinstmarginal nyckeltal with
  | Some vm =>
      if float_truthy vm && (float_gt_int vm 0 && float_lt_int vm 3) then
        [mkRiskFlag MEDIUM "Lönsamhet" "Låg vinstmarginal (under 3%)"
           (Some (fmt_percent (Float vm)))
           (Some "Överväg prissättning och kostnadseffektivisering")]
      else []
  | None => []
  end.

(* Soliditet 20-30% (acceptabel men bör förbättras) *)
Definition rule_mattlig_soliditet (nyckeltal : Nyckeltal) : list RiskFlag :=
  match soliditet nyckeltal with
  | Some s =>
      if num_truthy (Some s) && (num_ge s 20 && num_lt s 30) then
        [mkRiskFlag MEDIUM "Finansiell styrka" "Måttlig soliditet (20-30%)"
           (Some (fmt_percent s))
           (Some "Fortsätt stärka eget kapital")]
      else []
  | None => []
  end.

(* Inga anställda rapporterade *)
Definition rule_inga_anstallda (nyckeltal : Nyckeltal) : list RiskFlag :=
  if negb (truthy (antal_anstallda nyckeltal)) then
    [mkRiskFlag INFO "Personal" "Inga anställda rapporterade" None
       (Some "Kan vara korrekt för holdingbolag eller enmansföretag")]
  else [].

(* Fallande omsättning *)
Definition rule_fallande_omsattning (first_year last_year : Nyckeltal)
  : result (list RiskFlag) :=
  if truthy (nettoomsattning first_year) && truthy (nettoomsattning last_year)
  then
    first <- as_int (nettoomsattning first_year) ;;
    last <- as_int (nettoomsattning last_year) ;;
    if 0 <? first then
      q <- int_truediv (last - first) first ;;
      change <- fmul_int q 100 ;;
      if float_lt_int change (-20) then
        Ok [mkRiskFlag HIGH "Tillväxt" "Fallande omsättning (över 20%)"
              (Some (fmt_percent1 change))
              (Some "Analysera marknadsposition och konkurrenskraft")]
      else if float_lt_int change (-10) then
        Ok [mkRiskFlag MEDIUM "Tillväxt" "Sjunkande omsättning (10-20%)"
              (Some (fmt_percent1 change))
              (Some "Bevaka marknadsutvecklingen")]
      else Ok []
    else Ok []
  else Ok [].

(* Trendbaserade flaggor (om trend-data finns) *)
Definition rule_trender (trends : option (dict Nyckeltal))
  : result (list RiskFlag) :=
  match trends with
  | Some ((_ :: _) as trends) =>
      let years := sorted (dict_keys trends) in
      if (2 <=? List.length years)%nat then
        key <- list_index years (-1) ;;
        first_year <- dict_item key trends ;;
        key <- list_index years 0 ;;
        last_year <- dict_item key trends ;;
        rule_fallande_omsattning first_year last_year
      else Ok []
  | _ => Ok []
  end.

Definition analyze_risks (arsredovisning : Arsredovisning)
    (trends : option (dict Nyckeltal)) : result (list RiskFlag) :=
  let flags := [] in
  let nyckeltal := nyckeltal arsredovisning in
  let balans := balansrakning arsredovisning in
  let flags := flags ++ rule_negativt_eget_kapital nyckeltal in
  kontrollbalansrakning <- rule_kontrollbalansrakning nyckeltal balans ;;
  let flags := flags ++ kontrollbalansrakning in
  let flags := flags ++ rule_negativ_soliditet nyckeltal in
  let flags := flags ++ rule_lag_soliditet nyckeltal in
  let flags := flags ++ rule_forlust nyckeltal in
  let flags := flags ++ rule_negativ_vinstmarginal nyckeltal in
  skuldsattning <- rule_hog_skuldsattning nyckeltal ;;
  let flags := flags ++ skuldsattning in
  let flags := flags ++ rule_lag_vinstmarginal nyckeltal in
  let flags := flags ++ rule_mattlig_soliditet nyckeltal in
  let flags := flags ++ rule_inga_anstallda nyckeltal in
  trender <- rule_trender trends ;;
  Ok (flags ++ trender).

(* ================================================================== *)
(** * Vocabulary of the statements and sample inputs *)
(* ================================================================== *)


Definition present_nonzero (o : option Z) : Prop :=
  exists z, o = Some z /\ z <> 0.

Definition present_positive (o : option Z) : Prop :=
  exists z, o = Some z /\ 0 < z.

Definition nyckeltal_av (oms res ek bal : option Z) : Nyckeltal :=
  mkNyckeltal oms None res ek bal None None None None.

Definition f5 : float := S754_finite false 5629499534213120 (-50).
Definition f10 : float := S754_finite false 5629499534213120 (-49).

(** [remove c s] is [s] without the occurrences of the character [c]. *)
Fixpoint remove (c : ascii) (s : string) : string :=
  match s with
  | EmptyString => EmptyString
  | String d s' => if ascii_dec c d then remove c s' else String d (remove c s')
  end.

(** [lacks c s]: the character [c] does not occur in [s]. *)
Fixpoint lacks (c : ascii) (s : string) : Prop :=
  match s with
  | EmptyString => True
  | String d s' => c <> d /\ lacks c s'
  end.

Definition hyphen : ascii := "-"%char.
Definition space : ascii := " "%char.

Definition f3 : float := S754_finite false 6755399441055744 (-51).
Definition f4 : float := S754_finite false 4503599627370496 (-50).

Definition f50000 : float :=
  Eval vm_compute in fdiv (exact_int 50000) (exact_int 1).

Definition f1234_5 : float :=
  Eval vm_compute in fdiv (exact_int 12345) (exact_int 10).

(** The triple that [get_personer] uses as the key of a person. *)
Definition key_of (p : Person) : person_key :=
  (fornamn p, efternamn p, roll p).

(** The loop invariant of [get_personer]: the persons listed so far have distinct keys,
    all of them recorded in [seen]. *)
Definition personer_inv (st : list Person * list person_key) : Prop :=
  NoDup (map key_of (fst st)) /\
  forall p, In p (fst st) -> In (key_of p) (snd st).

(** A document in which the general signature block and the
    representative block name the same person with the same role. *)
Definition soup_samma_person : Soup :=
  [mkTag "ix:nonnumeric"
     [("name", "se-gen-base:UnderskriftFaststallelseintygForetradareTilltalsnamn");
      ("tupleref", "t1")] " Anna ";
   mkTag "ix:nonnumeric"
     [("name", "se-gen-base:UnderskriftFaststallelseintygForetradareEfternamn");
      ("tupleref", "t1")] "Berg";
   mkTag "ix:nonnumeric"
     [("name", "se-gen-base:UnderskriftFaststallelseintygForetradareForetradarroll");
      ("tupleref", "t1")] "Styrelseledamot";
   mkTag "ix:nonnumeric"
     [("name", "se-gen-base:UnderskriftHandlingTilltalsnamn");
      ("tupleref", "t2")] "Anna";
   mkTag "ix:nonnumeric"
     [("name", "se-gen-base:UnderskriftHandlingEfternamn");
      ("tupleref", "t2")] "Berg"].

(** A document with one numeric fact, of the given text and scale. *)
Definition soup_fact (text : string) (scale : option string) : Soup :=
  [mkTag "ix:nonfraction"
     (("name", "se-gen-base:Nettoomsattning") :: ("contextref", "period0") ::
      match scale with
      | Some s => [("scale", s)]
      | None => []
      end)
     text].

(** The separators of a numeric text normalised as [_get_value] does. *)
Definition normalised (text : string) : string :=
  replace "−" "-" (replace "," "." (replace " " "" (strip text))).

(** The float [M0 * 2^e] for [2^52 <= M0 <= 2^53]. *)
Definition finish (s : bool) (M0 e : Z) : float :=
  if M0 <? 2 ^ 53 then S754_finite s (Z.to_pos M0) e
  else S754_finite s (Z.to_pos (2 ^ 52)) (e + 1).

(** The findings that the claims single out. *)
Definition level_eqb (a b : RiskLevel) : bool :=
  match a, b with
  | CRITICAL, CRITICAL | HIGH, HIGH | MEDIUM, MEDIUM | LOW, LOW | INFO, INFO => true
  | _, _ => false
  end.

(** A High finding of the category leverage ("Skuldsättning"). *)
Definition is_leverage (f : RiskFlag) : bool :=
  level_eqb (level f) HIGH && String.eqb (category f) "Skuldsättning".

(** The Critical finding of the category capital structure
    ("Kapitalstruktur") that reports equity below half the share capital. *)
Definition is_erosion (f : RiskFlag) : bool :=
  level_eqb (level f) CRITICAL && String.eqb (category f) "Kapitalstruktur"
  && String.eqb (description f) "Eget kapital understiger 50% av aktiekapitalet".

(** A finding of the category growth ("Tillväxt"). *)
Definition is_growth (f : RiskFlag) : bool :=
  String.eqb (category f) "Tillväxt".

(** The key of period [i] in a multi-year overview. *)
Definition period (i : Z) : string := ("period" ++ str_of_int i)%string.

(** [pow(10.0, scale)] rounded correctly, for the closed examples. *)
Definition pow10_rounded (scale : Z) : float :=
  fdiv (exact_int 1) (exact_int (10 ^ (- scale))).

(** A report with the given key metrics and share capital, all else
    empty. *)
Definition arsredovisning_av (n : Nyckeltal) (aktiekapital : option Z)
  : Arsredovisning :=
  mkArsredovisning "" "" "" "" n []
    [("eget_kapital_skulder", [("aktiekapital", aktiekapital)])] [] [] [].

(** The findings of the three rules that the claims are about. *)
Definition flag_hog_skuldsattning (skuldsattningsgrad : float) : RiskFlag :=
  mkRiskFlag HIGH "Skuldsättning" "Hög skuldsättningsgrad (över 3x)"
    (Some (fmt_ratio skuldsattningsgrad))
    (Some "Överväg amortering eller kapitaltillskott").

Definition flag_kontrollbalansrakning (ek ak : Z) : RiskFlag :=
  mkRiskFlag CRITICAL "Kapitalstruktur"
    "Eget kapital understiger 50% av aktiekapitalet"
    (Some (fmt_ek_ak ek ak))
    (Some "Kontrollbalansräkning kan vara aktuell enligt ABL 25 kap").

Definition flag_fallande (change : float) : RiskFlag :=
  mkRiskFlag HIGH "Tillväxt" "Fallande omsättning (över 20%)"
    (Some (fmt_percent1 change))
    (Some "Analysera marknadsposition och konkurrenskraft").

Definition flag_sjunkande (change : float) : RiskFlag :=
  mkRiskFlag MEDIUM "Tillväxt" "Sjunkande omsättning (10-20%)"
    (Some (fmt_percent1 change))
    (Some "Bevaka marknadsutvecklingen").

(** The share capital that [analyze_risks] reads from the balance sheet. *)
Definition aktiekapital_av (balans : dict (dict (option Z))) : option Z :=
  match dict_get "eget_kapital_skulder" balans with
  | Some d => match dict_get "aktiekapital" d with
              | Some v => v
              | None => None
              end
  | None => None
  end.

(** The findings of a report without a multi-year overview. *)
Definition flags_av (a : Arsredovisning) : list RiskFlag :=
  match analyze_risks a None with
  | Ok flags => flags
  | Raise _ => []
  end.

(** A period is retained in the overview when its revenue is present. *)
Definition retained (kn : string * Nyckeltal) : bool :=
  match nettoomsattning (snd kn) with
  | Some _ => true
  | None => false
  end.

(** The overview of four periods with the given key metrics. *)
Definition oversikt_av (n0 n1 n2 n3 : Nyckeltal) : dict Nyckeltal :=
  filter retained
    [(period 0, n0); (period 1, n1); (period 2, n2); (period 3, n3)].

(** Periods [i] and [j] are the lowest and the highest retained ones. *)
Definition lowest_and_highest (trends : dict Nyckeltal) (i j : Z)
    (newest oldest : Nyckeltal) : Prop :=
  0 <= i < j /\ j <= 3 /\
  dict_get (period i) trends = Some newest /\
  dict_get (period j) trends = Some oldest /\
  (forall k, 0 <= k < i -> dict_get (period k) trends = None) /\
  (forall k, j < k <= 3 -> dict_get (period k) trends = None).

(** The growth findings [growth] are those that the revenues of
    [newest] and [oldest] call for. *)
Definition growth_outcome (newest oldest : Nyckeltal)
    (growth : list RiskFlag) : Prop :=
  exists rn ro,
    nettoomsattning newest = Some rn /\ nettoomsattning oldest = Some ro /\
    (rn = 0 \/ ro <= 0 -> growth = []) /\
    (rn <> 0 -> 0 < ro ->
     exists q change,
       int_truediv (rn - ro) ro = Ok q /\ fmul_int q 100 = Ok change /\
       (float_lt_int change (-20) = true -> growth = [flag_fallande change]) /\
       (float_ge_int change (-20) = true -> float_lt_int change (-10) = true ->
        growth = [flag_sjunkande change]) /\
       (float_ge_int change (-10) = true -> growth = [])).

(** A document with the given revenue texts for periods 0 to 3. *)
Definition soup_omsattning (texts : list (option string)) : Soup :=
  List.concat
    (map (fun it =>
            match snd it with
            | Some text =>
                [mkTag "ix:nonfraction"
                   [("name", "se-gen-base:Nettoomsattning");
                    ("contextref", period (fst it))] text]
            | None => []
            end)
         (combine [0; 1; 2; 3] texts)).

(** The overview and the report of a document, for the closed examples. *)
Definition oversikt_i (soup : Soup) : dict Nyckeltal :=
  match get_flerarsoversikt pow10_rounded soup with
  | Ok trends => trends
  | Raise _ => []
  end.

Definition nyckeltal_i (soup : Soup) (i : Z) : Nyckeltal :=
  match get_nyckeltal pow10_rounded soup (period i) with
  | Ok n => n
  | Raise _ => nyckeltal_av None None None None
  end.

Definition arsredovisning_i (soup : Soup) : Arsredovisning :=
  match parse_full pow10_rounded soup with
  | Ok a => a
  | Raise _ => arsredovisning_av (nyckeltal_av None None None None) None
  end.

Definition trendflaggor (soup : Soup) : list RiskFlag :=
  match analyze_risks (arsredovisning_i soup) (Some (oversikt_i soup)) with
  | Ok flags => flags
  | Raise _ => []
  end.

(** The changes of the examples: -30, -15, -5 and -100 per cent. *)
Definition change_av (newest oldest : Z) : float :=
  match int_truediv (newest - oldest) oldest with
  | Ok q => fmul q (exact_int 100)
  | Raise _ => S754_nan
  end.

Definition fm30 : float := Eval vm_compute in change_av 700000 1000000.
Definition fm15 : float := Eval vm_compute in change_av 850000 1000000.
Definition fm5 : float := Eval vm_compute in change_av 950000 1000000.
Definition fm100 : float := Eval vm_compute in change_av 0 1000000.

(** A world in which every organisation has the filings [docs]; nothing
    else is asked of it in the examples. *)
Definition world_med (docs : list Dokument) : World :=
  mkWorld (fun _ => Ok docs) (fun _ => Ok "") (fun _ => Ok [])
    (fun _ => []) pow10_rounded
    (fun _ _ => Ok "") (fun _ _ => Ok "") (fun _ _ => Ok (Reply "")).

(** The code of a reply, when it is an error. *)
Definition error_code (r : reply) : option ErrorCode :=
  match r with
  | to_response e => Some (code e)
  | Reply _ => None
  end.


From Stdlib Require Import Sorted.

(** The severity of a level, most severe first. *)
Definition rank (l : RiskLevel) : nat :=
  match l with
  | CRITICAL => 0
  | HIGH => 1
  | MEDIUM => 2
  | LOW => 3
  | INFO => 4
  end.

(** A finding is at least as severe as another one. *)
Definition at_least_as_severe (f g : RiskFlag) : Prop :=
  (rank (level f) <= rank (level g))%nat.

(** A finding of the category financial strength ("Finansiell styrka"),
    the category of the three findings on the equity ratio. *)
Definition is_styrka (f : RiskFlag) : bool :=
  String.eqb (category f) "Finansiell styrka".

(** The findings of the rules on the equity ratio, on the equity and on
    the staff. *)
Definition flag_negativ_soliditet (s : num) : RiskFlag :=
  mkRiskFlag CRITICAL "Finansiell styrka" "Negativ soliditet"
    (Some (fmt_percent s))
    (Some "Allvarlig finansiell obalans - överväg rekonstruktion").

Definition flag_lag_soliditet (s : num) : RiskFlag :=
  mkRiskFlag HIGH "Finansiell styrka" "Låg soliditet (under 20%)"
    (Some (fmt_percent s))
    (Some "Stärk eget kapital genom nyemission eller balanserade vinster").

Definition flag_mattlig_soliditet (s : num) : RiskFlag :=
  mkRiskFlag MEDIUM "Finansiell styrka" "Måttlig soliditet (20-30%)"
    (Some (fmt_percent s))
    (Some "Fortsätt stärka eget kapital").

Definition flag_negativt_eget_kapital (ek : Z) : RiskFlag :=
  mkRiskFlag CRITICAL "Kapitalstruktur" "Negativt eget kapital"
    (Some (fmt_sek ek))
    (Some "Bolaget kan behöva kapitaltillskott eller kontrollbalansräkning").

Definition flag_inga_anstallda : RiskFlag :=
  mkRiskFlag INFO "Personal" "Inga anställda rapporterade" None
    (Some "Kan vara korrekt för holdingbolag eller enmansföretag").

(** A finding is well formed: its level is one of the four that the
    classifier uses, it carries a recommendation, and it carries a value
    unless it is the informational one. *)
Definition well_formed (f : RiskFlag) : Prop :=
  level f <> LOW /\ recommendation f <> None /\
  (value f = None <-> level f = INFO).

(** A report with the given key metrics, equity ratio included. *)
Definition nyckeltal_med (oms res ek bal : option Z) (sol : option num)
    (ans : option Z) (vm : option float) : Nyckeltal :=
  mkNyckeltal oms None res ek bal sol ans vm None.

(** A member name that the retrieval takes for the report: it ends, in
    any case of the letters, in [.xhtml], [.html] or [.xml]. *)
Definition is_xhtml_name (name : string) : bool :=
  endswith ".xhtml" (lower name) || endswith ".html" (lower name)
  || endswith ".xml" (lower name).

(** No member of [members] has such a name. *)
Definition no_xhtml (members : list (string * result string)) : bool :=
  forallb (fun m => negb (is_xhtml_name (fst m))) members.

(** The two messages of [validate_org_nummer]. *)
Definition msg_siffror : string :=
  "Organisationsnummer får endast innehålla siffror".

Definition msg_langd : string :=
  "Organisationsnummer måste vara 10 eller 12 siffror".

(** A world whose only filing is an archive with the given members, the
    content of a member being the document itself. *)
Definition world_arkiv (members : list (string * result string))
    (parse : string -> Soup) : World :=
  mkWorld (fun _ => Ok [mkDokument (Some "dok-1")]) (fun _ => Ok "zip")
    (fun _ => Ok members) parse pow10_rounded
    (fun _ _ => Ok "") (fun _ _ => Ok "") (fun _ _ => Ok (Reply "")).

(** The key metrics of a document without numeric facts. *)
Definition nyckeltal_tomt : Nyckeltal :=
  mkNyckeltal None None None None None None None None None.

(** The balance context of period [i]. *)
Definition balans (i : Z) : string := ("balans" ++ str_of_int i)%string.

(** A person that [get_personer] lists is named: the first name is the
    stripped, non-empty text of an [ix:nonnumeric] tag of the document,
    the role is not empty and there is no date. *)
Definition named_in (self : IXBRLParser) (p : Person) : Prop :=
  fornamn p <> ""%string /\ roll p <> ""%string /\ datum p = None /\
  exists tag, In tag self /\ tag_name tag = "ix:nonnumeric"%string /\
              fornamn p = strip (tag_text tag).

(** The first letter of the word [period]. *)
Definition p_char : ascii := "p"%char.

(** A document with a representative that has no tuple reference. *)
Definition soup_utan_tupel : Soup :=
  [mkTag "ix:nonnumeric"
     [("name", "se-gen-base:UnderskriftHandlingTilltalsnamn")] " Eva "].

(** A document with total assets of zero and a sum of equity and
    liabilities for period 0. *)
Definition soup_tillgangar_noll : Soup :=
  [mkTag "ix:nonfraction"
     [("name", "se-gen-base:Tillgangar"); ("contextref", "balans0")] "0";
   mkTag "ix:nonfraction"
     [("name", "se-gen-base:SummaEgetKapitalSkulder");
      ("contextref", "balans0")] "1 500"].

From Stdlib Require Import DecimalPos.

(** A printable character of ASCII other than the space. *)
Definition graph (c : ascii) : bool := between 33 126 c.

(** The element that a numeric query selects: the first
    [ix:nonfraction] element, in document order, whose name contains the
    pattern (in any case of the letters) and whose context is the one
    asked for. *)
Definition fact (self : IXBRLParser) (name_pattern context : string)
  : option Tag :=
  find "ix:nonfraction"
    (if str_truthy context
     then [("name", Satisfies (name_match name_pattern));
           ("contextref", Exactly context)]
     else [("name", Satisfies (name_match name_pattern))])
    self.

(** A run of whitespace characters. *)
Inductive blank : string -> Prop :=
| blank_nil : blank ""
| blank_cons (s r : string) : after_space s = Some r -> blank r -> blank s.

(** A byte that does not continue a character of several bytes. *)
Definition starts_char (s : string) : Prop :=
  match s with
  | "" => True
  | String c _ => is_cont c = false
  end.

(** The name that the tools print for a person of a document: the first
    name alone when there is no last name. *)
Definition visat_namn (p : Person) : string :=
  match efternamn p with
  | "" => fornamn p
  | _ => (fornamn p ++ " " ++ efternamn p)%string
  end.

(** The last name of a person is empty or a stripped text. *)
Definition efternamn_stripped (p : Person) : Prop :=
  efternamn p = ""%string \/ exists t, efternamn p = strip t.
(* ================================================================== *)
(** * Properties of the ratio calculator *)
(* ================================================================== *)

Example procent_5 : procent (Some 50000) (Some 1000000) = Ok f5.
Proof. vm_compute. reflexivity. Qed.

Example procent_10 : procent (Some 200000) (Some 2000000) = Ok f10.
Proof. vm_compute. reflexivity. Qed.

(** ** Truth values *)

Lemma truthy_spec (o : option Z) : truthy o = true <-> present_nonzero o.
Proof.
  unfold present_nonzero. destruct o as [z|]; simpl.
  - rewrite negb_true_iff, Z.eqb_neq. split.
    + intros H. exists z. split; [reflexivity | exact H].
    + intros [z' [E H]]. injection E as ->. exact H.
  - split; [discriminate | intros [z [E _]]; discriminate].
Qed.

Lemma positive_int_spec (o : option Z) :
  positive_int o = true <-> present_positive o.
Proof.
  unfold present_positive. destruct o as [z|]; simpl.
  - rewrite Z.ltb_lt. split.
    + intros H. now exists z.
    + intros [z' [E H]]. now injection E as ->.
  - split; [discriminate | intros [z [E _]]; discriminate].
Qed.

Lemma present_positive_nonzero (o : option Z) :
  present_positive o -> present_nonzero o.
Proof. intros [z [E H]]. exists z. split; [exact E | lia]. Qed.

(** ** One run, statement by statement *)

Lemma procent_Ok (x y : option Z) (v : float) :
  procent x y = Ok v ->
  exists a b q p, x = Some a /\ y = Some b /\ int_truediv a b = Ok q /\
                  fmul_int q 100 = Ok p /\ v = round2 p.
Proof.
  unfold procent.
  destruct x as [a|], y as [b|]; cbn [as_int bind]; try discriminate.
  destruct (int_truediv a b) as [q|] eqn:Q; cbn [bind]; try discriminate.
  destruct (fmul_int q 100) as [p|] eqn:P; cbn [bind]; try discriminate.
  intros H. injection H as <-. exists a, b, q, p. repeat split; assumption.
Qed.

Ltac run_berakna :=
  unfold berakna_nyckeltal, seq, assign, pass;
  repeat match goal with
         | |- context [if ?c then _ else _] => destruct c eqn:?
         | |- context [match procent ?a ?b with _ => _ end] =>
             destruct (procent a b) eqn:?
         end;
  cbn.

(** The seven extracted fields are out of reach of the method. *)
Lemma berakna_nyckeltal_frame (n : Nyckeltal) :
  let n' := snd (berakna_nyckeltal n) in
  nettoomsattning n' = nettoomsattning n /\
  resultat_efter_finansiella n' = resultat_efter_finansiella n /\
  arets_resultat n' = arets_resultat n /\
  eget_kapital n' = eget_kapital n /\
  balansomslutning n' = balansomslutning n /\
  soliditet n' = soliditet n /\
  antal_anstallda n' = antal_anstallda n.
Proof. run_berakna; repeat split; reflexivity. Qed.

(** The two derived fields after a run that returns. *)
Lemma berakna_nyckeltal_Ok (n n' : Nyckeltal) :
  berakna_nyckeltal n = (Ok tt, n') ->
  (if truthy (nettoomsattning n) && truthy (arets_resultat n)
   then exists v, procent (arets_resultat n) (nettoomsattning n) = Ok v /\
                  vinstmarginal n' = Some v
   else vinstmarginal n' = vinstmarginal n) /\
  (if truthy (eget_kapital n) && truthy (arets_resultat n)
      && positive_int (eget_kapital n)
   then exists v, procent (arets_resultat n) (eget_kapital n) = Ok v /\
                  roe n' = Some v
   else roe n' = roe n).
Proof.
  unfold berakna_nyckeltal, seq, assign, pass.
  destruct (truthy (nettoomsattning n) && truthy (arets_resultat n)) eqn:G1.
  - destruct (procent (arets_resultat n) (nettoomsattning n)) as [v|x] eqn:P1;
      [|discriminate].
    cbn [set_vinstmarginal eget_kapital arets_resultat].
    destruct (truthy (eget_kapital n) && truthy (arets_resultat n)
              && positive_int (eget_kapital n)) eqn:G2.
    + destruct (procent (arets_resultat n) (eget_kapital n)) as [w|x] eqn:P2;
        [|discriminate].
      intros H. injection H as <-. cbn. split; [now exists v | now exists w].
    + intros H. injection H as <-. cbn. split; [now exists v | reflexivity].
  - destruct (truthy (eget_kapital n) && truthy (arets_resultat n)
              && positive_int (eget_kapital n)) eqn:G2.
    + destruct (procent (arets_resultat n) (eget_kapital n)) as [w|x] eqn:P2;
        [|discriminate].
      intros H. injection H as <-. cbn. split; [reflexivity | now exists w].
    + intros H. injection H as <-. split; reflexivity.
Qed.

(** ** When the method returns *)

Lemma float_overflow_threshold_pos : 0 < float_overflow_threshold.
Proof. reflexivity. Qed.

Lemma float_of_int_100 : exists y, float_of_int 100 = Ok y.
Proof. eexists. vm_compute. reflexivity. Qed.

Lemma fmul_int_100_returns (q : float) : exists p, fmul_int q 100 = Ok p.
Proof.
  unfold fmul_int. destruct float_of_int_100 as [y ->]. cbn [bind].
  now exists (fmul q y).
Qed.

Lemma int_truediv_returns (a b : Z) :
  b <> 0 -> Z.abs a < float_overflow_threshold ->
  exists q, int_truediv a b = Ok q.
Proof.
  intros Hb Ha. unfold int_truediv.
  destruct (b =? 0) eqn:B; [apply Z.eqb_eq in B; contradiction|].
  destruct (a =? 0); [eexists; reflexivity|].
  destruct (float_overflow_threshold * Z.abs b <=? Z.abs a) eqn:O.
  - apply Z.leb_le in O. pose proof float_overflow_threshold_pos as T.
    assert (1 <= Z.abs b) by lia.
    assert (float_overflow_threshold * 1 <= float_overflow_threshold * Z.abs b)
      by (apply Z.mul_le_mono_nonneg_l; lia).
    lia.
  - eexists; reflexivity.
Qed.

Lemma procent_returns (a b : Z) :
  b <> 0 -> Z.abs a < float_overflow_threshold ->
  exists v, procent (Some a) (Some b) = Ok v.
Proof.
  intros Hb Ha. unfold procent. cbn [as_int bind].
  destruct (int_truediv_returns a b Hb Ha) as [q ->]. cbn [bind].
  destruct (fmul_int_100_returns q) as [p ->]. cbn [bind].
  now exists (round2 p).
Qed.

(** The method returns on every record whose net result is within the
    range of a float, which is the case of every extracted record. *)
Lemma berakna_nyckeltal_returns (n : Nyckeltal) :
  (forall a, arets_resultat n = Some a -> Z.abs a < float_overflow_threshold) ->
  fst (berakna_nyckeltal n) = Ok tt.
Proof.
  intros R. destruct n as [oms ref res ek bal sol ans vm r]. cbn in R.
  unfold berakna_nyckeltal, seq, assign, pass. cbn [nettoomsattning arets_resultat].
  destruct (truthy oms && truthy res) eqn:G1.
  - apply andb_true_iff in G1 as [G1 G1'].
    destruct oms as [o|]; [|discriminate]. destruct res as [a|]; [|discriminate].
    cbn in G1. apply negb_true_iff, Z.eqb_neq in G1.
    destruct (procent_returns a o G1 (R a eq_refl)) as [v ->].
    cbn [set_vinstmarginal eget_kapital arets_resultat].
    destruct (truthy ek && truthy (Some a) && positive_int ek) eqn:G2;
      [|reflexivity].
    apply andb_true_iff in G2 as [G2 G3]. apply andb_true_iff in G2 as [G2 _].
    destruct ek as [e|]; [|discriminate].
    cbn in G2. apply negb_true_iff, Z.eqb_neq in G2.
    destruct (procent_returns a e G2 (R a eq_refl)) as [w ->]. reflexivity.
  - cbn [eget_kapital arets_resultat].
    destruct (truthy ek && truthy res && positive_int ek) eqn:G2; [|reflexivity].
    apply andb_true_iff in G2 as [G2 G3]. apply andb_true_iff in G2 as [G2 G2'].
    destruct ek as [e|]; [|discriminate]. destruct res as [a|]; [|discriminate].
    cbn in G2. apply negb_true_iff, Z.eqb_neq in G2.
    destruct (procent_returns a e G2 (R a eq_refl)) as [w ->]. reflexivity.
Qed.

(** ** The claims on the ratio calculator *)

(** C1 (amended).  On a record whose profit margin is still absent, a run
    of [berakna_nyckeltal] that returns leaves the margin defined if and
    only if revenue is present and nonzero and the net result is present
    and nonzero; a defined margin is [round(net_result / revenue * 100, 2)];
    revenue 1,000,000 with net result 50,000 gives 5.0. *)
Theorem berakna_nyckeltal_vinstmarginal (n n' : Nyckeltal) :
  vinstmarginal n = None ->
  berakna_nyckeltal n = (Ok tt, n') ->
  (vinstmarginal n' <> None <->
     present_nonzero (nettoomsattning n) /\
     present_nonzero (arets_resultat n)) /\
  (forall v, vinstmarginal n' = Some v ->
     exists oms res q p,
       nettoomsattning n = Some oms /\ arets_resultat n = Some res /\
       int_truediv res oms = Ok q /\ fmul_int q 100 = Ok p /\
       v = round2 p) /\
  (nettoomsattning n = Some 1000000 -> arets_resultat n = Some 50000 ->
     vinstmarginal n' = Some f5).
Proof.
  intros V0 Run. destruct (berakna_nyckeltal_Ok n n' Run) as [M _].
  destruct (truthy (nettoomsattning n) && truthy (arets_resultat n)) eqn:G.
  - destruct M as [v [P V]]. apply andb_true_iff in G as [G1 G2].
    apply truthy_spec in G1, G2. split; [|split].
    + rewrite V. split; [intros _; now split | discriminate].
    + intros v' V'. rewrite V in V'. injection V' as <-.
      destruct (procent_Ok _ _ _ P) as [a [b [q [p [A [B [Q [F R]]]]]]]].
      exists b, a, q, p. repeat split; assumption.
    + intros O A. rewrite O, A in P. rewrite procent_5 in P.
      injection P as <-. exact V.
  - rewrite V0 in M. split; [|split].
    + rewrite M. split; [intros H; now contradiction H|].
      intros [G1 G2]. apply truthy_spec in G1, G2. rewrite G1, G2 in G.
      discriminate.
    + intros v V'. rewrite M in V'. discriminate.
    + intros O A. rewrite O, A in G. discriminate.
Qed.

Lemma berakna_nyckeltal_vinstmarginal_witness :
  let n := nyckeltal_av (Some 1000000) (Some 50000) None None in
  let n' := set_vinstmarginal f5 n in
  vinstmarginal n = None /\
  berakna_nyckeltal n = (Ok tt, n') /\
  vinstmarginal n' = Some f5.
Proof.
  intros n n'.
  assert (V0 : vinstmarginal n = None) by reflexivity.
  assert (Run : berakna_nyckeltal n = (Ok tt, n')) by (vm_compute; reflexivity).
  split; [exact V0|]. split; [exact Run|].
  apply (berakna_nyckeltal_vinstmarginal n n' V0 Run); reflexivity.
Defined.

(** C1 as stated fails: with revenue 1,000,000 and a net result of 0 the
    revenue is present and nonzero, the run returns, and the margin stays
    absent. *)
Lemma vinstmarginal_absent_on_zero_result :
  let n := nyckeltal_av (Some 1000000) (Some 0) None None in
  berakna_nyckeltal n = (Ok tt, n) /\
  ~ (vinstmarginal (snd (berakna_nyckeltal n)) <> None <->
     present_nonzero (nettoomsattning n)).
Proof.
  intros n. split; [reflexivity|]. intros [_ H].
  apply H; [|reflexivity]. exists 1000000. split; [reflexivity | discriminate].
Qed.

(** C2 (amended).  On a record whose ROE is still absent, a run that
    returns leaves the ROE defined if and only if equity is present and
    strictly positive and the net result is present and nonzero; a defined
    ROE is [round(net_result / equity * 100, 2)]; equity 2,000,000 with net
    result 200,000 gives 10.0 and equity -500,000 leaves the ROE absent. *)
Theorem berakna_nyckeltal_roe (n n' : Nyckeltal) :
  roe n = None ->
  berakna_nyckeltal n = (Ok tt, n') ->
  (roe n' <> None <->
     present_positive (eget_kapital n) /\
     present_nonzero (arets_resultat n)) /\
  (forall v, roe n' = Some v ->
     exists ek res q p,
       eget_kapital n = Some ek /\ arets_resultat n = Some res /\
       int_truediv res ek = Ok q /\ fmul_int q 100 = Ok p /\
       v = round2 p) /\
  (eget_kapital n = Some 2000000 -> arets_resultat n = Some 200000 ->
     roe n' = Some f10) /\
  (eget_kapital n = Some (-500000) -> roe n' = None).
Proof.
  intros R0 Run. destruct (berakna_nyckeltal_Ok n n' Run) as [_ M].
  destruct (truthy (eget_kapital n) && truthy (arets_resultat n)
            && positive_int (eget_kapital n)) eqn:G.
  - destruct M as [v [P V]]. apply andb_true_iff in G as [G G3].
    apply andb_true_iff in G as [G1 G2].
    apply truthy_spec in G2. apply positive_int_spec in G3.
    split; [|split; [|split]].
    + rewrite V. split; [intros _; now split | discriminate].
    + intros v' V'. rewrite V in V'. injection V' as <-.
      destruct (procent_Ok _ _ _ P) as [a [b [q [p [A [B [Q [F R]]]]]]]].
      exists b, a, q, p. repeat split; assumption.
    + intros E A. rewrite E, A in P. rewrite procent_10 in P.
      injection P as <-. exact V.
    + intros E. destruct G3 as [z [E' Hz]]. rewrite E in E'.
      injection E' as <-. lia.
  - rewrite R0 in M. split; [|split; [|split]].
    + rewrite M. split; [intros H; now contradiction H|].
      intros [G3 G2]. pose proof (present_positive_nonzero _ G3) as G1.
      apply truthy_spec in G1, G2. apply positive_int_spec in G3.
      rewrite G1, G2, G3 in G. discriminate.
    + intros v V'. rewrite M in V'. discriminate.
    + intros E A. rewrite E, A in G. discriminate.
    + intros _. exact M.
Qed.

Lemma berakna_nyckeltal_roe_witness :
  let n := nyckeltal_av None (Some 200000) (Some 2000000) None in
  let n' := set_roe f10 n in
  roe n = None /\
  berakna_nyckeltal n = (Ok tt, n') /\
  roe n' = Some f10.
Proof.
  intros n n'.
  assert (R0 : roe n = None) by reflexivity.
  assert (Run : berakna_nyckeltal n = (Ok tt, n')) by (vm_compute; reflexivity).
  split; [exact R0|]. split; [exact Run|].
  apply (berakna_nyckeltal_roe n n' R0 Run); reflexivity.
Defined.

(** C2 as stated fails: with equity 2,000,000 and a net result of 0 the
    equity is present and strictly positive, the run returns, and the ROE
    stays absent. *)
Lemma roe_absent_on_zero_result :
  let n := nyckeltal_av None (Some 0) (Some 2000000) None in
  berakna_nyckeltal n = (Ok tt, n) /\
  ~ (roe (snd (berakna_nyckeltal n)) <> None <->
     present_positive (eget_kapital n)).
Proof.
  intros n. split; [reflexivity|]. intros [_ H].
  apply H; [|reflexivity]. exists 2000000. split; [reflexivity | lia].
Qed.

(** C10.  Whatever the record and however the call ends, the seven
    extracted fields of the record after [berakna_nyckeltal] are those of
    the record before it: the call assigns at most [vinstmarginal] and
    [roe]. *)
Theorem berakna_nyckeltal_keeps_extracted_fields (n : Nyckeltal) :
  let n' := snd (berakna_nyckeltal n) in
  nettoomsattning n' = nettoomsattning n /\
  resultat_efter_finansiella n' = resultat_efter_finansiella n /\
  arets_resultat n' = arets_resultat n /\
  eget_kapital n' = eget_kapital n /\
  balansomslutning n' = balansomslutning n /\
  soliditet n' = soliditet n /\
  antal_anstallda n' = antal_anstallda n.
Proof. exact (berakna_nyckeltal_frame n). Qed.

(* ================================================================== *)
(** * Properties of the organisation-number functions *)
(* ================================================================== *)

Example format_org_nummer_plain :
  format_org_nummer "5567671267" = "556767-1267"%string.
Proof. reflexivity. Qed.

Example format_org_nummer_spaced :
  format_org_nummer "55 67 67-1267" = "556767-1267"%string.
Proof. reflexivity. Qed.

Example replace_overlap : replace "aa" "b" "aaa" = "ba"%string.
Proof. reflexivity. Qed.

Example strip_both : strip "  12 3 " = "12 3"%string.
Proof. reflexivity. Qed.

(** ** Replacing one character by nothing *)

Lemma replace_char_remove (c : ascii) (s : string) :
  replace (String c "") "" s = remove c s.
Proof.
  unfold replace. induction s as [|d s IH]; [reflexivity|].
  cbn [replace_from String.prefix remove].
  destruct (ascii_dec c d) as [E|N].
  - destruct s; cbn [String.length Nat.sub String.append]; exact IH.
  - now rewrite IH.
Qed.

Lemma remove_lacks (c : ascii) (s : string) : lacks c (remove c s).
Proof.
  induction s as [|d s IH]; cbn; [exact I|].
  destruct (ascii_dec c d); [exact IH | now split].
Qed.

Lemma lacks_remove (c : ascii) (s : string) : lacks c s -> remove c s = s.
Proof.
  induction s as [|d s IH]; cbn; [reflexivity|]. intros [N L].
  destruct (ascii_dec c d); [contradiction | now rewrite IH].
Qed.

Lemma remove_keeps_lacks (c d : ascii) (s : string) :
  lacks d s -> lacks d (remove c s).
Proof.
  induction s as [|e s IH]; cbn; [trivial|]. intros [N L].
  destruct (ascii_dec c e); [now apply IH | split; [exact N | now apply IH]].
Qed.

Lemma remove_append (c : ascii) (s t : string) :
  remove c (s ++ t)%string = (remove c s ++ remove c t)%string.
Proof.
  induction s as [|d s IH]; cbn; [reflexivity|].
  destruct (ascii_dec c d); [exact IH | cbn; now rewrite IH].
Qed.

Lemma lacks_take (c : ascii) (n : nat) (s : string) :
  lacks c s -> lacks c (take n s).
Proof.
  revert n. induction s as [|d s IH]; intros n; cbn; [trivial|].
  intros [N L]. destruct (is_cont d).
  - split; [exact N | now apply IH].
  - destruct n; cbn; [exact I | split; [exact N | now apply IH]].
Qed.

Lemma lacks_drop (c : ascii) (n : nat) (s : string) :
  lacks c s -> lacks c (drop n s).
Proof.
  revert n. induction s as [|d s IH]; intros n; cbn; [trivial|].
  intros [N L]. destruct (is_cont d); [now apply IH|].
  destruct n; [now split | now apply IH].
Qed.

Lemma take_drop (n : nat) (s : string) : (take n s ++ drop n s)%string = s.
Proof.
  revert n. induction s as [|d s IH]; intros n; cbn; [reflexivity|].
  destruct (is_cont d); [cbn; now rewrite IH|].
  destruct n; [reflexivity | cbn; now rewrite IH].
Qed.

Lemma len_take (n : nat) (s : string) :
  (n <= len s)%nat -> len (take n s) = n.
Proof.
  revert n. induction s as [|d s IH]; intros n; cbn.
  - intros H. now apply Nat.le_0_r in H.
  - destruct (is_cont d) eqn:C; cbn; rewrite ?C; [apply IH|].
    destruct n; [reflexivity|]. intros H. cbn. rewrite C.
    f_equal. apply IH. now apply Nat.succ_le_mono.
Qed.

(** ** Cleaning and formatting *)

Lemma clean_org_nummer_remove (x : string) :
  clean_org_nummer x = remove space (remove hyphen x).
Proof.
  unfold clean_org_nummer.
  change "-"%string with (String hyphen ""). change " "%string with (String space "").
  now rewrite !replace_char_remove.
Qed.

Lemma clean_org_nummer_lacks (x : string) :
  lacks hyphen (clean_org_nummer x) /\ lacks space (clean_org_nummer x).
Proof.
  rewrite clean_org_nummer_remove. split.
  - apply remove_keeps_lacks, remove_lacks.
  - apply remove_lacks.
Qed.

Lemma clean_org_nummer_fixed (c : string) :
  lacks hyphen c -> lacks space c -> clean_org_nummer c = c.
Proof.
  intros H S. rewrite clean_org_nummer_remove.
  rewrite (lacks_remove hyphen c H). now apply lacks_remove.
Qed.

(** Cleaning undoes the hyphen that formatting inserts. *)
Lemma clean_org_nummer_hyphenated (c : string) :
  lacks hyphen c -> lacks space c ->
  clean_org_nummer (take 6 c ++ "-" ++ drop 6 c)%string = c.
Proof.
  intros H S. rewrite clean_org_nummer_remove.
  change "-"%string with (String hyphen "").
  rewrite !remove_append.
  rewrite (lacks_remove hyphen _ (lacks_take _ 6 _ H)).
  rewrite (lacks_remove hyphen _ (lacks_drop _ 6 _ H)).
  cbn [remove]. destruct (ascii_dec hyphen hyphen) as [_|N]; [|contradiction].
  rewrite (lacks_remove space _ (lacks_take _ 6 _ S)).
  rewrite (lacks_remove space _ (lacks_drop _ 6 _ S)).
  cbn [remove String.append]. apply take_drop.
Qed.

(** Formatting is idempotent on every string, valid or not. *)
Lemma format_org_nummer_twice (x : string) :
  format_org_nummer (format_org_nummer x) = format_org_nummer x.
Proof.
  destruct (clean_org_nummer_lacks x) as [H S].
  unfold format_org_nummer at 2.
  destruct (Nat.eqb (len (clean_org_nummer x)) 10) eqn:L.
  - unfold format_org_nummer.
    rewrite (clean_org_nummer_hyphenated _ H S). now rewrite L.
  - unfold format_org_nummer.
    rewrite (clean_org_nummer_fixed _ H S). now rewrite L.
Qed.

(** C9.  For an organisation number that is valid with ten digits
    (after hyphens and spaces are removed it consists of ten digits),
    formatting twice is formatting once, and the formatted number is the
    ten digits with a hyphen after the sixth. *)
Theorem format_org_nummer_idempotent (x : string) :
  validate_org_nummer x = (true, clean_org_nummer x) ->
  len (clean_org_nummer x) = 10%nat ->
  format_org_nummer (format_org_nummer x) = format_org_nummer x /\
  format_org_nummer x =
    (take 6 (clean_org_nummer x) ++ "-" ++ drop 6 (clean_org_nummer x))%string /\
  len (take 6 (clean_org_nummer x)) = 6%nat /\
  isdigit (clean_org_nummer x) = true.
Proof.
  intros V L. split; [apply format_org_nummer_twice|]. split; [|split].
  - unfold format_org_nummer. now rewrite L.
  - apply len_take. rewrite L. repeat constructor.
  - unfold validate_org_nummer in V.
    destruct (isdigit (clean_org_nummer x)); [reflexivity|].
    cbn in V. discriminate V.
Qed.

Lemma format_org_nummer_idempotent_witness :
  validate_org_nummer "556767-1267" = (true, clean_org_nummer "556767-1267") /\
  len (clean_org_nummer "556767-1267") = 10%nat /\
  format_org_nummer (format_org_nummer "556767-1267") =
    format_org_nummer "556767-1267".
Proof.
  assert (V : validate_org_nummer "556767-1267"
              = (true, clean_org_nummer "556767-1267")) by reflexivity.
  assert (L : len (clean_org_nummer "556767-1267") = 10%nat) by reflexivity.
  split; [exact V|]. split; [exact L|].
  apply (format_org_nummer_idempotent "556767-1267" V L).
Defined.

(* ================================================================== *)
(** * The number readers on examples *)
(* ================================================================== *)

Example float_of_str_plain : float_of_str "1234.5" = Ok f1234_5.
Proof. vm_compute. reflexivity. Qed.

Example float_of_str_exp : float_of_str "12345e-1" = Ok f1234_5.
Proof. vm_compute. reflexivity. Qed.

Example float_of_str_underscore : float_of_str "1_234.5" = Ok f1234_5.
Proof. vm_compute. reflexivity. Qed.

Example float_of_str_inf : float_of_str "-Infinity" = Ok (S754_infinity true).
Proof. vm_compute. reflexivity. Qed.

Example float_of_str_huge : float_of_str "1e400" = Ok (S754_infinity false).
Proof. vm_compute. reflexivity. Qed.

Example float_of_str_bad : float_of_str "12a" = Raise ValueError.
Proof. vm_compute. reflexivity. Qed.

Example float_of_str_empty : float_of_str "" = Raise ValueError.
Proof. vm_compute. reflexivity. Qed.

Example float_of_str_dot : float_of_str "." = Raise ValueError.
Proof. vm_compute. reflexivity. Qed.

Example float_of_str_5dot : float_of_str "5." = Ok f5.
Proof. vm_compute. reflexivity. Qed.

Example int_of_str_signed : int_of_str " -3 " = Ok (-3).
Proof. vm_compute. reflexivity. Qed.

Example int_of_str_float : int_of_str "3.0" = Raise ValueError.
Proof. vm_compute. reflexivity. Qed.

Example int_of_float_trunc : int_of_float f1234_5 = Ok 1234.
Proof. vm_compute. reflexivity. Qed.

(* ================================================================== *)
(** * Properties of [get_personer] *)
(* ================================================================== *)

Lemma person_key_eqb_eq (k1 k2 : person_key) :
  person_key_eqb k1 k2 = true <-> k1 = k2.
Proof.
  destruct k1 as [[a1 b1] c1], k2 as [[a2 b2] c2]. cbn.
  rewrite !andb_true_iff, !String.eqb_eq. split.
  - intros [[-> ->] ->]. reflexivity.
  - intros E. injection E as -> -> ->. now repeat split.
Qed.

Lemma key_in_false (k : person_key) (seen : list person_key) :
  key_in k seen = false -> ~ In k seen.
Proof.
  unfold key_in. intros E H.
  assert (existsb (person_key_eqb k) seen = true) as T.
  { apply existsb_exists. exists k. split; [exact H|].
    now apply person_key_eqb_eq. }
  rewrite T in E. discriminate.
Qed.

Lemma NoDup_snoc {A : Type} (l : list A) (a : A) :
  NoDup l -> ~ In a l -> NoDup (l ++ [a]).
Proof.
  intros N H. apply (NoDup_Add (a := a) (l := l)).
  - rewrite <- (app_nil_r l) at 1. apply Add_app.
  - now split.
Qed.

Lemma personer_step_inv (self : IXBRLParser)
    (pat : string * string * option string)
    (st : list Person * list person_key) (tag : Tag) :
  personer_inv st -> personer_inv (personer_step self pat st tag).
Proof.
  destruct pat as [[fp ep] rp], st as [personer seen]. intros [N S].
  unfold personer_step.
  set (er := match tag_get "tupleref" tag with
             | Some ref => if str_truthy ref then _ else _
             | None => _
             end).
  destruct er as [en rl].
  set (r := if negb (str_truthy rl) then _ else rl).
  set (f := strip (tag_text tag)).
  destruct (negb (key_in (f, en, r) seen) && str_truthy f) eqn:G.
  - apply andb_true_iff in G as [G _]. apply negb_true_iff in G.
    apply key_in_false in G. split; cbn [fst snd].
    + rewrite map_app. cbn [map]. apply NoDup_snoc; [exact N|].
      intros H. apply in_map_iff in H as [p [K P]].
      apply G. change (f, en, r) with (key_of (mkPerson f en r None)).
      rewrite <- K. now apply S.
    + intros p H. apply in_app_or in H as [H|[<-|[]]].
      * right. now apply S.
      * left. reflexivity.
  - now split.
Qed.

Lemma fold_left_inv {A B : Type} (P : A -> Prop) (f : A -> B -> A)
    (l : list B) (a : A) :
  (forall x b, P x -> P (f x b)) -> P a -> P (fold_left f l a).
Proof.
  intros Step. revert a. induction l as [|b l IH]; intros a H; cbn.
  - exact H.
  - apply IH, Step, H.
Qed.

Lemma personer_pattern_inv (self : IXBRLParser)
    (st : list Person * list person_key)
    (pat : string * string * option string) :
  personer_inv st -> personer_inv (personer_pattern self st pat).
Proof.
  intros H. unfold personer_pattern.
  apply fold_left_inv; [|exact H].
  intros x b. apply personer_step_inv.
Qed.

Example get_personer_samma_person :
  get_personer soup_samma_person
  = [mkPerson "Anna" "Berg" "Styrelseledamot" None].
Proof. vm_compute. reflexivity. Qed.

(** C7.  In the list that [get_personer] returns no two persons have the
    same (first name, last name, role) triple; two extraction patterns
    that yield the same triple give one person. *)
Theorem get_personer_distinct (self : IXBRLParser) :
  NoDup (map key_of (get_personer self)) /\
  get_personer soup_samma_person
  = [mkPerson "Anna" "Berg" "Styrelseledamot" None].
Proof.
  split; [|exact get_personer_samma_person].
  unfold get_personer.
  apply (fold_left_inv personer_inv (personer_pattern self) patterns).
  - intros x b. apply personer_pattern_inv.
  - split; cbn; [constructor | intros p []].
Qed.

(* ================================================================== *)
(** * Properties of [_get_value] *)
(* ================================================================== *)

Section GetValue.

Variable pow10_neg : Z -> float.

Example get_value_thousands :
  _get_value pow10_neg (soup_fact " 1 234,5 " (Some "3")) "nettoomsattning"
    (Some "period0") true = Ok (Some (VInt 1234500)).
Proof. vm_compute. reflexivity. Qed.

Example get_value_minus :
  _get_value pow10_neg (soup_fact "−12" None) "Nettoomsattning"
    (Some "period0") true = Ok (Some (VInt (-12))).
Proof. vm_compute. reflexivity. Qed.

Example get_value_other_context :
  _get_value pow10_neg (soup_fact "12" None) "Nettoomsattning"
    (Some "period1") true = Ok None.
Proof. vm_compute. reflexivity. Qed.

Example get_value_not_a_number :
  _get_value pow10_neg (soup_fact "n/a" None) "Nettoomsattning"
    (Some "period0") true = Ok None.
Proof. vm_compute. reflexivity. Qed.

Example get_value_nan :
  _get_value pow10_neg (soup_fact "nan" None) "Nettoomsattning"
    (Some "period0") true = Ok None.
Proof. vm_compute. reflexivity. Qed.

Lemma int_of_str_outcome (s : string) :
  (exists z, int_of_str s = Ok z) \/ int_of_str s = Raise ValueError.
Proof.
  unfold int_of_str. destruct (sign (strip s)) as [neg body].
  destruct (digitpart 0 body) as [[[v n] [|c r]]|]; [|now right|now right].
  destruct (4300 <? n); [now right | left; eexists; reflexivity].
Qed.

(** A text that [float] does not read makes the query answer [None]. *)
Lemma get_value_unreadable (self : IXBRLParser) (name_pattern : string)
    (context : option string) :
  (forall tag, In tag self ->
     float_of_str (normalised (tag_text tag)) = Raise ValueError) ->
  _get_value pow10_neg self name_pattern context true = Ok None.
Proof.
  intros H. unfold _get_value.
  set (attrs := match context with Some c => _ | None => _ end).
  destruct (find "ix:nonfraction" attrs self) as [tag|] eqn:F; [|reflexivity].
  apply find_some in F as [I _]. specialize (H tag I).
  unfold normalised in H. rewrite H.
  destruct (int_of_str_outcome (tag_get_default "scale" "0" tag)) as [[z ->]| ->];
    reflexivity.
Qed.

(** A numeric query returns, or raises [OverflowError]. *)
Lemma get_value_outcome (self : IXBRLParser) (name_pattern : string)
    (context : option string) :
  (exists v, _get_value pow10_neg self name_pattern context true = Ok v) \/
  _get_value pow10_neg self name_pattern context true = Raise OverflowError.
Proof.
  unfold _get_value.
  set (attrs := match context with Some c => _ | None => _ end).
  destruct (find "ix:nonfraction" attrs self) as [tag|];
    [|left; eexists; reflexivity].
  destruct (int_of_str_outcome (tag_get_default "scale" "0" tag)) as [[z ->]| ->];
    [|left; eexists; reflexivity].
  cbn [bind].
  destruct (float_of_str _) as [x|e] eqn:X; cbn [bind].
  - assert ((exists y, fmul_num x (pow10 pow10_neg z) = Ok y) \/
            fmul_num x (pow10 pow10_neg z) = Raise OverflowError) as [[y ->]| ->].
    { destruct (pow10 pow10_neg z) as [i|f]; cbn [fmul_num].
      - unfold fmul_int, float_of_int.
        destruct (float_overflow_threshold <=? Z.abs i);
          [now right | left; eexists; reflexivity].
      - left; eexists; reflexivity. }
    + cbn [bind]. destruct y; cbn; first [now right | left; eexists; reflexivity].
    + now right.
  - left. revert X. unfold float_of_str.
    destruct (sign _) as [neg body].
    destruct (_ || _); [discriminate|]. destruct (String.eqb _ _); [discriminate|].
    assert (forall m k s, float_exponent neg m k s = Raise e -> e = ValueError) as E.
    { intros m k [|c s]; cbn; [discriminate|].
      destruct (_ || _); [|now intros [= <-]].
      destruct (sign s) as [eneg b].
      destruct (digitpart 0 b) as [[[v n] [|c' r]]|];
        first [discriminate | now intros [= <-]]. }
    intros X. assert (e = ValueError) as ->; [|eexists; reflexivity].
    destruct (digitpart 0 body) as [[[ip n] rest]|].
    + destruct rest as [|c rest]; [now apply E in X|].
      destruct c as [[] [] [] [] [] [] [] []]; try now apply E in X.
      destruct (digitpart ip rest) as [[[m k] rest']|]; now apply E in X.
    + destruct body as [|c rest]; [now injection X|].
      destruct c as [[] [] [] [] [] [] [] []]; try now injection X.
      destruct (digitpart 0 rest) as [[[m k] rest']|];
        [now apply E in X | now injection X].
Qed.

End GetValue.

(** C6.  A numeric query is not total: on a document whose matching tag
    has the text [inf] (read by [float] as an infinity) [_get_value]
    raises [OverflowError], which its [except ValueError] lets through. *)
Theorem get_value_raises_on_inf (pow10_neg : Z -> float) :
  _get_value pow10_neg (soup_fact "inf" None) "Nettoomsattning"
    (Some "period0") true = Raise OverflowError.
Proof. vm_compute. reflexivity. Qed.

(** The same on a finite number with a scale out of the range of a
    float. *)
Lemma get_value_raises_on_scale (pow10_neg : Z -> float) :
  _get_value pow10_neg (soup_fact "1" (Some "400")) "Nettoomsattning"
    (Some "period0") true = Raise OverflowError.
Proof. vm_compute. reflexivity. Qed.

(* ================================================================== *)
(** * Properties of the risk classifier *)
(* ================================================================== *)

(** ** The findings of a run are those of its rules, in order *)

Lemma analyze_risks_Ok (a : Arsredovisning) (trends : option (dict Nyckeltal))
    (flags : list RiskFlag) :
  analyze_risks a trends = Ok flags ->
  exists k s g,
    rule_kontrollbalansrakning (nyckeltal a) (balansrakning a) = Ok k /\
    rule_hog_skuldsattning (nyckeltal a) = Ok s /\
    rule_trender trends = Ok g /\
    flags = rule_negativt_eget_kapital (nyckeltal a) ++ k
            ++ rule_negativ_soliditet (nyckeltal a)
            ++ rule_lag_soliditet (nyckeltal a)
            ++ rule_forlust (nyckeltal a)
            ++ rule_negativ_vinstmarginal (nyckeltal a) ++ s
            ++ rule_lag_vinstmarginal (nyckeltal a)
            ++ rule_mattlig_soliditet (nyckeltal a)
            ++ rule_inga_anstallda (nyckeltal a) ++ g.
Proof.
  unfold analyze_risks.
  destruct (rule_kontrollbalansrakning _ _) as [k|] eqn:K; [|discriminate].
  destruct (rule_hog_skuldsattning _) as [s|] eqn:S; [|discriminate].
  destruct (rule_trender trends) as [g|] eqn:G; [|discriminate].
  cbn [bind app]. intros H. injection H as <-.
  exists k, s, g. repeat split. now rewrite <- !app_assoc.
Qed.

Lemma analyze_risks_returns (a : Arsredovisning)
    (trends : option (dict Nyckeltal)) (k s g : list RiskFlag) :
  rule_kontrollbalansrakning (nyckeltal a) (balansrakning a) = Ok k ->
  rule_hog_skuldsattning (nyckeltal a) = Ok s ->
  rule_trender trends = Ok g ->
  exists flags, analyze_risks a trends = Ok flags.
Proof.
  intros K S G. unfold analyze_risks. rewrite K, S, G. cbn [bind].
  eexists. reflexivity.
Qed.

(** ** Which rule emits which finding *)

Ltac silent :=
  repeat match goal with
         | |- context [match ?x with _ => _ end] => destruct x
         end;
  reflexivity.

Section Silent.

Variable n : Nyckeltal.

Lemma negativt_eget_kapital_silent :
  filter is_leverage (rule_negativt_eget_kapital n) = [] /\
  filter is_erosion (rule_negativt_eget_kapital n) = [] /\
  filter is_growth (rule_negativt_eget_kapital n) = [].
Proof. unfold rule_negativt_eget_kapital. repeat split; silent. Qed.

Lemma negativ_soliditet_silent :
  filter is_leverage (rule_negativ_soliditet n) = [] /\
  filter is_erosion (rule_negativ_soliditet n) = [] /\
  filter is_growth (rule_negativ_soliditet n) = [].
Proof. unfold rule_negativ_soliditet. repeat split; silent. Qed.

Lemma lag_soliditet_silent :
  filter is_leverage (rule_lag_soliditet n) = [] /\
  filter is_erosion (rule_lag_soliditet n) = [] /\
  filter is_growth (rule_lag_soliditet n) = [].
Proof. unfold rule_lag_soliditet. repeat split; silent. Qed.

Lemma forlust_silent :
  filter is_leverage (rule_forlust n) = [] /\
  filter is_erosion (rule_forlust n) = [] /\
  filter is_growth (rule_forlust n) = [].
Proof. unfold rule_forlust. repeat split; silent. Qed.

Lemma negativ_vinstmarginal_silent :
  filter is_leverage (rule_negativ_vinstmarginal n) = [] /\
  filter is_erosion (rule_negativ_vinstmarginal n) = [] /\
  filter is_growth (rule_negativ_vinstmarginal n) = [].
Proof. unfold rule_negativ_vinstmarginal. repeat split; silent. Qed.

Lemma lag_vinstmarginal_silent :
  filter is_leverage (rule_lag_vinstmarginal n) = [] /\
  filter is_erosion (rule_lag_vinstmarginal n) = [] /\
  filter is_growth (rule_lag_vinstmarginal n) = [].
Proof. unfold rule_lag_vinstmarginal. repeat split; silent. Qed.

Lemma mattlig_soliditet_silent :
  filter is_leverage (rule_mattlig_soliditet n) = [] /\
  filter is_erosion (rule_mattlig_soliditet n) = [] /\
  filter is_growth (rule_mattlig_soliditet n) = [].
Proof. unfold rule_mattlig_soliditet. repeat split; silent. Qed.

Lemma inga_anstallda_silent :
  filter is_leverage (rule_inga_anstallda n) = [] /\
  filter is_erosion (rule_inga_anstallda n) = [] /\
  filter is_growth (rule_inga_anstallda n) = [].
Proof. unfold rule_inga_anstallda. repeat split; silent. Qed.

End Silent.

Lemma kontrollbalansrakning_silent (n : Nyckeltal)
    (balans : dict (dict (option Z))) (k : list RiskFlag) :
  rule_kontrollbalansrakning n balans = Ok k ->
  filter is_leverage k = [] /\ filter is_growth k = [].
Proof.
  unfold rule_kontrollbalansrakning.
  destruct (truthy _ && truthy _); [|intros [= <-]; now split].
  destruct (as_int _) as [ak|]; [|discriminate]. cbn [bind].
  destruct (as_int _) as [ek|]; [|discriminate]. cbn [bind].
  destruct (int_mul_float ak half) as [limit|]; [|discriminate]. cbn [bind].
  destruct (int_lt_float ek limit); intros [= <-]; now split.
Qed.

Lemma hog_skuldsattning_silent (n : Nyckeltal) (s : list RiskFlag) :
  rule_hog_skuldsattning n = Ok s ->
  filter is_erosion s = [] /\ filter is_growth s = [].
Proof.
  unfold rule_hog_skuldsattning.
  destruct (truthy _ && truthy _); [|intros [= <-]; now split].
  destruct (as_int _) as [bal|]; [|discriminate]. cbn [bind].
  destruct (as_int _) as [ek|]; [|discriminate]. cbn [bind].
  destruct (0 <? ek); [|intros [= <-]; now split].
  destruct (int_truediv _ _) as [r|]; [|discriminate]. cbn [bind].
  destruct (float_gt_int r 3); intros [= <-]; now split.
Qed.

Lemma fallande_omsattning_silent (first_year last_year : Nyckeltal)
    (g : list RiskFlag) :
  rule_fallande_omsattning first_year last_year = Ok g ->
  filter is_leverage g = [] /\ filter is_erosion g = [].
Proof.
  unfold rule_fallande_omsattning.
  destruct (truthy _ && truthy _); [|intros [= <-]; now split].
  destruct (as_int _) as [f|]; [|discriminate]. cbn [bind].
  destruct (as_int _) as [l|]; [|discriminate]. cbn [bind].
  destruct (0 <? f); [|intros [= <-]; now split].
  destruct (int_truediv _ _) as [q|]; [|discriminate]. cbn [bind].
  destruct (fmul_int q 100) as [c|]; [|discriminate]. cbn [bind].
  destruct (float_lt_int c (-20)); [intros [= <-]; now split|].
  destruct (float_lt_int c (-10)); intros [= <-]; now split.
Qed.

Lemma trender_silent (trends : option (dict Nyckeltal)) (g : list RiskFlag) :
  rule_trender trends = Ok g ->
  filter is_leverage g = [] /\ filter is_erosion g = [].
Proof.
  unfold rule_trender.
  destruct trends as [[|kv trends]|]; try (intros [= <-]; now split).
  destruct (2 <=? _)%nat; [|intros [= <-]; now split].
  destruct (list_index _ (-1)) as [k1|]; [|discriminate]. cbn [bind].
  destruct (dict_item k1 _) as [fy|]; [|discriminate]. cbn [bind].
  destruct (list_index _ 0) as [k0|]; [|discriminate]. cbn [bind].
  destruct (dict_item k0 _) as [ly|]; [|discriminate]. cbn [bind].
  apply fallande_omsattning_silent.
Qed.

(** The findings of the three kinds come from one rule each. *)
Lemma analyze_risks_selected (a : Arsredovisning)
    (trends : option (dict Nyckeltal)) (flags : list RiskFlag) :
  analyze_risks a trends = Ok flags ->
  exists k s g,
    rule_kontrollbalansrakning (nyckeltal a) (balansrakning a) = Ok k /\
    rule_hog_skuldsattning (nyckeltal a) = Ok s /\
    rule_trender trends = Ok g /\
    filter is_erosion flags = filter is_erosion k /\
    filter is_leverage flags = filter is_leverage s /\
    filter is_growth flags = filter is_growth g.
Proof.
  intros H. destruct (analyze_risks_Ok a trends flags H) as [k [s [g [K [S [G ->]]]]]].
  exists k, s, g. split; [exact K|]. split; [exact S|]. split; [exact G|].
  set (n := nyckeltal a).
  destruct (negativt_eget_kapital_silent n) as [A1 [B1 C1]].
  destruct (negativ_soliditet_silent n) as [A2 [B2 C2]].
  destruct (lag_soliditet_silent n) as [A3 [B3 C3]].
  destruct (forlust_silent n) as [A4 [B4 C4]].
  destruct (negativ_vinstmarginal_silent n) as [A5 [B5 C5]].
  destruct (lag_vinstmarginal_silent n) as [A6 [B6 C6]].
  destruct (mattlig_soliditet_silent n) as [A7 [B7 C7]].
  destruct (inga_anstallda_silent n) as [A8 [B8 C8]].
  destruct (kontrollbalansrakning_silent _ _ _ K) as [KA KC].
  destruct (hog_skuldsattning_silent _ _ S) as [SB SC].
  destruct (trender_silent _ _ G) as [GA GB].
  rewrite !filter_app.
  rewrite A1, A2, A3, A4, A5, A6, A7, A8, B1, B2, B3, B4, B5, B6, B7, B8,
    C1, C2, C3, C4, C5, C6, C7, C8, KA, KC, SB, SC, GA, GB.
  cbn [app]. rewrite !app_nil_r. repeat split; reflexivity.
Qed.

(** A finding of a kind is in the list when the selection is not empty. *)
Lemma filter_nonempty {A : Type} (p : A -> bool) (l : list A) :
  (exists x, In x l /\ p x = true) <-> filter p l <> [].
Proof.
  split.
  - intros [x [I P]] E. assert (In x (filter p l)) as F by now apply filter_In.
    rewrite E in F. exact F.
  - destruct (filter p l) as [|x r] eqn:E; [intros H; now contradiction H|].
    intros _. assert (In x (filter p l)) as F by (rewrite E; now left).
    apply filter_In in F. now exists x.
Qed.

(** ** Signs and comparisons of floats *)

(** A rounded result carries the sign that was asked for. *)
Lemma binary_round_aux_negative (mx ex : Z) (lx : location) :
  match binary_round_aux prec emax true mx ex lx with
  | S754_zero s | S754_infinity s | S754_finite s _ _ => s = true
  | S754_nan => True
  end.
Proof.
  unfold binary_round_aux.
  destruct (shr_fexp prec emax mx ex lx) as [mrs' e'].
  destruct (shr_fexp prec emax _ e' loc_Exact) as [mrs'' e''].
  destruct (shr_m mrs''); [reflexivity | | exact I].
  destruct (e'' <=? emax - prec); reflexivity.
Qed.

Lemma float_gt_int_negative (x : float) (z : Z) :
  0 <= z ->
  match x with
  | S754_zero s | S754_infinity s | S754_finite s _ _ => s = true
  | S754_nan => True
  end ->
  float_gt_int x z = false.
Proof.
  intros Hz. unfold float_gt_int, float_compare_int.
  destruct x as [s|s| |s m e]; intros S; try subst s; try reflexivity.
  - destruct (Z.compare_spec 0 z); try reflexivity. lia.
  - destruct (0 <=? e) eqn:E.
    + apply Z.leb_le in E. pose proof (Z.pow_pos_nonneg 2 e ltac:(lia) E).
      destruct (Z.compare_spec (Z.neg m * 2 ^ e) z); try reflexivity. nia.
    + apply Z.leb_gt in E.
      pose proof (Z.pow_pos_nonneg 2 (- e) ltac:(lia) ltac:(lia)).
      destruct (Z.compare_spec (Z.neg m) (z * 2 ^ (- e))); try reflexivity. nia.
Qed.

(** The quotient of a negative by a positive integer is not above a
    nonnegative integer. *)
Lemma int_truediv_negative (a b z : Z) (r : float) :
  a < 0 -> 0 < b -> 0 <= z -> int_truediv a b = Ok r ->
  float_gt_int r z = false.
Proof.
  intros Ha Hb Hz. unfold int_truediv.
  destruct (b =? 0); [discriminate|].
  destruct (a =? 0) eqn:A; [apply Z.eqb_eq in A; lia|].
  destruct (_ <=? _); [discriminate|]. intros [= <-].
  apply float_gt_int_negative; [exact Hz|].
  destruct a as [|p|p]; try lia. destruct b as [|q|q]; try lia.
  cbn [exact_int]. unfold fdiv, SFdiv.
  destruct (SFdiv_core_binary prec emax (Z.pos p) 0 (Z.pos q) 0) as [[mz ez] lz].
  apply binary_round_aux_negative.
Qed.

Lemma float_ge_not_lt (x : float) (z : Z) :
  float_ge_int x z = true -> float_lt_int x z = false.
Proof.
  unfold float_ge_int, float_lt_int.
  destruct (float_compare_int x z) as [[]|]; now intros.
Qed.

Lemma float_ge_int_mono (x : float) (z1 z2 : Z) :
  z1 <= z2 -> float_ge_int x z2 = true -> float_ge_int x z1 = true.
Proof.
  intros H. unfold float_ge_int, float_compare_int.
  destruct x as [s|s| |s m e]; try (intros; assumption).
  - destruct (Z.compare_spec 0 z2); try discriminate;
      destruct (Z.compare_spec 0 z1); try reflexivity; lia.
  - destruct (0 <=? e) eqn:E.
    + destruct (Z.compare_spec ((if s then Z.neg m else Z.pos m) * 2 ^ e) z2);
        try discriminate;
        destruct (Z.compare_spec ((if s then Z.neg m else Z.pos m) * 2 ^ e) z1);
        try reflexivity; lia.
    + apply Z.leb_gt in E.
      pose proof (Z.pow_pos_nonneg 2 (- e) ltac:(lia) ltac:(lia)).
      destruct (Z.compare_spec (if s then Z.neg m else Z.pos m) (z2 * 2 ^ (- e)));
        try discriminate;
        destruct (Z.compare_spec (if s then Z.neg m else Z.pos m) (z1 * 2 ^ (- e)));
        try reflexivity; nia.
Qed.

(** ** Small integers are floats *)

Lemma digits2_pos_iter_xO (m k : positive) :
  digits2_pos (Pos.iter xO m k) = (digits2_pos m + k)%positive.
Proof.
  induction k as [|k IH] using Pos.peano_ind.
  - cbn. now rewrite Pos.add_1_r.
  - rewrite Pos.iter_succ. cbn. rewrite IH. now rewrite Pos.add_succ_r.
Qed.

Lemma Zpos_iter_xO (m k : positive) :
  Z.pos (Pos.iter xO m k) = Z.pos m * 2 ^ Z.pos k.
Proof.
  induction k as [|k IH] using Pos.peano_ind.
  - cbn. lia.
  - rewrite Pos.iter_succ, Pos2Z.inj_succ, Z.pow_succ_r by lia.
    rewrite Pos2Z.inj_xO, IH. lia.
Qed.

Lemma digits2_pos_lower (m : positive) :
  2 ^ (Z.pos (digits2_pos m) - 1) <= Z.pos m.
Proof.
  induction m as [m IH|m IH|]; cbn [digits2_pos].
  - rewrite Pos2Z.inj_succ. replace (Z.succ (Z.pos (digits2_pos m)) - 1) with (Z.succ (Z.pos (digits2_pos m) - 1)) by lia.
    rewrite Z.pow_succ_r by lia. lia.
  - rewrite Pos2Z.inj_succ. replace (Z.succ (Z.pos (digits2_pos m)) - 1) with (Z.succ (Z.pos (digits2_pos m) - 1)) by lia.
    rewrite Z.pow_succ_r by lia. lia.
  - cbn. lia.
Qed.

(** A mantissa of 53 bits with an exponent in range is left as it is. *)
Lemma binary_round_aux_canonical (s : bool) (mz : positive) (ez : Z) :
  digits2_pos mz = 53%positive -> -1074 <= ez <= 971 ->
  binary_round_aux prec emax s (Z.pos mz) ez loc_Exact = S754_finite s mz ez.
Proof.
  intros D R. unfold binary_round_aux.
  assert (shr_fexp prec emax (Z.pos mz) ez loc_Exact
          = ({| shr_m := Z.pos mz; shr_r := false; shr_s := false |}, ez)) as E.
  { unfold shr_fexp, fexp, emin, prec, emax. cbn [Zdigits2]. rewrite D.
    replace (Z.max (53 + ez - 53) (3 - 1024 - 53) - ez) with 0 by lia.
    reflexivity. }
  rewrite E. cbn [shr_m loc_of_shr_record round_nearest_even]. rewrite E.
  cbn [shr_m]. unfold emax, prec.
  assert ((ez <=? 1024 - 53) = true) as -> by (apply Z.leb_le; lia).
  reflexivity.
Qed.


(** A positive integer below [2^53] is normalised without rounding. *)
Lemma binary_round_small (s : bool) (m : positive) :
  Z.pos m < 2 ^ 53 ->
  exists mz ez, binary_round prec emax s m 0 = S754_finite s mz ez /\
    digits2_pos mz = 53%positive /\ -52 <= ez <= 0 /\
    Z.pos mz = Z.pos m * 2 ^ (- ez).
Proof.
  intros Hm. unfold binary_round.
  pose proof (digits2_pos_lower m) as L.
  assert (Z.pos (digits2_pos m) <= 53) as D.
  { destruct (Z_le_gt_dec (Z.pos (digits2_pos m)) 53) as [|G]; [assumption|].
    assert (2 ^ 53 <= 2 ^ (Z.pos (digits2_pos m) - 1))
      by (apply Z.pow_le_mono_r; lia). lia. }
  unfold fexp, emin, prec, emax.
  replace (Z.max (Z.pos (digits2_pos m) + 0 - 53) (3 - 1024 - 53))
    with (Z.pos (digits2_pos m) - 53) by lia.
  unfold shl_align.
  destruct (Z.pos (digits2_pos m) - 53 - 0) as [|k|k] eqn:K; try lia.
  - assert (digits2_pos m = 53%positive) as D53 by lia.
    exists m, 0. rewrite binary_round_aux_canonical; [|exact D53|lia].
    split; [reflexivity|]. split; [exact D53|]. split; [lia|]. cbn. lia.
  - assert (digits2_pos (Pos.iter xO m k) = 53%positive) as D53
      by (rewrite digits2_pos_iter_xO; lia).
    exists (Pos.iter xO m k), (Z.pos (digits2_pos m) - 53).
    rewrite binary_round_aux_canonical; [|exact D53|lia].
    split; [reflexivity|]. split; [exact D53|]. split; [lia|].
    rewrite Zpos_iter_xO. f_equal. f_equal. lia.
Qed.

Lemma small_below_threshold : 2 ^ 53 < float_overflow_threshold.
Proof. reflexivity. Qed.

(** The float of a nonzero integer below [2^53] is the integer. *)
Lemma float_of_int_small (z : Z) :
  z <> 0 -> Z.abs z < 2 ^ 53 ->
  exists mz ez,
    float_of_int z = Ok (S754_finite (z <? 0) mz ez) /\
    digits2_pos mz = 53%positive /\ -52 <= ez <= 0 /\
    Z.pos mz = Z.abs z * 2 ^ (- ez).
Proof.
  intros NZ B. unfold float_of_int.
  assert ((float_overflow_threshold <=? Z.abs z) = false) as ->.
  { apply Z.leb_gt. pose proof small_below_threshold. lia. }
  destruct z as [|m|m]; [contradiction| |].
  - destruct (binary_round_small false m B) as [mz [ez [E R]]]. exists mz, ez.
    split; [|exact R]. cbn [binary_normalize]. rewrite E. reflexivity.
  - destruct (binary_round_small true m B) as [mz [ez [E R]]]. exists mz, ez.
    split; [|exact R]. cbn [binary_normalize]. rewrite E. reflexivity.
Qed.

(** Halving a float of 53 bits moves its exponent. *)
Lemma fmul_half (s : bool) (mz : positive) (ez : Z) :
  digits2_pos mz = 53%positive -> -1000 <= ez <= 971 ->
  fmul (S754_finite s mz ez) half = S754_finite s mz (ez - 1).
Proof.
  intros D R. unfold fmul, half, SFmul. rewrite xorb_false_r.
  rewrite Pos.mul_comm. cbn [Pos.mul].
  unfold binary_round_aux.
  set (big := (mz~0~0~0~0~0~0~0~0~0~0~0~0~0~0~0~0~0~0~0~0~0~0~0~0~0~0~0~0~0~0~0~0~0~0~0~0~0~0~0~0~0~0~0~0~0~0~0~0~0~0~0~0)%positive).
  assert (shr_fexp prec emax (Z.pos big) (ez + -53) loc_Exact
          = ({| shr_m := Z.pos mz; shr_r := false; shr_s := false |}, ez - 1)) as E.
  { unfold shr_fexp, fexp, emin, prec, emax, big. cbn [Zdigits2 digits2_pos]. rewrite D.
    cbn [Pos.succ].
    replace (Z.max (105 + (ez + -53) - 53) (3 - 1024 - 53) - (ez + -53)) with 52 by lia.
    unfold shr. cbn [iter_pos shr_1 shr_record_of_loc orb]. f_equal. lia. }
  rewrite E. cbn [shr_m loc_of_shr_record round_nearest_even].
  assert (shr_fexp prec emax (Z.pos mz) (ez - 1) loc_Exact
          = ({| shr_m := Z.pos mz; shr_r := false; shr_s := false |}, ez - 1)) as E'.
  { unfold shr_fexp, fexp, emin, prec, emax. cbn [Zdigits2]. rewrite D.
    replace (Z.max (53 + (ez - 1) - 53) (3 - 1024 - 53) - (ez - 1)) with 0 by lia.
    reflexivity. }
  rewrite E'. cbn [shr_m]. unfold emax, prec.
  assert ((ez - 1 <=? 1024 - 53) = true) as -> by (apply Z.leb_le; lia).
  reflexivity.
Qed.

(** Below [2^53] the comparison with half the share capital is exact. *)
Lemma half_of_small_int (ak ek : Z) (limit : float) :
  ak <> 0 -> Z.abs ak < 2 ^ 53 ->
  int_mul_float ak half = Ok limit ->
  int_lt_float ek limit = (2 * ek <? ak).
Proof.
  intros NZ B. unfold int_mul_float.
  destruct (float_of_int_small ak NZ B) as [mz [ez [F [D [R V]]]]].
  rewrite F. cbn [bind]. rewrite fmul_half; [|exact D|lia].
  intros [= <-]. unfold int_lt_float, float_gt_int, float_compare_int.
  assert ((0 <=? ez - 1) = false) as -> by (apply Z.leb_gt; lia).
  replace (- (ez - 1)) with (Z.succ (- ez)) by lia.
  rewrite Z.pow_succ_r by lia.
  pose proof (Z.pow_pos_nonneg 2 (- ez) ltac:(lia) ltac:(lia)) as P.
  assert ((if ak <? 0 then Z.neg mz else Z.pos mz) = ak * 2 ^ (- ez)) as ->.
  { destruct (ak <? 0) eqn:S.
    - apply Z.ltb_lt in S. rewrite <- Pos2Z.opp_pos, V. rewrite Z.abs_neq by lia. lia.
    - apply Z.ltb_ge in S. rewrite V. rewrite Z.abs_eq by lia. reflexivity. }
  destruct (Z.compare_spec (ak * 2 ^ (- ez)) (ek * (2 * 2 ^ (- ez))));
    destruct (Z.ltb_spec (2 * ek) ak); try reflexivity; nia.
Qed.

(** ** Quotients of small integers compare exactly *)

Lemma digits2_pos_upper (m : positive) : Z.pos m < 2 ^ Z.pos (digits2_pos m).
Proof.
  induction m as [m IH|m IH|]; cbn [digits2_pos].
  - rewrite Pos2Z.inj_succ, Z.pow_succ_r by lia. lia.
  - rewrite Pos2Z.inj_succ, Z.pow_succ_r by lia. lia.
  - cbn. lia.
Qed.

Lemma digits2_pos_unique (m : positive) (k : Z) :
  2 ^ (k - 1) <= Z.pos m < 2 ^ k -> Z.pos (digits2_pos m) = k.
Proof.
  intros [L U]. pose proof (digits2_pos_lower m) as L'.
  pose proof (digits2_pos_upper m) as U'.
  assert (0 < k) as K.
  { destruct (Z_lt_le_dec 0 k) as [|N]; [assumption|].
    destruct (Z.eq_dec k 0) as [->|N0]; [cbn in U; lia|].
    rewrite (Z.pow_neg_r 2 k) in U by lia. lia. }
  destruct (Z.lt_trichotomy (Z.pos (digits2_pos m)) k) as [C|[C|C]]; [|exact C|].
  - assert (2 ^ Z.pos (digits2_pos m) <= 2 ^ (k - 1))
      by (apply Z.pow_le_mono_r; lia). lia.
  - assert (2 ^ k <= 2 ^ (Z.pos (digits2_pos m) - 1))
      by (apply Z.pow_le_mono_r; lia). lia.
Qed.

(** Where the remainder [r] of a division by [b] stands between two
    quotients. *)
Lemma new_location_spec (b : positive) (r : Z) :
  0 <= r < Z.pos b ->
  new_location (Z.pos b) r
  = if r =? 0 then loc_Exact else loc_Inexact (2 * r ?= Z.pos b).
Proof.
  intros R. unfold new_location.
  destruct (Z.even (Z.pos b)) eqn:E;
    unfold new_location_even, new_location_odd;
    destruct (r =? 0); try reflexivity.
  f_equal.
  assert (Z.odd (Z.pos b) = true) as O by (rewrite <- Z.negb_even, E; reflexivity).
  apply Z.odd_spec in O. destruct O as [h H].
  destruct (Z.compare_spec (2 * r + 1) (Z.pos b));
    destruct (Z.compare_spec (2 * r) (Z.pos b)); try reflexivity; lia.
Qed.

Lemma loc_of_shr_record_of_loc (m : Z) (l : location) :
  loc_of_shr_record (shr_record_of_loc m l) = l.
Proof. now destruct l as [|[]]. Qed.

(** The second normalisation of [binary_round_aux]: a mantissa of 53
    bits stays, [2^53] becomes [2^52] one exponent higher. *)
Lemma shr_fexp_53 (m : positive) (e : Z) :
  2 ^ 52 <= Z.pos m < 2 ^ 53 -> -1074 <= e ->
  shr_fexp prec emax (Z.pos m) e loc_Exact
  = ({| shr_m := Z.pos m; shr_r := false; shr_s := false |}, e).
Proof.
  intros B R. unfold shr_fexp, fexp, emin, prec, emax. cbn [Zdigits2].
  rewrite (digits2_pos_unique m 53) by (change (53 - 1) with 52; exact B).
  replace (Z.max (53 + e - 53) (3 - 1024 - 53) - e) with 0 by lia.
  reflexivity.
Qed.

Lemma shr_fexp_2_53 (e : Z) :
  -1074 <= e ->
  shr_fexp prec emax (2 ^ 53) e loc_Exact
  = ({| shr_m := 2 ^ 52; shr_r := false; shr_s := false |}, e + 1).
Proof.
  intros R. unfold shr_fexp, fexp, emin, prec, emax.
  change (Zdigits2 (2 ^ 53)) with 54.
  replace (Z.max (54 + e - 53) (3 - 1024 - 53) - e) with 1 by lia.
  reflexivity.
Qed.

Lemma round_finish (s : bool) (M0 e : Z) :
  2 ^ 52 <= M0 <= 2 ^ 53 -> -1074 <= e <= 970 ->
  (let '(mrs, e') := shr_fexp prec emax M0 e loc_Exact in
   match shr_m mrs with
   | Z0 => S754_zero s
   | Zpos m => if e' <=? emax - prec then S754_finite s m e' else S754_infinity s
   | Zneg _ => S754_nan
   end) = finish s M0 e.
Proof.
  intros B R. unfold finish. destruct (Z.ltb_spec M0 (2 ^ 53)) as [L|G].
  - destruct M0 as [|m|m]; try lia.
    rewrite shr_fexp_53 by lia. cbn [shr_m Z.to_pos]. unfold emax, prec.
    assert ((e <=? 1024 - 53) = true) as -> by (apply Z.leb_le; lia).
    reflexivity.
  - assert (M0 = 2 ^ 53) as -> by lia.
    rewrite shr_fexp_2_53 by lia. cbn [shr_m]. unfold emax, prec.
    assert ((e + 1 <=? 1024 - 53) = true) as -> by (apply Z.leb_le; lia).
    reflexivity.
Qed.

Lemma compare_finish (M0 e z : Z) :
  2 ^ 52 <= M0 <= 2 ^ 53 -> e <= 0 ->
  float_compare_int (finish false M0 e) z = Some (M0 ?= z * 2 ^ (- e)).
Proof.
  intros B R. unfold finish, float_compare_int.
  destruct (Z.ltb_spec M0 (2 ^ 53)) as [L|G].
  - rewrite Z2Pos.id by lia. destruct (Z.leb_spec 0 e) as [P|N]; [|reflexivity].
    assert (e = 0) as -> by lia. cbn [Z.opp Z.pow Z.pow_pos Pos.iter Z.mul Pos.mul].
    now rewrite !Z.mul_1_r.
  - assert (M0 = 2 ^ 53) as -> by lia. f_equal.
    change (Z.pos (Z.to_pos (2 ^ 52))) with (2 ^ 52).
    destruct (Z.leb_spec 0 (e + 1)) as [P|N].
    + assert (e = 0 \/ e = -1) as [-> | ->] by lia.
      * cbn [Z.add Z.opp]. change (2 ^ 52 * 2 ^ 1) with (2 ^ 53).
        change (2 ^ 0) with 1. now rewrite Z.mul_1_r.
      * cbn [Z.add Z.opp Z.pos_sub]. change (2 ^ 52 * 2 ^ 0) with (2 ^ 52).
        change (2 ^ 53) with (2 * 2 ^ 52). change (2 ^ 1) with 2.
        rewrite (Z.mul_comm z 2). apply Zmult_compare_compat_l. lia.
    + replace (- e) with (Z.succ (- (e + 1))) by lia.
      rewrite Z.pow_succ_r by lia.
      change (2 ^ 53) with (2 * 2 ^ 52).
      replace (z * (2 * 2 ^ (- (e + 1)))) with (2 * (z * 2 ^ (- (e + 1)))) by lia.
      apply Zmult_compare_compat_l. lia.
Qed.

Lemma round_nearest_even_bounds (m : Z) (l : location) :
  m <= round_nearest_even m l <= m + 1.
Proof.
  unfold round_nearest_even. destruct l as [|[]]; try lia.
  destruct (Z.even m); lia.
Qed.

Lemma shr_1_pos (q : positive) (r s : bool) :
  2 <= Z.pos q ->
  shr_1 {| shr_m := Z.pos q; shr_r := r; shr_s := s |}
  = {| shr_m := Z.pos q / 2; shr_r := Z.odd (Z.pos q); shr_s := r || s |}.
Proof.
  intros B. destruct q as [p|p|]; [| |lia]; cbn [shr_1 Z.odd].
  - f_equal. rewrite Pos2Z.inj_xI.
    apply (Z.div_unique (2 * Z.pos p + 1) 2 (Z.pos p) 1); lia.
  - f_equal. rewrite Pos2Z.inj_xO.
    apply (Z.div_unique (2 * Z.pos p) 2 (Z.pos p) 0); lia.
Qed.

(** Rounding a quotient of 53 or 54 bits. *)
Lemma binary_round_aux_quotient (q : positive) (e : Z) (lz : location) :
  2 ^ 52 <= Z.pos q < 2 ^ 54 -> -1074 <= e <= 969 ->
  binary_round_aux prec emax false (Z.pos q) e lz
  = if Z.pos q <? 2 ^ 53
    then finish false (round_nearest_even (Z.pos q) lz) e
    else finish false
           (round_nearest_even (Z.pos q / 2)
              (loc_of_shr_record
                 (shr_1 (shr_record_of_loc (Z.pos q) lz))))
           (e + 1).
Proof.
  intros B R. unfold binary_round_aux.
  destruct (Z.ltb_spec (Z.pos q) (2 ^ 53)) as [L|G].
  - assert (shr_fexp prec emax (Z.pos q) e lz
            = (shr_record_of_loc (Z.pos q) lz, e)) as ->.
    { unfold shr_fexp, fexp, emin, prec, emax. cbn [Zdigits2].
      rewrite (digits2_pos_unique q 53) by (change (53 - 1) with 52; lia).
      replace (Z.max (53 + e - 53) (3 - 1024 - 53) - e) with 0 by lia.
      reflexivity. }
    rewrite loc_of_shr_record_of_loc.
    assert (shr_m (shr_record_of_loc (Z.pos q) lz) = Z.pos q) as ->
      by now destruct lz as [|[]].
    pose proof (round_nearest_even_bounds (Z.pos q) lz).
    apply round_finish; lia.
  - assert (shr_fexp prec emax (Z.pos q) e lz
            = (shr_1 (shr_record_of_loc (Z.pos q) lz), e + 1)) as ->.
    { unfold shr_fexp, fexp, emin, prec, emax. cbn [Zdigits2].
      rewrite (digits2_pos_unique q 54) by (change (54 - 1) with 53; lia).
      replace (Z.max (54 + e - 53) (3 - 1024 - 53) - e) with 1 by lia.
      reflexivity. }
    assert (shr_m (shr_1 (shr_record_of_loc (Z.pos q) lz)) = Z.pos q / 2) as ->.
    { assert (2 <= Z.pos q) by (assert (2 <= 2 ^ 53) by (cbn; lia); lia).
      destruct lz as [|[]]; cbn [shr_record_of_loc]; now rewrite shr_1_pos. }
    pose proof (round_nearest_even_bounds (Z.pos q / 2)
                  (loc_of_shr_record (shr_1 (shr_record_of_loc (Z.pos q) lz)))).
    assert (2 ^ 52 <= Z.pos q / 2 < 2 ^ 53).
    { change (2 ^ 53) with (2 * 2 ^ 52) in G. change (2 ^ 54) with (2 * 2 ^ 53) in B.
      split; [apply Z.div_le_lower_bound; lia | apply Z.div_lt_upper_bound; lia]. }
    apply round_finish; lia.
Qed.

(** An integer quotient [q] of [a * S] by [b], rounded to a neighbour,
    compares with [z * S] as [a] with [z * b], when [S] exceeds [b]. *)
Lemma rounded_quotient_compare (a b q r S z M0 : Z) :
  a * S = b * q + r -> 0 <= r < b -> b < S ->
  (M0 = q \/ M0 = q + 1) -> (r = 0 -> M0 = q) ->
  (M0 ?= z * S) = (a ?= z * b).
Proof.
  intros E R B M X.
  assert (b * (z * S - q) = (z * b - a) * S + r) as D by lia.
  destruct (Z.compare_spec a (z * b)) as [C|C|C].
  - assert (z * S - q = 0) as Q by nia.
    assert (r = 0) as R0 by nia.
    rewrite (X R0). apply Z.compare_eq_iff. lia.
  - assert (2 <= z * S - q) as Q by nia.
    apply Z.compare_lt_iff. lia.
  - assert (z * S - q <= -1) as Q by nia.
    apply Z.compare_gt_iff. lia.
Qed.

Lemma halved_quotient_compare (a b q q1 o r H z M0 : Z) :
  a * (2 * H) = b * q + r -> 0 <= r < b -> b < 2 * H ->
  q = 2 * q1 + o -> 0 <= o <= 1 ->
  (M0 = q1 \/ M0 = q1 + 1) -> (o = 0 -> M0 = q1) ->
  (o = 1 -> r <> 0 -> M0 = q1 + 1) ->
  (M0 ?= z * H) = (a ?= z * b).
Proof.
  intros E R B Q O M X0 X1.
  assert (b * (2 * (z * H) - q) = (z * b - a) * (2 * H) + r) as D by lia.
  destruct (Z.compare_spec a (z * b)) as [C|C|C].
  - assert (2 * (z * H) - q = 0) as Q0 by nia.
    assert (o = 0) as O0 by lia.
    rewrite (X0 O0). apply Z.compare_eq_iff. lia.
  - assert (2 <= 2 * (z * H) - q) as Q2 by nia.
    apply Z.compare_lt_iff.
    destruct (Z.eq_dec o 0) as [O0|O1]; [rewrite (X0 O0); lia | lia].
  - assert (2 * (z * H) - q <= -1) as Q1 by nia.
    apply Z.compare_gt_iff.
    destruct (Z.eq_dec (2 * (z * H) - q) (-1)) as [T|T]; [|lia].
    assert (o = 1) as O1 by lia.
    assert (r <> 0) as RN by nia.
    rewrite (X1 O1 RN). lia.
Qed.

(** The quotient of two positive integers below [2^53] compares with an
    integer as the exact quotient does. *)
Lemma fdiv_compare_int (a b : positive) (z : Z) :
  Z.pos a < 2 ^ 53 -> Z.pos b < 2 ^ 53 ->
  float_compare_int (fdiv (S754_finite false a 0) (S754_finite false b 0)) z
  = Some (Z.pos a ?= z * Z.pos b).
Proof.
  intros A B. unfold fdiv, SFdiv, SFdiv_core_binary. cbn [xorb Zdigits2].
  pose proof (digits2_pos_lower a) as La. pose proof (digits2_pos_upper a) as Ua.
  pose proof (digits2_pos_lower b) as Lb. pose proof (digits2_pos_upper b) as Ub.
  set (d1 := Z.pos (digits2_pos a)) in *. set (d2 := Z.pos (digits2_pos b)) in *.
  assert (1 <= d1 <= 53) as D1.
  { split; [unfold d1; lia|].
    destruct (Z_le_gt_dec d1 53) as [|G]; [assumption|].
    assert (2 ^ 53 <= 2 ^ (d1 - 1)) by (apply Z.pow_le_mono_r; lia). lia. }
  assert (1 <= d2 <= 53) as D2.
  { split; [unfold d2; lia|].
    destruct (Z_le_gt_dec d2 53) as [|G]; [assumption|].
    assert (2 ^ 53 <= 2 ^ (d2 - 1)) by (apply Z.pow_le_mono_r; lia). lia. }
  unfold fexp, emin, prec, emax.
  replace (Z.min (Z.max (d1 + 0 - (d2 + 0) - 53) (3 - 1024 - 53)) (0 - 0))
    with (d1 - d2 - 53) by lia.
  replace (0 - 0 - (d1 - d2 - 53)) with (53 + d2 - d1) by lia.
  destruct (53 + d2 - d1) as [|sh|sh] eqn:SH; try lia.
  rewrite Z.shiftl_mul_pow2 by lia.
  set (S := 2 ^ Z.pos sh).
  assert (Z.pos b < S) as BS.
  { assert (2 ^ d2 <= S) by (apply Z.pow_le_mono_r; lia). lia. }
  assert (2 ^ (d1 - 1) * S = 2 ^ 53 * 2 ^ (d2 - 1)) as PS.
  { unfold S. rewrite <- !Z.pow_add_r by lia. f_equal. lia. }
  assert (2 ^ d1 = 2 * 2 ^ (d1 - 1)) as P1
    by (rewrite <- Z.pow_succ_r by lia; f_equal; lia).
  assert (2 ^ d2 = 2 * 2 ^ (d2 - 1)) as P2
    by (rewrite <- Z.pow_succ_r by lia; f_equal; lia).
  pose proof (Z_div_mod (Z.pos a * S) (Z.pos b) ltac:(lia)) as DM.
  destruct (Z.div_eucl (Z.pos a * S) (Z.pos b)) as [q r]. destruct DM as [E R].
  assert (0 < S) as SP by (apply Z.pow_pos_nonneg; lia).
  assert (0 < 2 ^ (d1 - 1)) as PP1 by (apply Z.pow_pos_nonneg; lia).
  assert (0 < 2 ^ (d2 - 1)) as PP2 by (apply Z.pow_pos_nonneg; lia).
  assert (2 ^ 52 <= q < 2 ^ 54) as Q.
  { change (2 ^ 54) with (2 * 2 ^ 53). change (2 ^ 53) with (2 * 2 ^ 52) in PS |- *.
    set (p52 := 2 ^ 52) in *. set (x1 := 2 ^ (d1 - 1)) in *. set (x2 := 2 ^ (d2 - 1)) in *.
    assert (0 < p52) by (unfold p52; lia).
    assert (x1 * S <= Z.pos a * S) by nia.
    assert (Z.pos a * S < 2 * x1 * S) by nia.
    split.
    - destruct (Z_le_gt_dec p52 q) as [|G]; [assumption|].
      assert (Z.pos b * q + r < Z.pos b * p52) by nia. nia.
    - destruct (Z_lt_le_dec q (2 * (2 * p52))) as [|G]; [assumption|].
      assert (Z.pos b * (2 * (2 * p52)) <= Z.pos b * q) by nia. nia. }
  destruct q as [|q|q]; try lia.
  rewrite binary_round_aux_quotient; [|exact Q|lia].
  rewrite new_location_spec by exact R.
  destruct (Z.ltb_spec (Z.pos q) (2 ^ 53)) as [L|G].
  - pose proof (round_nearest_even_bounds (Z.pos q)
                  (if r =? 0 then loc_Exact else loc_Inexact (2 * r ?= Z.pos b))) as RB.
    rewrite compare_finish; [|lia|lia]. f_equal.
    replace (- (d1 - d2 - 53)) with (Z.pos sh) by lia. fold S.
    apply (rounded_quotient_compare (Z.pos a) (Z.pos b) (Z.pos q) r S z);
      try assumption.
    + unfold round_nearest_even. destruct (r =? 0); [now left|].
      destruct (2 * r ?= Z.pos b); [destruct (Z.even (Z.pos q))| |];
        first [left; reflexivity | right; reflexivity].
    + intros ->. reflexivity.
  - set (l' := loc_of_shr_record (shr_1 (shr_record_of_loc (Z.pos q)
                 (if r =? 0 then loc_Exact else loc_Inexact (2 * r ?= Z.pos b))))).
    pose proof (round_nearest_even_bounds (Z.pos q / 2) l') as RB.
    assert (2 ^ 52 <= Z.pos q / 2 < 2 ^ 53) as QB.
    { change (2 ^ 53) with (2 * 2 ^ 52) in G. change (2 ^ 54) with (2 * 2 ^ 53) in Q.
      split; [apply Z.div_le_lower_bound; lia | apply Z.div_lt_upper_bound; lia]. }
    rewrite compare_finish; [|lia|lia]. f_equal.
    replace (- (d1 - d2 - 53 + 1)) with (Z.pos sh - 1) by lia.
    set (H := 2 ^ (Z.pos sh - 1)).
    assert (S = 2 * H) as SH2.
    { unfold S, H. rewrite <- Z.pow_succ_r by lia. f_equal. lia. }
    assert (l' = loc_of_shr_record
                   {| shr_m := Z.pos q / 2; shr_r := Z.odd (Z.pos q);
                      shr_s := negb (r =? 0) |}) as L'.
    { unfold l'. assert (2 <= Z.pos q) by (assert (2 <= 2 ^ 53) by (cbn; lia); lia).
      destruct (r =? 0); [|destruct (2 * r ?= Z.pos b)];
        cbn [shr_record_of_loc]; rewrite shr_1_pos by assumption; reflexivity. }
    pose proof (Z.div_mod (Z.pos q) 2 ltac:(lia)) as QD.
    pose proof (Z.mod_pos_bound (Z.pos q) 2 ltac:(lia)) as QM.
    assert (Z.odd (Z.pos q) = (Z.pos q mod 2 =? 1)) as OD.
    { rewrite Zmod_odd. now destruct (Z.odd (Z.pos q)). }
    rewrite SH2 in E, BS.
    apply (halved_quotient_compare (Z.pos a) (Z.pos b) (Z.pos q) (Z.pos q / 2)
             (Z.pos q mod 2) r H z); try assumption; try lia.
    + intros O0. rewrite L', OD, O0. cbn [Z.eqb].
      unfold round_nearest_even, loc_of_shr_record. now destruct (negb (r =? 0)).
    + intros O1 RN. rewrite L', OD, O1. cbn [Z.eqb Pos.eqb].
      apply Z.eqb_neq in RN. rewrite RN. reflexivity.
Qed.

(** With a dividend and a positive divisor below [2^53], the quotient is
    above a nonnegative integer exactly when the dividend is above the
    product. *)
Lemma int_truediv_gt_exact (a b z : Z) (r : float) :
  0 < b < 2 ^ 53 -> a < 2 ^ 53 -> 0 <= z -> int_truediv a b = Ok r ->
  float_gt_int r z = (z * b <? a).
Proof.
  intros PB A PZ Q.
  destruct (Z.lt_trichotomy a 0) as [N|[->|P]].
  - rewrite (int_truediv_negative a b z r N ltac:(lia) PZ Q).
    symmetry. apply Z.ltb_ge. nia.
  - unfold int_truediv in Q.
    assert ((b =? 0) = false) as B0 by (apply Z.eqb_neq; lia).
    rewrite B0 in Q. cbn in Q. injection Q as <-.
    unfold float_gt_int, float_compare_int.
    destruct (Z.compare_spec 0 z); destruct (Z.ltb_spec (z * b) 0);
      try reflexivity; nia.
  - unfold int_truediv in Q.
    destruct (b =? 0); [discriminate|].
    destruct (a =? 0) eqn:A0; [apply Z.eqb_eq in A0; lia|].
    destruct (_ <=? _); [discriminate|]. injection Q as <-.
    destruct a as [|a|a]; try lia. destruct b as [|b|b]; try lia.
    cbn [exact_int]. unfold float_gt_int.
    rewrite (fdiv_compare_int a b z A ltac:(lia)).
    destruct (Z.compare_spec (Z.pos a) (z * Z.pos b));
      destruct (Z.ltb_spec (z * Z.pos b) (Z.pos a)); try reflexivity; lia.
Qed.

(** ** The leverage rule *)

Lemma hog_skuldsattning_spec (n : Nyckeltal) (ek bal : Z) (s : list RiskFlag) :
  eget_kapital n = Some ek -> balansomslutning n = Some bal -> 0 < ek ->
  rule_hog_skuldsattning n = Ok s ->
  (forall r, int_truediv (bal - ek) ek = Ok r ->
     s = (if float_gt_int r 3 then [flag_hog_skuldsattning r] else [])) /\
  (bal <> 0 -> exists r, int_truediv (bal - ek) ek = Ok r).
Proof.
  intros EK BAL POS. unfold rule_hog_skuldsattning. rewrite EK, BAL.
  cbn [truthy as_int bind].
  assert ((ek =? 0) = false) as -> by (apply Z.eqb_neq; lia). cbn [negb andb].
  destruct (bal =? 0) eqn:B; cbn [negb].
  - apply Z.eqb_eq in B. subst bal. intros [= <-]. split; [|intros H; now contradiction H].
    intros r R. rewrite (int_truediv_negative (0 - ek) ek 3 r); [reflexivity|lia|lia|lia|exact R].
  - assert ((0 <? ek) = true) as -> by (apply Z.ltb_lt; lia).
    destruct (int_truediv (bal - ek) ek) as [r|] eqn:R; [|discriminate].
    cbn [bind]. intros H. split.
    + intros r' [= <-]. unfold flag_hog_skuldsattning.
      destruct (float_gt_int r 3); now injection H as <-.
    + intros _. now exists r.
Qed.

Example skuldsattningsgrad_3 : int_truediv (4000000 - 1000000) 1000000 = Ok f3.
Proof. vm_compute. reflexivity. Qed.

Example skuldsattningsgrad_4 : int_truediv (5000000 - 1000000) 1000000 = Ok f4.
Proof. vm_compute. reflexivity. Qed.

(** C4.  On a report whose equity and total assets are present with a
    strictly positive equity, [analyze_risks] emits a High finding of the
    category leverage exactly when the quotient
    (total assets - equity) / equity is strictly greater than 3, which
    for amounts below [2^53] is 3 * equity < total assets - equity:
    assets 4,000,000 on equity 1,000,000 give 3.0 and no finding, assets
    5,000,000 on equity 1,000,000 give 4.0 and the finding. *)
Theorem analyze_risks_leverage (a : Arsredovisning)
    (trends : option (dict Nyckeltal)) (flags : list RiskFlag) (ek bal : Z) :
  eget_kapital (nyckeltal a) = Some ek ->
  balansomslutning (nyckeltal a) = Some bal ->
  0 < ek ->
  analyze_risks a trends = Ok flags ->
  ((exists f, In f flags /\ is_leverage f = true) <->
   (exists r, int_truediv (bal - ek) ek = Ok r /\ float_gt_int r 3 = true)) /\
  (bal < 2 ^ 53 -> ek < 2 ^ 53 ->
   ((exists f, In f flags /\ is_leverage f = true) <-> 3 * ek < bal - ek)) /\
  (ek = 1000000 -> bal = 4000000 ->
     int_truediv (bal - ek) ek = Ok f3 /\ filter is_leverage flags = []) /\
  (ek = 1000000 -> bal = 5000000 ->
     int_truediv (bal - ek) ek = Ok f4 /\
     filter is_leverage flags = [flag_hog_skuldsattning f4]).
Proof.
  intros EK BAL POS Run.
  destruct (analyze_risks_selected a trends flags Run)
    as [k [s [g [_ [S [_ [_ [L _]]]]]]]].
  destruct (hog_skuldsattning_spec _ ek bal s EK BAL POS S) as [V R].
  assert ((exists f, In f flags /\ is_leverage f = true) <->
          (exists r, int_truediv (bal - ek) ek = Ok r /\
                     float_gt_int r 3 = true)) as Iff.
  { rewrite filter_nonempty, L. split.
    + intros NE. destruct (Z.eq_dec bal 0) as [Z|NZ].
      * exfalso. apply NE. subst bal.
        unfold rule_hog_skuldsattning in S. rewrite EK, BAL in S.
        cbn in S. rewrite andb_false_r in S. now injection S as <-.
      * destruct (R NZ) as [r Q]. exists r. split; [exact Q|].
        rewrite (V r Q) in NE. destruct (float_gt_int r 3); [reflexivity|].
        now contradiction NE.
    + intros [r [Q G]]. rewrite (V r Q), G. discriminate. }
  split; [exact Iff|]. split; [|split].
  - intros B53 E53. rewrite Iff. split.
    + intros [r [Q G]].
      rewrite (int_truediv_gt_exact (bal - ek) ek 3 r) in G by (try exact Q; lia).
      now apply Z.ltb_lt in G.
    + intros G. destruct (R ltac:(lia)) as [r Q]. exists r. split; [exact Q|].
      rewrite (int_truediv_gt_exact (bal - ek) ek 3 r) by (try exact Q; lia).
      now apply Z.ltb_lt.
  - intros -> ->. split; [exact skuldsattningsgrad_3|].
    rewrite L, (V f3 skuldsattningsgrad_3). reflexivity.
  - intros -> ->. split; [exact skuldsattningsgrad_4|].
    rewrite L, (V f4 skuldsattningsgrad_4). reflexivity.
Qed.

Lemma analyze_risks_leverage_witness :
  let a := arsredovisning_av
             (nyckeltal_av None None (Some 1000000) (Some 5000000)) None in
  eget_kapital (nyckeltal a) = Some 1000000 /\
  balansomslutning (nyckeltal a) = Some 5000000 /\
  0 < 1000000 /\
  analyze_risks a None = Ok (flags_av a) /\
  filter is_leverage (flags_av a) = [flag_hog_skuldsattning f4].
Proof.
  intros a.
  assert (EK : eget_kapital (nyckeltal a) = Some 1000000) by reflexivity.
  assert (BAL : balansomslutning (nyckeltal a) = Some 5000000) by reflexivity.
  assert (POS : 0 < 1000000) by lia.
  assert (Run : analyze_risks a None = Ok (flags_av a)) by (vm_compute; reflexivity).
  repeat (split; [assumption|]).
  apply (analyze_risks_leverage a None (flags_av a) 1000000 5000000 EK BAL POS Run);
    reflexivity.
Defined.

(** ** The equity-erosion rule *)

Lemma kontrollbalansrakning_spec (n : Nyckeltal)
    (balans : dict (dict (option Z))) (ek ak : Z) (k : list RiskFlag) :
  aktiekapital_av balans = Some ak -> ak <> 0 ->
  eget_kapital n = Some ek -> ek <> 0 ->
  rule_kontrollbalansrakning n balans = Ok k ->
  exists limit, int_mul_float ak half = Ok limit /\
    k = (if int_lt_float ek limit then [flag_kontrollbalansrakning ek ak] else []).
Proof.
  intros AK NZ EK NE. unfold rule_kontrollbalansrakning.
  fold (aktiekapital_av balans). rewrite AK, EK. cbn [truthy as_int bind].
  assert ((ak =? 0) = false) as -> by now apply Z.eqb_neq.
  assert ((ek =? 0) = false) as -> by now apply Z.eqb_neq.
  cbn [negb andb].
  destruct (int_mul_float ak half) as [limit|]; [|discriminate]. cbn [bind].
  intros H. exists limit. split; [reflexivity|].
  unfold flag_kontrollbalansrakning.
  destruct (int_lt_float ek limit); now injection H as <-.
Qed.

Example half_av_aktiekapital : int_mul_float 100000 half = Ok f50000.
Proof. vm_compute. reflexivity. Qed.

(** C5 (amended).  On a report whose share capital and equity are both
    present and nonzero, [analyze_risks] emits the Critical finding of
    the category capital structure on eroded equity exactly when
    equity < share capital * 0.5, which for a share capital below [2^53]
    in magnitude is 2 * equity < share capital; share capital 100,000
    gives the finding on equity 49,999 and none on equity 50,000. *)
Theorem analyze_risks_erosion (a : Arsredovisning)
    (trends : option (dict Nyckeltal)) (flags : list RiskFlag) (ek ak : Z) :
  aktiekapital_av (balansrakning a) = Some ak -> ak <> 0 ->
  eget_kapital (nyckeltal a) = Some ek -> ek <> 0 ->
  analyze_risks a trends = Ok flags ->
  (exists limit, int_mul_float ak half = Ok limit /\
     ((exists f, In f flags /\ is_erosion f = true) <->
      int_lt_float ek limit = true)) /\
  (Z.abs ak < 2 ^ 53 ->
     ((exists f, In f flags /\ is_erosion f = true) <-> 2 * ek < ak)) /\
  (ak = 100000 -> ek = 49999 ->
     filter is_erosion flags = [flag_kontrollbalansrakning 49999 100000]) /\
  (ak = 100000 -> ek = 50000 -> filter is_erosion flags = []).
Proof.
  intros AK NZ EK NE Run.
  destruct (analyze_risks_selected a trends flags Run)
    as [k [s [g [K [_ [_ [E _]]]]]]].
  destruct (kontrollbalansrakning_spec _ _ ek ak k AK NZ EK NE K) as [limit [L V]].
  assert ((exists f, In f flags /\ is_erosion f = true) <->
          int_lt_float ek limit = true) as Iff.
  { rewrite filter_nonempty, E, V.
    destruct (int_lt_float ek limit); split; try discriminate; try reflexivity.
    intros H. now contradiction H. }
  split; [|split; [|split]].
  - exists limit. split; [exact L | exact Iff].
  - intros B. rewrite Iff, (half_of_small_int ak ek limit NZ B L).
    apply Z.ltb_lt.
  - intros -> ->. rewrite half_av_aktiekapital in L. injection L as <-.
    rewrite E, V. reflexivity.
  - intros -> ->. rewrite half_av_aktiekapital in L. injection L as <-.
    rewrite E, V. reflexivity.
Qed.

Lemma analyze_risks_erosion_witness :
  let a := arsredovisning_av
             (nyckeltal_av None None (Some 49999) None) (Some 100000) in
  aktiekapital_av (balansrakning a) = Some 100000 /\ 100000 <> 0 /\
  eget_kapital (nyckeltal a) = Some 49999 /\ 49999 <> 0 /\
  analyze_risks a None = Ok (flags_av a) /\
  filter is_erosion (flags_av a) = [flag_kontrollbalansrakning 49999 100000].
Proof.
  intros a.
  assert (AK : aktiekapital_av (balansrakning a) = Some 100000) by reflexivity.
  assert (NZ : 100000 <> 0) by lia.
  assert (EK : eget_kapital (nyckeltal a) = Some 49999) by reflexivity.
  assert (NE : 49999 <> 0) by lia.
  assert (Run : analyze_risks a None = Ok (flags_av a)) by (vm_compute; reflexivity).
  repeat (split; [assumption|]).
  apply (analyze_risks_erosion a None (flags_av a) 49999 100000 AK NZ EK NE Run);
    reflexivity.
Defined.

(** C5 as stated fails: with share capital 100,000 and equity 0 the
    equity is present and below half the share capital, the run returns,
    and no finding on eroded equity is emitted. *)
Lemma no_erosion_on_zero_equity :
  let a := arsredovisning_av
             (nyckeltal_av None None (Some 0) None) (Some 100000) in
  aktiekapital_av (balansrakning a) = Some 100000 /\
  eget_kapital (nyckeltal a) = Some 0 /\
  int_mul_float 100000 half = Ok f50000 /\
  int_lt_float 0 f50000 = true /\
  analyze_risks a None = Ok (flags_av a) /\
  ~ (exists f, In f (flags_av a) /\ is_erosion f = true).
Proof.
  intros a. repeat (split; [vm_compute; reflexivity|]).
  rewrite filter_nonempty. intros H. apply H. vm_compute. reflexivity.
Qed.

(** ** The growth rule *)

Lemma fallande_omsattning_spec (first_year last_year : Nyckeltal)
    (g : list RiskFlag) (ro rn : Z) :
  nettoomsattning first_year = Some ro ->
  nettoomsattning last_year = Some rn ->
  rule_fallande_omsattning first_year last_year = Ok g ->
  growth_outcome last_year first_year g.
Proof.
  intros RO RN. unfold rule_fallande_omsattning. rewrite RO, RN.
  cbn [truthy as_int bind]. intros H.
  exists rn, ro. split; [exact RN|]. split; [exact RO|].
  destruct (ro =? 0) eqn:Z1; cbn [negb andb] in H.
  { apply Z.eqb_eq in Z1. injection H as <-. split; [reflexivity | lia]. }
  destruct (rn =? 0) eqn:Z2; cbn [negb] in H.
  { apply Z.eqb_eq in Z2. injection H as <-. split; [reflexivity | lia]. }
  apply Z.eqb_neq in Z1, Z2.
  destruct (0 <? ro) eqn:P.
  2:{ apply Z.ltb_ge in P. injection H as <-. split; [reflexivity | lia]. }
  apply Z.ltb_lt in P. split; [lia|]. intros _ _.
  destruct (int_truediv (rn - ro) ro) as [q|] eqn:Q; [|discriminate].
  cbn [bind] in H.
  destruct (fmul_int q 100) as [c|] eqn:C; [|discriminate]. cbn [bind] in H.
  exists q, c. split; [reflexivity|]. split; [exact C|].
  unfold flag_fallande, flag_sjunkande.
  destruct (float_lt_int c (-20)) eqn:L20.
  - injection H as <-. split; [reflexivity|]. split.
    + intros G. apply float_ge_not_lt in G. congruence.
    + intros G. apply (float_ge_int_mono c (-20) (-10)) in G; [|lia].
      apply float_ge_not_lt in G. congruence.
  - destruct (float_lt_int c (-10)) eqn:L10; injection H as <-.
    + split; [discriminate|]. split; [reflexivity|].
      intros G. apply float_ge_not_lt in G. congruence.
    + split; [discriminate|]. split; [discriminate | reflexivity].
Qed.

(** ** The overview that the classifier receives *)

Section Overview.

Variable pow10_neg : Z -> float.
Variable self : IXBRLParser.

Lemma get_flerarsoversikt_Ok (trends : dict Nyckeltal) :
  get_flerarsoversikt pow10_neg self = Ok trends ->
  exists n0 n1 n2 n3,
    get_nyckeltal pow10_neg self (period 0) = Ok n0 /\
    get_nyckeltal pow10_neg self (period 1) = Ok n1 /\
    get_nyckeltal pow10_neg self (period 2) = Ok n2 /\
    get_nyckeltal pow10_neg self (period 3) = Ok n3 /\
    trends = oversikt_av n0 n1 n2 n3.
Proof.
  unfold get_flerarsoversikt, flerarsoversikt_step. cbn [fold_left bind].
  fold (period 0) (period 1) (period 2) (period 3).
  destruct (get_nyckeltal pow10_neg self (period 0)) as [n0|] eqn:N0;
    cbn [bind]; [|intros H; discriminate H].
  destruct (nettoomsattning n0) as [r0|] eqn:R0; cbn [bind];
    (destruct (get_nyckeltal pow10_neg self (period 1)) as [n1|] eqn:N1;
     cbn [bind]; [|intros H; discriminate H]);
    (destruct (nettoomsattning n1) as [r1|] eqn:R1; cbn [bind]);
    (destruct (get_nyckeltal pow10_neg self (period 2)) as [n2|] eqn:N2;
     cbn [bind]; [|intros H; discriminate H]);
    (destruct (nettoomsattning n2) as [r2|] eqn:R2; cbn [bind]);
    (destruct (get_nyckeltal pow10_neg self (period 3)) as [n3|] eqn:N3;
     cbn [bind]; [|intros H; discriminate H]);
    (destruct (nettoomsattning n3) as [r3|] eqn:R3; cbn [bind]);
    intros H; exists n0, n1, n2, n3; repeat (split; [reflexivity|]);
    unfold oversikt_av, retained; cbn [filter snd];
    rewrite R0, R1, R2, R3; cbn in H; now injection H as <-.
Qed.

End Overview.

Lemma fallande_omsattning_growth (first_year last_year : Nyckeltal)
    (g : list RiskFlag) :
  rule_fallande_omsattning first_year last_year = Ok g ->
  filter is_growth g = g.
Proof.
  unfold rule_fallande_omsattning.
  destruct (truthy _ && truthy _); [|now intros [= <-]].
  destruct (as_int _) as [f|]; [|discriminate]. cbn [bind].
  destruct (as_int _) as [l|]; [|discriminate]. cbn [bind].
  destruct (0 <? f); [|now intros [= <-]].
  destruct (int_truediv _ _) as [q|]; [|discriminate]. cbn [bind].
  destruct (fmul_int q 100) as [c|]; [|discriminate]. cbn [bind].
  destruct (float_lt_int c (-20)); [now intros [= <-]|].
  destruct (float_lt_int c (-10)); now intros [= <-].
Qed.

Ltac small_index idx :=
  let H := fresh in
  assert (idx = 0 \/ idx = 1 \/ idx = 2 \/ idx = 3) as H by lia;
  destruct H as [H|[H|[H|H]]]; subst idx; try lia; reflexivity.

Ltac compared i j ni nj :=
  exists i, j, ni, nj;
  split;
  [ unfold lowest_and_highest;
    repeat split; try lia; try reflexivity;
    (let idx := fresh "idx" in intros idx ?; small_index idx)
  | split; [assumption|]; split; [assumption|];
    match goal with
    | G : rule_fallande_omsattning nj ni = Ok ?g |- _ =>
        rewrite (fallande_omsattning_growth nj ni g G);
        match goal with
        | Ro : nettoomsattning nj = Some ?ro, Rn : nettoomsattning ni = Some ?rn |- _ =>
            exact (fallande_omsattning_spec nj ni g ro rn Ro Rn G)
        end
    end ].

(** C3 (amended).  When the overview of a document retains at least two
    periods, [analyze_risks] compares the retained period of lowest index
    (the newest; index 0 when period 0 is retained) with the retained
    period of highest index (the oldest).  The change
    (newest - oldest) / oldest * 100 is computed only when both revenues
    are nonzero and the oldest is strictly positive, and at most one
    growth finding is emitted: the High one when change < -20, the Medium
    one when -20 <= change < -10, none when change >= -10 or when the
    change is not computed. *)
Theorem analyze_risks_growth (pow10_neg : Z -> float) (self : IXBRLParser)
    (a : Arsredovisning) (trends : dict Nyckeltal) (flags : list RiskFlag) :
  get_flerarsoversikt pow10_neg self = Ok trends ->
  (2 <= List.length trends)%nat ->
  analyze_risks a (Some trends) = Ok flags ->
  exists i j newest oldest,
    lowest_and_highest trends i j newest oldest /\
    get_nyckeltal pow10_neg self (period i) = Ok newest /\
    get_nyckeltal pow10_neg self (period j) = Ok oldest /\
    growth_outcome newest oldest (filter is_growth flags).
Proof.
  intros HO HL Run.
  destruct (get_flerarsoversikt_Ok pow10_neg self trends HO)
    as [n0 [n1 [n2 [n3 [N0 [N1 [N2 [N3 ->]]]]]]]].
  destruct (analyze_risks_selected a _ flags Run)
    as [k [s [g [_ [_ [G [_ [_ ->]]]]]]]].
  clear Run HO. unfold oversikt_av, retained in *. cbn [filter snd] in *.
  destruct (nettoomsattning n0) as [r0|] eqn:R0;
    destruct (nettoomsattning n1) as [r1|] eqn:R1;
    destruct (nettoomsattning n2) as [r2|] eqn:R2;
    destruct (nettoomsattning n3) as [r3|] eqn:R3;
    cbn [List.length] in HL; try lia; clear HL k s;
    cbv -[rule_fallande_omsattning] in G.
  - compared 0 3 n0 n3.
  - compared 0 2 n0 n2.
  - compared 0 3 n0 n3.
  - compared 0 1 n0 n1.
  - compared 0 3 n0 n3.
  - compared 0 2 n0 n2.
  - compared 0 3 n0 n3.
  - compared 1 3 n1 n3.
  - compared 1 2 n1 n2.
  - compared 1 3 n1 n3.
  - compared 2 3 n2 n3.
Qed.

Example decline_30 :
  filter is_growth
    (trendflaggor (soup_omsattning [Some "700000"; Some "800 000"; None; Some "1000000"]))
  = [flag_fallande fm30].
Proof. vm_compute. reflexivity. Qed.

Example decline_15 :
  filter is_growth
    (trendflaggor (soup_omsattning [Some "850000"; None; None; Some "1000000"]))
  = [flag_sjunkande fm15].
Proof. vm_compute. reflexivity. Qed.

Example decline_5 :
  filter is_growth
    (trendflaggor (soup_omsattning [Some "950000"; None; None; Some "1000000"]))
  = [].
Proof. vm_compute. reflexivity. Qed.

Example decline_without_period0 :
  filter is_growth
    (trendflaggor (soup_omsattning [None; Some "700000"; Some "1000000"; None]))
  = [flag_fallande fm30].
Proof. vm_compute. reflexivity. Qed.

Lemma analyze_risks_growth_witness :
  let soup := soup_omsattning [Some "700000"; None; None; Some "1000000"] in
  get_flerarsoversikt pow10_rounded soup = Ok (oversikt_i soup) /\
  (2 <= List.length (oversikt_i soup))%nat /\
  analyze_risks (arsredovisning_i soup) (Some (oversikt_i soup))
  = Ok (trendflaggor soup) /\
  exists i j newest oldest,
    lowest_and_highest (oversikt_i soup) i j newest oldest /\
    get_nyckeltal pow10_rounded soup (period i) = Ok newest /\
    get_nyckeltal pow10_rounded soup (period j) = Ok oldest /\
    growth_outcome newest oldest (filter is_growth (trendflaggor soup)).
Proof.
  intros soup.
  assert (HO : get_flerarsoversikt pow10_rounded soup = Ok (oversikt_i soup))
    by (vm_compute; reflexivity).
  assert (HL : (2 <= List.length (oversikt_i soup))%nat)
    by (vm_compute; repeat constructor).
  assert (Run : analyze_risks (arsredovisning_i soup) (Some (oversikt_i soup))
                = Ok (trendflaggor soup)) by (vm_compute; reflexivity).
  split; [exact HO|]. split; [exact HL|]. split; [exact Run|].
  exact (analyze_risks_growth pow10_rounded soup (arsredovisning_i soup)
           (oversikt_i soup) (trendflaggor soup) HO HL Run).
Defined.

(** C3 as stated fails: in a document with revenue 0 for period 0 and
    1,000,000 for period 1 both periods are retained, the oldest revenue
    is strictly positive and the change is -100 per cent, below -20, yet
    no growth finding is emitted. *)
Lemma no_growth_finding_on_zero_revenue :
  let soup := soup_omsattning [Some "0"; Some "1000000"; None; None] in
  let trends := oversikt_i soup in
  get_flerarsoversikt pow10_rounded soup = Ok trends /\
  List.length trends = 2%nat /\
  (exists n0 n1,
     dict_get (period 0) trends = Some n0 /\
     dict_get (period 1) trends = Some n1 /\
     nettoomsattning n0 = Some 0 /\ nettoomsattning n1 = Some 1000000) /\
  (exists q, int_truediv (0 - 1000000) 1000000 = Ok q /\
             fmul_int q 100 = Ok fm100 /\ float_lt_int fm100 (-20) = true) /\
  analyze_risks (arsredovisning_i soup) (Some trends) = Ok (trendflaggor soup) /\
  filter is_growth (trendflaggor soup) = [].
Proof.
  intros soup trends.
  split; [vm_compute; reflexivity|]. split; [vm_compute; reflexivity|].
  split.
  { exists (nyckeltal_i soup 0), (nyckeltal_i soup 1).
    repeat split; vm_compute; reflexivity. }
  split.
  { exists (S754_finite true 4503599627370496 (-52)).
    repeat split; vm_compute; reflexivity. }
  split; vm_compute; reflexivity.
Qed.

(* ================================================================== *)
(** * Properties of report retrieval *)
(* ================================================================== *)

Section Retrieval.

Variable world : World.

(** Beyond the last filing, retrieval raises. *)
Lemma fetch_index_beyond (org : string) (index : Z) (docs : list Dokument) :
  dokumentlista world (clean_org_nummer org) = Ok docs ->
  Z.of_nat (List.length docs) <= index ->
  exists msg,
    fetch_and_parse_arsredovisning world org index = Raise (Exception msg).
Proof.
  intros D L. unfold fetch_and_parse_arsredovisning. rewrite D. cbn [bind].
  destruct docs as [|d docs]; [eexists; reflexivity|].
  apply Z.leb_le in L. rewrite L. eexists; reflexivity.
Qed.

(** [bolagsverket_get_nyckeltal] reports it as a missing annual report. *)
Lemma get_nyckeltal_index_beyond (params : FinansiellDataInput)
    (clean : string) (docs : list Dokument) :
  validate_org_nummer (fd_org_nummer params) = (true, clean) ->
  dokumentlista world (clean_org_nummer clean) = Ok docs ->
  Z.of_nat (List.length docs) <= fd_index params ->
  error_code (bolagsverket_get_nyckeltal world params)
  = Some ANNUAL_REPORT_NOT_FOUND.
Proof.
  intros V D L. unfold bolagsverket_get_nyckeltal. rewrite V. cbn [negb].
  destruct (fetch_index_beyond clean (fd_index params) docs D L) as [msg ->].
  reflexivity.
Qed.

(** [bolagsverket_export] and [bolagsverket_download_original] report it
    as an export error. *)
Lemma export_index_beyond (params : ExportInput) (clean : string)
    (docs : list Dokument) :
  validate_org_nummer (ex_org_nummer params) = (true, clean) ->
  dokumentlista world (clean_org_nummer clean) = Ok docs ->
  Z.of_nat (List.length docs) <= ex_index params ->
  error_code (bolagsverket_export world params) = Some EXPORT_ERROR.
Proof.
  intros V D L. unfold bolagsverket_export. rewrite V. cbn [negb].
  destruct (fetch_index_beyond clean (ex_index params) docs D L) as [msg ->].
  reflexivity.
Qed.

Lemma download_original_index_beyond (params : DownloadInput) (clean : string)
    (docs : list Dokument) :
  validate_org_nummer (dl_org_nummer params) = (true, clean) ->
  dokumentlista world (clean_org_nummer clean) = Ok docs ->
  Z.of_nat (List.length docs) <= dl_index params ->
  error_code (bolagsverket_download_original world params) = Some EXPORT_ERROR.
Proof.
  intros V D L. unfold bolagsverket_download_original. rewrite V. cbn [negb].
  destruct (fetch_index_beyond clean (dl_index params) docs D L) as [msg ->].
  reflexivity.
Qed.

End Retrieval.

Example get_nyckeltal_second_of_one :
  bolagsverket_get_nyckeltal (world_med [mkDokument (Some "dok-1")])
    (mkFinansiellDataInput "556767-1267" 1 MARKDOWN)
  = handle_error ANNUAL_REPORT_NOT_FOUND
      (StrOf (Exception "Index 1 finns inte. Det finns 1 årsredovisningar."))
      [("org_nummer", "556767-1267")].
Proof. vm_compute. reflexivity. Qed.

(** C8.  For an organisation with one filing, [bolagsverket_export] asked
    for the filing of index 1 answers with the error code [EXPORT_ERROR],
    not with [ANNUAL_REPORT_NOT_FOUND]. *)
Theorem export_second_of_one :
  bolagsverket_export (world_med [mkDokument (Some "dok-1")])
    (mkExportInput "556767-1267" 1 PDF None)
  = handle_error EXPORT_ERROR
      (StrOf (Exception "Index 1 finns inte. Det finns 1 årsredovisningar."))
      [("format", "pdf")].
Proof. vm_compute. reflexivity. Qed.

(* ================================================================== *)
(** * The classifier returns on numbers in the range of a float *)
(* ================================================================== *)












(* ================================================================== *)
(** * Further properties of the organisation-number functions *)
(* ================================================================== *)







(** X2.  Formatting changes nothing but the hyphen: on every string,
    cleaning the formatted number gives the cleaned number, so that
    [validate_org_nummer] answers the same on a number and on its
    formatted form. *)
Theorem clean_format_org_nummer (x : string) :
  clean_org_nummer (format_org_nummer x) = clean_org_nummer x /\
  validate_org_nummer (format_org_nummer x) = validate_org_nummer x.
Proof.
  assert (clean_org_nummer (format_org_nummer x) = clean_org_nummer x) as E.
  { destruct (clean_org_nummer_lacks x) as [H S]. unfold format_org_nummer.
    destruct (Nat.eqb (len (clean_org_nummer x)) 10).
    - now apply clean_org_nummer_hyphenated.
    - now apply clean_org_nummer_fixed. }
  split; [exact E|]. unfold validate_org_nummer. now rewrite E.
Qed.

(* ================================================================== *)
(** * Further properties of the risk classifier *)
(* ================================================================== *)

(** ** What a rule can emit *)

Lemma kontrollbalansrakning_shape (n : Nyckeltal)
    (balans : dict (dict (option Z))) (k : list RiskFlag) :
  rule_kontrollbalansrakning n balans = Ok k ->
  k = [] \/ exists ek ak, k = [flag_kontrollbalansrakning ek ak].
Proof.
  unfold rule_kontrollbalansrakning.
  destruct (truthy _ && truthy _); [|intros [= <-]; now left].
  destruct (as_int _) as [ak|]; [|discriminate]. cbn [bind].
  destruct (as_int _) as [ek|]; [|discriminate]. cbn [bind].
  destruct (int_mul_float ak half) as [limit|]; [|discriminate]. cbn [bind].
  destruct (int_lt_float ek limit); intros [= <-];
    [right; now exists ek, ak | now left].
Qed.

Lemma hog_skuldsattning_shape (n : Nyckeltal) (s : list RiskFlag) :
  rule_hog_skuldsattning n = Ok s ->
  s = [] \/ exists r, s = [flag_hog_skuldsattning r].
Proof.
  unfold rule_hog_skuldsattning.
  destruct (truthy _ && truthy _); [|intros [= <-]; now left].
  destruct (as_int _) as [bal|]; [|discriminate]. cbn [bind].
  destruct (as_int _) as [ek|]; [|discriminate]. cbn [bind].
  destruct (0 <? ek); [|intros [= <-]; now left].
  destruct (int_truediv _ _) as [r|]; [|discriminate]. cbn [bind].
  destruct (float_gt_int r 3); intros [= <-]; [right; now exists r | now left].
Qed.

Lemma fallande_omsattning_shape (first_year last_year : Nyckeltal)
    (g : list RiskFlag) :
  rule_fallande_omsattning first_year last_year = Ok g ->
  g = [] \/ exists c, g = [flag_fallande c] \/ g = [flag_sjunkande c].
Proof.
  unfold rule_fallande_omsattning.
  destruct (truthy _ && truthy _); [|intros [= <-]; now left].
  destruct (as_int _) as [f|]; [|discriminate]. cbn [bind].
  destruct (as_int _) as [l|]; [|discriminate]. cbn [bind].
  destruct (0 <? f); [|intros [= <-]; now left].
  destruct (int_truediv _ _) as [q|]; [|discriminate]. cbn [bind].
  destruct (fmul_int q 100) as [c|]; [|discriminate]. cbn [bind].
  destruct (float_lt_int c (-20));
    [intros [= <-]; right; exists c; now left|].
  destruct (float_lt_int c (-10)); intros [= <-];
    [right; exists c; now right | now left].
Qed.

Lemma trender_shape (trends : option (dict Nyckeltal)) (g : list RiskFlag) :
  rule_trender trends = Ok g ->
  g = [] \/ exists c, g = [flag_fallande c] \/ g = [flag_sjunkande c].
Proof.
  unfold rule_trender.
  destruct trends as [[|kv trends]|]; try (intros [= <-]; now left).
  destruct (2 <=? _)%nat; [|intros [= <-]; now left].
  destruct (list_index _ (-1)) as [k1|]; [|discriminate]. cbn [bind].
  destruct (dict_item k1 _) as [fy|]; [|discriminate]. cbn [bind].
  destruct (list_index _ 0) as [k0|]; [|discriminate]. cbn [bind].
  destruct (dict_item k0 _) as [ly|]; [|discriminate]. cbn [bind].
  apply fallande_omsattning_shape.
Qed.

(** The rules without arithmetic, by cases on what they test. *)
Ltac by_rule :=
  repeat match goal with
         | |- context [match ?x with _ => _ end] => destruct x
         end.

Section Levels.

Variable n : Nyckeltal.

Lemma critical_rules :
  Forall (fun f => level f = CRITICAL /\ well_formed f)
    (rule_negativt_eget_kapital n ++ rule_negativ_soliditet n).
Proof.
  unfold rule_negativt_eget_kapital, rule_negativ_soliditet, well_formed.
  by_rule; repeat constructor; cbn; try discriminate; intros [=].
Qed.

Lemma high_rules :
  Forall (fun f => level f = HIGH /\ well_formed f)
    (rule_lag_soliditet n ++ rule_forlust n ++ rule_negativ_vinstmarginal n).
Proof.
  unfold rule_lag_soliditet, rule_forlust, rule_negativ_vinstmarginal,
    well_formed.
  by_rule; repeat constructor; cbn; try discriminate; intros [=].
Qed.

Lemma medium_rules :
  Forall (fun f => level f = MEDIUM /\ well_formed f)
    (rule_lag_vinstmarginal n ++ rule_mattlig_soliditet n).
Proof.
  unfold rule_lag_vinstmarginal, rule_mattlig_soliditet, well_formed.
  by_rule; repeat constructor; cbn; try discriminate; intros [=].
Qed.

Lemma info_rules :
  Forall (fun f => level f = INFO /\ well_formed f) (rule_inga_anstallda n).
Proof.
  unfold rule_inga_anstallda, well_formed.
  by_rule; repeat constructor; cbn; try discriminate; reflexivity.
Qed.

End Levels.

Lemma kontrollbalansrakning_level (n : Nyckeltal)
    (balans : dict (dict (option Z))) (k : list RiskFlag) :
  rule_kontrollbalansrakning n balans = Ok k ->
  Forall (fun f => level f = CRITICAL /\ well_formed f) k.
Proof.
  intros H. destruct (kontrollbalansrakning_shape _ _ _ H) as [->|[ek [ak ->]]];
    unfold well_formed; repeat constructor; cbn; try discriminate; intros [=].
Qed.

Lemma hog_skuldsattning_level (n : Nyckeltal) (s : list RiskFlag) :
  rule_hog_skuldsattning n = Ok s ->
  Forall (fun f => level f = HIGH /\ well_formed f) s.
Proof.
  intros H. destruct (hog_skuldsattning_shape _ _ H) as [->|[r ->]];
    unfold well_formed; repeat constructor; cbn; try discriminate; intros [=].
Qed.

Lemma trender_level (trends : option (dict Nyckeltal)) (g : list RiskFlag) :
  rule_trender trends = Ok g ->
  Forall (fun f => (level f = HIGH \/ level f = MEDIUM) /\ well_formed f) g.
Proof.
  intros H. destruct (trender_shape _ _ H) as [->|[c [->| ->]]];
    [constructor | | ]; (constructor; [|constructor]);
    (split; [cbn; auto|]); unfold well_formed; cbn;
    repeat split; try discriminate; intros [=].
Qed.

Lemma Forall_weaken {A : Type} (P Q : A -> Prop) (l : list A) :
  (forall x, P x -> Q x) -> Forall P l -> Forall Q l.
Proof. intros W H. induction H; constructor; auto. Qed.

(** X3.  Every finding that [analyze_risks] returns is well formed: its
    level is never LOW (the level is declared and rendered by the tools,
    but no rule emits it), it carries a recommendation, and it carries a
    formatted value unless it is the informational finding on the
    staff. *)
Theorem analyze_risks_well_formed (a : Arsredovisning)
    (trends : option (dict Nyckeltal)) (flags : list RiskFlag) :
  analyze_risks a trends = Ok flags ->
  Forall well_formed flags.
Proof.
  intros H.
  destruct (analyze_risks_Ok a trends flags H) as [k [s [g [K [S [G ->]]]]]].
  set (n := nyckeltal a).
  pose proof (critical_rules n) as C. pose proof (high_rules n) as Hi.
  pose proof (medium_rules n) as M. pose proof (info_rules n) as I.
  apply Forall_app in C as [C1 C3]. apply Forall_app in Hi as [H4 Hi].
  apply Forall_app in Hi as [H5 H6]. apply Forall_app in M as [M8 M9].
  pose proof (kontrollbalansrakning_level _ _ _ K) as CK.
  pose proof (hog_skuldsattning_level _ _ S) as HS.
  pose proof (trender_level _ _ G) as TG.
  repeat (apply Forall_app; split);
    (eapply Forall_weaken; [|eassumption]); cbn; intros f [_ W]; exact W.
Qed.

Lemma analyze_risks_well_formed_witness :
  let a := arsredovisning_av
             (nyckeltal_av None (Some (-5)) (Some (-10)) (Some 100)) (Some 50) in
  analyze_risks a None = Ok (flags_av a) /\
  Forall well_formed (flags_av a).
Proof.
  intros a.
  assert (analyze_risks a None = Ok (flags_av a)) as R by (vm_compute; reflexivity).
  split; [exact R|].
  apply (analyze_risks_well_formed a None (flags_av a) R).
Defined.

(** ** The order of the findings *)

(** Findings of one level put before a sorted list of findings that are
    no more severe. *)
Lemma severity_app (l : RiskLevel) (fs gs : list RiskFlag) :
  Forall (fun f => level f = l /\ well_formed f) fs ->
  StronglySorted at_least_as_severe gs /\
  Forall (fun g => (rank l <= rank (level g))%nat) gs ->
  StronglySorted at_least_as_severe (fs ++ gs) /\
  Forall (fun g => (rank l <= rank (level g))%nat) (fs ++ gs).
Proof.
  intros F [S B]. induction F as [|f fs [L _] F [IS IB]]; cbn; [now split|].
  split.
  - constructor; [exact IS|].
    eapply Forall_weaken; [|exact IB]. cbn. intros g H.
    unfold at_least_as_severe. now rewrite L.
  - constructor; [now rewrite L | exact IB].
Qed.

Lemma severity_weaken (l l' : RiskLevel) (gs : list RiskFlag) :
  (rank l' <= rank l)%nat ->
  StronglySorted at_least_as_severe gs /\
  Forall (fun g => (rank l <= rank (level g))%nat) gs ->
  StronglySorted at_least_as_severe gs /\
  Forall (fun g => (rank l' <= rank (level g))%nat) gs.
Proof.
  intros L [S B]. split; [exact S|].
  eapply Forall_weaken; [|exact B]. cbn. intros g H.
  exact (Nat.le_trans _ _ _ L H).
Qed.

(** X4.  Without a multi-year overview (the way the comparison and the
    snapshot tools call it) [analyze_risks] lists its findings by
    decreasing severity: the critical ones, then the high ones, then the
    medium ones, then the informational one. *)
Theorem analyze_risks_by_severity (a : Arsredovisning) (flags : list RiskFlag) :
  analyze_risks a None = Ok flags ->
  StronglySorted at_least_as_severe flags.
Proof.
  intros H.
  destruct (analyze_risks_Ok a None flags H) as [k [s [g [K [S [G ->]]]]]].
  cbn in G. injection G as <-.
  set (n := nyckeltal a).
  pose proof (critical_rules n) as C. pose proof (high_rules n) as Hi.
  pose proof (medium_rules n) as M. pose proof (info_rules n) as I.
  apply Forall_app in C as [C1 C3]. apply Forall_app in Hi as [H4 Hi].
  apply Forall_app in Hi as [H5 H6]. apply Forall_app in M as [M8 M9].
  pose proof (kontrollbalansrakning_level _ _ _ K) as CK.
  pose proof (hog_skuldsattning_level _ _ S) as HS.
  apply (severity_app CRITICAL _ _ C1).
  apply (severity_app CRITICAL _ _ CK).
  apply (severity_app CRITICAL _ _ C3).
  apply (severity_weaken HIGH CRITICAL); [cbn; lia|].
  apply (severity_app HIGH _ _ H4).
  apply (severity_app HIGH _ _ H5).
  apply (severity_app HIGH _ _ H6).
  apply (severity_app HIGH _ _ HS).
  apply (severity_weaken MEDIUM HIGH); [cbn; lia|].
  apply (severity_app MEDIUM _ _ M8).
  apply (severity_app MEDIUM _ _ M9).
  apply (severity_weaken INFO MEDIUM); [cbn; lia|].
  apply (severity_app INFO _ _ I).
  split; constructor.
Qed.

Lemma analyze_risks_by_severity_witness :
  let a := arsredovisning_av
             (nyckeltal_av None (Some (-5)) (Some 10) (Some 100)) (Some 50) in
  analyze_risks a None = Ok (flags_av a) /\
  map level (flags_av a) = [CRITICAL; HIGH; HIGH; INFO] /\
  StronglySorted at_least_as_severe (flags_av a).
Proof.
  intros a.
  assert (analyze_risks a None = Ok (flags_av a)) as R by (vm_compute; reflexivity).
  split; [exact R|]. split; [vm_compute; reflexivity|].
  apply (analyze_risks_by_severity a (flags_av a) R).
Defined.

(** ** The overview only adds a growth finding *)

Lemma insert_sorted_length (s : string) (l : list string) :
  List.length (insert_sorted s l) = S (List.length l).
Proof.
  induction l as [|t l IH]; cbn; [reflexivity|].
  destruct (String.leb s t); cbn; [reflexivity | now rewrite IH].
Qed.

Lemma sorted_length (l : list string) :
  List.length (sorted l) = List.length l.
Proof.
  unfold sorted. induction l as [|s l IH]; cbn; [reflexivity|].
  now rewrite insert_sorted_length, IH.
Qed.

Lemma trender_few (trends : dict Nyckeltal) :
  (List.length trends < 2)%nat -> rule_trender (Some trends) = Ok [].
Proof.
  intros L. unfold rule_trender. destruct trends as [|kv d]; [reflexivity|].
  unfold dict_keys. rewrite sorted_length, length_map.
  assert ((2 <=? List.length (kv :: d))%nat = false) as ->
    by (apply Nat.leb_gt; exact L).
  reflexivity.
Qed.

(** X5.  A multi-year overview never changes the findings on the report
    itself: the findings with an overview are the findings without one,
    followed by at most one finding, of the category growth; an overview
    of fewer than two periods adds nothing. *)
Theorem analyze_risks_with_overview (a : Arsredovisning)
    (trends : dict Nyckeltal) (flags : list RiskFlag) :
  analyze_risks a (Some trends) = Ok flags ->
  exists base growth,
    analyze_risks a None = Ok base /\
    flags = (base ++ growth)%list /\
    (List.length growth <= 1)%nat /\
    filter is_growth growth = growth /\
    filter is_growth base = [] /\
    ((List.length trends < 2)%nat -> growth = []).
Proof.
  intros H.
  destruct (analyze_risks_Ok a (Some trends) flags H)
    as [k [s [g [K [S [G E]]]]]].
  destruct (analyze_risks_returns a None k s [] K S eq_refl) as [base B].
  destruct (analyze_risks_Ok a None base B) as [k' [s' [g' [K' [S' [G' E']]]]]].
  rewrite K in K'. injection K' as <-. rewrite S in S'. injection S' as <-.
  cbn in G'. injection G' as <-.
  exists base, g. split; [exact B|]. split; [|split; [|split; [|split]]].
  - rewrite E, E'. rewrite !app_nil_r. now rewrite <- !app_assoc.
  - destruct (trender_shape _ _ G) as [->|[c [->| ->]]]; cbn; lia.
  - destruct (trender_shape _ _ G) as [->|[c [->| ->]]]; reflexivity.
  - destruct (analyze_risks_selected a None base B)
      as [k' [s' [g' [_ [_ [G' [_ [_ ->]]]]]]]].
    cbn in G'. now injection G' as <-.
  - intros L. rewrite (trender_few trends L) in G. now injection G as <-.
Qed.

Lemma analyze_risks_with_overview_witness :
  let a := arsredovisning_av
             (nyckeltal_av (Some 700000) None (Some 10) None) None in
  let trends := [(period 0, nyckeltal_av (Some 700000) None None None);
                 (period 1, nyckeltal_av (Some 1000000) None None None)] in
  analyze_risks a (Some trends)
  = Ok (flags_av a ++ [flag_fallande fm30]) /\
  exists base growth,
    analyze_risks a None = Ok base /\
    (flags_av a ++ [flag_fallande fm30])%list = (base ++ growth)%list.
Proof.
  intros a trends.
  assert (analyze_risks a (Some trends)
          = Ok (flags_av a ++ [flag_fallande fm30])) as R
    by (vm_compute; reflexivity).
  split; [exact R|].
  destruct (analyze_risks_with_overview a trends _ R)
    as [base [growth [B [E _]]]].
  exists base, growth. split; [exact B | exact E].
Defined.

(** ** The findings on the equity ratio *)

Section Styrka.

Variable n : Nyckeltal.

Lemma other_rules_styrka :
  filter is_styrka (rule_negativt_eget_kapital n) = [] /\
  filter is_styrka (rule_forlust n) = [] /\
  filter is_styrka (rule_negativ_vinstmarginal n) = [] /\
  filter is_styrka (rule_lag_vinstmarginal n) = [] /\
  filter is_styrka (rule_inga_anstallda n) = [].
Proof.
  unfold rule_negativt_eget_kapital, rule_forlust, rule_negativ_vinstmarginal,
    rule_lag_vinstmarginal, rule_inga_anstallda.
  repeat split; by_rule; reflexivity.
Qed.

End Styrka.

(** X6.  The equity ratio of a report (an integer, as the extractor
    delivers it) falls into one band, and [analyze_risks] returns the
    finding of that band and no other finding of the category financial
    strength: the critical one below 0, the high one strictly between 0
    and 20, the medium one from 20 to below 30, and none at exactly 0 and
    from 30 on. *)
Theorem analyze_risks_soliditet_band (a : Arsredovisning)
    (trends : option (dict Nyckeltal)) (flags : list RiskFlag) (s : Z) :
  soliditet (nyckeltal a) = Some (Int s) ->
  analyze_risks a trends = Ok flags ->
  filter is_styrka flags =
    if s <? 0 then [flag_negativ_soliditet (Int s)]
    else if (0 <? s) && (s <? 20) then [flag_lag_soliditet (Int s)]
    else if (20 <=? s) && (s <? 30) then [flag_mattlig_soliditet (Int s)]
    else [].
Proof.
  intros Sol H.
  destruct (analyze_risks_Ok a trends flags H) as [k [s' [g [K [S [G ->]]]]]].
  destruct (other_rules_styrka (nyckeltal a)) as [O1 [O2 [O3 [O4 O5]]]].
  assert (filter is_styrka k = []) as FK
    by (destruct (kontrollbalansrakning_shape _ _ _ K) as [->|[ek [ak ->]]];
        reflexivity).
  assert (filter is_styrka s' = []) as FS
    by (destruct (hog_skuldsattning_shape _ _ S) as [->|[r ->]]; reflexivity).
  assert (filter is_styrka g = []) as FG
    by (destruct (trender_shape _ _ G) as [->|[c [->| ->]]]; reflexivity).
  rewrite !filter_app, O1, O2, O3, O4, O5, FK, FS, FG. cbn [app].
  rewrite !app_nil_r.
  unfold rule_negativ_soliditet, rule_lag_soliditet, rule_mattlig_soliditet.
  rewrite Sol. cbn [num_truthy num_lt num_gt num_ge].
  unfold flag_negativ_soliditet, flag_lag_soliditet, flag_mattlig_soliditet.
  destruct (Z.eqb_spec s 0) as [->|NZ]; [reflexivity|]. cbn [negb andb].
  destruct (Z.ltb_spec s 0); destruct (Z.ltb_spec 0 s);
    destruct (Z.ltb_spec s 20); destruct (Z.leb_spec 20 s);
    destruct (Z.ltb_spec s 30); cbn; try reflexivity; lia.
Qed.

Lemma analyze_risks_soliditet_band_witness :
  let a := mkArsredovisning "" "" "" ""
             (nyckeltal_med None None None None (Some (Int 20)) (Some 3) None)
             [] [] [] [] [] in
  soliditet (nyckeltal a) = Some (Int 20) /\
  analyze_risks a None = Ok (flags_av a) /\
  filter is_styrka (flags_av a) = [flag_mattlig_soliditet (Int 20)].
Proof.
  intros a.
  assert (soliditet (nyckeltal a) = Some (Int 20)) as Sol by reflexivity.
  assert (analyze_risks a None = Ok (flags_av a)) as R by (vm_compute; reflexivity).
  split; [exact Sol|]. split; [exact R|].
  apply (analyze_risks_soliditet_band a None (flags_av a) 20 Sol R).
Defined.

(** ** Negative equity *)

(** X7.  On a report with a negative equity, the first finding of
    [analyze_risks] is the critical one on the negative equity; the
    leverage rule stays silent whatever the debts are, since it divides
    by a positive equity only; and a positive share capital (below
    [2^53]) brings the finding on the eroded equity as well. *)
Theorem analyze_risks_negative_equity (a : Arsredovisning)
    (trends : option (dict Nyckeltal)) (flags : list RiskFlag) (ek : Z) :
  eget_kapital (nyckeltal a) = Some ek -> ek < 0 ->
  analyze_risks a trends = Ok flags ->
  hd_error flags = Some (flag_negativt_eget_kapital ek) /\
  filter is_leverage flags = [] /\
  (forall ak, aktiekapital_av (balansrakning a) = Some ak ->
     0 < ak < 2 ^ 53 -> In (flag_kontrollbalansrakning ek ak) flags).
Proof.
  intros EK Neg H.
  destruct (analyze_risks_selected a trends flags H)
    as [k [s [g [K [S [G [_ [FL _]]]]]]]].
  destruct (analyze_risks_Ok a trends flags H) as [k' [s' [g' [K' [S' [_ E]]]]]].
  rewrite K in K'. injection K' as <-. rewrite S in S'. injection S' as <-.
  assert (rule_negativt_eget_kapital (nyckeltal a)
          = [flag_negativt_eget_kapital ek]) as R1.
  { unfold rule_negativt_eget_kapital. rewrite EK. cbn [truthy].
    assert ((ek =? 0) = false) as -> by (apply Z.eqb_neq; lia).
    assert ((ek <? 0) = true) as -> by (apply Z.ltb_lt; lia). reflexivity. }
  split; [|split].
  - rewrite E, R1. reflexivity.
  - rewrite FL. revert S. unfold rule_hog_skuldsattning. rewrite EK.
    destruct (truthy (Some ek) && truthy _); [|now intros [= <-]].
    destruct (as_int _) as [bal|]; [|discriminate]. cbn [bind as_int].
    assert ((0 <? ek) = false) as -> by (apply Z.ltb_ge; lia).
    now intros [= <-].
  - intros ak AK B.
    destruct (kontrollbalansrakning_spec _ _ ek ak k AK ltac:(lia) EK ltac:(lia) K)
      as [limit [L ->]].
    rewrite (half_of_small_int ak ek limit ltac:(lia) ltac:(lia) L) in E.
    assert ((2 * ek <? ak) = true) as T by (apply Z.ltb_lt; lia).
    rewrite T in E. rewrite E, R1. right. now left.
Qed.

Lemma analyze_risks_negative_equity_witness :
  let a := arsredovisning_av
             (nyckeltal_av None None (Some (-10)) (Some 1000)) (Some 50) in
  eget_kapital (nyckeltal a) = Some (-10) /\ -10 < 0 /\
  analyze_risks a None = Ok (flags_av a) /\
  hd_error (flags_av a) = Some (flag_negativt_eget_kapital (-10)).
Proof.
  intros a.
  assert (eget_kapital (nyckeltal a) = Some (-10)) as EK by reflexivity.
  assert (-10 < 0) as Neg by lia.
  assert (analyze_risks a None = Ok (flags_av a)) as R by (vm_compute; reflexivity).
  split; [exact EK|]. split; [exact Neg|]. split; [exact R|].
  exact (proj1 (analyze_risks_negative_equity a None (flags_av a) (-10) EK Neg R)).
Defined.

(** ** A sound company *)

Lemma float_ge_int_not_lt_below (x : float) (z1 z2 : Z) :
  z1 <= z2 -> float_ge_int x z2 = true -> float_lt_int x z1 = false.
Proof.
  intros L G. apply float_ge_not_lt. exact (float_ge_int_mono x z1 z2 L G).
Qed.

(** X8.  No false alarm: on a report with a positive equity that covers
    at least half of the share capital, debts of at most three times the
    equity, an equity ratio of at least 30, no loss, a profit margin (if
    there is one) of at least 3 and a staff, [analyze_risks] returns no
    finding at all.  The amounts are below [2^53]. *)
Theorem analyze_risks_sound (a : Arsredovisning) (ek s k : Z) :
  eget_kapital (nyckeltal a) = Some ek -> 0 < ek < 2 ^ 53 ->
  (forall ak, aktiekapital_av (balansrakning a) = Some ak ->
     Z.abs ak < 2 ^ 53 /\ ak <= 2 * ek) ->
  (forall bal, balansomslutning (nyckeltal a) = Some bal ->
     0 <= bal <= 4 * ek /\ bal < 2 ^ 53) ->
  soliditet (nyckeltal a) = Some (Int s) -> 30 <= s ->
  (forall res, arets_resultat (nyckeltal a) = Some res -> 0 <= res) ->
  (forall vm, vinstmarginal (nyckeltal a) = Some vm ->
     float_ge_int vm 3 = true) ->
  antal_anstallda (nyckeltal a) = Some k -> k <> 0 ->
  analyze_risks a None = Ok [].
Proof.
  intros EK Pos AK BAL Sol S30 RES VM ANS K0.
  assert (rule_kontrollbalansrakning (nyckeltal a) (balansrakning a) = Ok [])
    as R2.
  { unfold rule_kontrollbalansrakning. fold (aktiekapital_av (balansrakning a)).
    rewrite EK.
    destruct (aktiekapital_av (balansrakning a)) as [ak|] eqn:A; [|reflexivity].
    destruct (AK ak eq_refl) as [B L]. cbn [truthy].
    destruct (Z.eqb_spec ak 0) as [->|NZ]; [reflexivity|].
    assert ((ek =? 0) = false) as -> by (apply Z.eqb_neq; lia).
    cbn [negb andb as_int bind].
    destruct (int_mul_float ak half) as [limit|] eqn:Lim.
    - cbn [bind]. rewrite (half_of_small_int ak ek limit NZ B Lim).
      assert ((2 * ek <? ak) = false) as -> by (apply Z.ltb_ge; lia).
      reflexivity.
    - exfalso. unfold int_mul_float, float_of_int in Lim.
      assert ((float_overflow_threshold <=? Z.abs ak) = false) as E
        by (apply Z.leb_gt; pose proof small_below_threshold; lia).
      rewrite E in Lim. discriminate Lim. }
  assert (rule_hog_skuldsattning (nyckeltal a) = Ok []) as R7.
  { unfold rule_hog_skuldsattning. rewrite EK.
    destruct (balansomslutning (nyckeltal a)) as [bal|] eqn:B;
      [|cbn; now rewrite andb_false_r].
    destruct (truthy (Some ek) && truthy (Some bal)); [|reflexivity].
    cbn [as_int bind]. specialize (BAL bal eq_refl).
    assert ((0 <? ek) = true) as -> by (apply Z.ltb_lt; lia).
    destruct (int_truediv (bal - ek) ek) as [r|e] eqn:Q.
    - cbn [bind].
      rewrite (int_truediv_gt_exact (bal - ek) ek 3 r) by (try exact Q; lia).
      assert ((3 * ek <? bal - ek) = false) as -> by (apply Z.ltb_ge; lia).
      reflexivity.
    - exfalso.
      destruct (int_truediv_returns (bal - ek) ek) as [r R]; [lia| |congruence].
      pose proof small_below_threshold. lia. }
  unfold analyze_risks. rewrite R2, R7. cbn [bind rule_trender].
  unfold rule_negativt_eget_kapital, rule_negativ_soliditet,
    rule_lag_soliditet, rule_forlust, rule_negativ_vinstmarginal,
    rule_lag_vinstmarginal, rule_mattlig_soliditet, rule_inga_anstallda.
  rewrite EK, Sol, ANS. cbn [truthy num_truthy num_lt num_gt num_ge].
  assert ((ek <? 0) = false) as -> by (apply Z.ltb_ge; lia).
  assert ((s <? 0) = false) as -> by (apply Z.ltb_ge; lia).
  assert ((s <? 20) = false) as -> by (apply Z.ltb_ge; lia).
  assert ((s <? 30) = false) as -> by (apply Z.ltb_ge; lia).
  assert ((k =? 0) = false) as -> by (apply Z.eqb_neq; lia).
  rewrite !andb_false_r. cbn [negb app].
  destruct (arets_resultat (nyckeltal a)) as [res|] eqn:R.
  - specialize (RES res eq_refl).
    assert ((res <? 0) = false) as -> by (apply Z.ltb_ge; lia).
    rewrite andb_false_r. cbn [app].
    destruct (vinstmarginal (nyckeltal a)) as [vm|] eqn:V; [|reflexivity].
    specialize (VM vm eq_refl).
    rewrite (float_ge_int_not_lt_below vm (-10) 3 ltac:(lia) VM).
    rewrite (float_ge_not_lt vm 3 VM). rewrite !andb_false_r. reflexivity.
  - cbn [app].
    destruct (vinstmarginal (nyckeltal a)) as [vm|] eqn:V; [|reflexivity].
    specialize (VM vm eq_refl).
    rewrite (float_ge_int_not_lt_below vm (-10) 3 ltac:(lia) VM).
    rewrite (float_ge_not_lt vm 3 VM). rewrite !andb_false_r. reflexivity.
Qed.

Lemma analyze_risks_sound_witness :
  let a := mkArsredovisning "" "" "" ""
             (mkNyckeltal (Some 1000000) None (Some 50000) (Some 400000)
                (Some 1000000) (Some (Int 40)) (Some 3) (Some f5) None)
             [] [("eget_kapital_skulder", [("aktiekapital", Some 50000)])]
             [] [] [] in
  analyze_risks a None = Ok [].
Proof.
  intros a.
  apply (analyze_risks_sound a 400000 40 3); try reflexivity; try lia.
  - intros ak [= <-]. lia.
  - intros bal [= <-]. lia.
  - intros res [= <-]. lia.
  - intros vm [= <-]. reflexivity.
Defined.

(** ** The exceptions of the classifier *)

Lemma int_truediv_outcome (a b : Z) :
  b <> 0 ->
  (exists q, int_truediv a b = Ok q) \/ int_truediv a b = Raise OverflowError.
Proof.
  intros NZ. unfold int_truediv.
  destruct (Z.eqb_spec b 0); [contradiction|].
  destruct (a =? 0); [left; eexists; reflexivity|].
  destruct (_ <=? _); [now right | left; eexists; reflexivity].
Qed.







(* ================================================================== *)
(** * Further properties of report retrieval *)
(* ================================================================== *)

Lemma first_xhtml_Some (members : list (string * result string)) (x : string) :
  first_xhtml members = Ok (Some x) ->
  exists pre name post,
    members = (pre ++ (name, Ok x) :: post)%list /\
    is_xhtml_name name = true /\ no_xhtml pre = true.
Proof.
  induction members as [|[name content] rest IH]; cbn [first_xhtml];
    [discriminate|].
  fold (is_xhtml_name name). destruct (is_xhtml_name name) eqn:N.
  - destruct content as [c|e]; cbn [bind]; [|discriminate].
    intros [= ->]. exists [], name, rest. now repeat split.
  - intros H. destruct (IH H) as [pre [name' [post [-> [N' P]]]]].
    exists ((name, content) :: pre), name', post.
    split; [reflexivity|]. split; [exact N'|].
    unfold no_xhtml in *. cbn [forallb fst]. rewrite N. exact P.
Qed.

Lemma list_index_bounds {A : Type} (l : list A) (i : Z) (a : A) :
  list_index l i = Ok a ->
  - Z.of_nat (List.length l) <= i < Z.of_nat (List.length l).
Proof.
  unfold list_index.
  destruct (Z.ltb_spec i 0);
    destruct (Z.ltb_spec (Z.of_nat (List.length l) + i) 0);
    destruct (Z.leb_spec (Z.of_nat (List.length l))
                (Z.of_nat (List.length l) + i));
    destruct (Z.ltb_spec i 0);
    destruct (Z.leb_spec (Z.of_nat (List.length l)) i);
    cbn [orb]; try discriminate; intros _; lia.
Qed.

(** X10.  What a successful retrieval returns belongs together: the
    XHTML text is not empty and is the content of the first member of the
    archive whose name ends in [.xhtml], [.html] or [.xml] (in any case
    of the letters), the archive is the download of the filing at the
    index asked for (an index from [-len] to [len - 1] of the filing
    list), and the report is the parse of that XHTML text. *)
Theorem fetch_and_parse_arsredovisning_Ok (world : World) (org : string)
    (index : Z) (a : Arsredovisning) (x z : string) :
  fetch_and_parse_arsredovisning world org index = Ok (a, x, z) ->
  x <> ""%string /\
  parse_full (libm_pow10 world) (parse_xhtml world x) = Ok a /\
  exists docs dok members pre name post,
    dokumentlista world (clean_org_nummer org) = Ok docs /\
    - Z.of_nat (List.length docs) <= index < Z.of_nat (List.length docs) /\
    list_index docs index = Ok dok /\
    download_document_bytes world (dokumentId dok) = Ok z /\
    zip_members world z = Ok members /\
    members = (pre ++ (name, Ok x) :: post)%list /\
    is_xhtml_name name = true /\ no_xhtml pre = true.
Proof.
  unfold fetch_and_parse_arsredovisning.
  destruct (dokumentlista world (clean_org_nummer org)) as [docs|] eqn:D;
    cbn [bind]; [|discriminate].
  destruct docs as [|d docs']; [discriminate|].
  set (docs := d :: docs') in *.
  destruct (Z.of_nat (List.length docs) <=? index); [discriminate|].
  destruct (list_index docs index) as [dok|] eqn:I; cbn [bind]; [|discriminate].
  destruct (download_document_bytes world (dokumentId dok)) as [zip|] eqn:Z0;
    cbn [bind]; [|discriminate].
  destruct (zip_members world zip) as [members|] eqn:M; cbn [bind];
    [|discriminate].
  destruct (first_xhtml members) as [[xc|]|] eqn:F; cbn [bind];
    try discriminate.
  destruct xc as [|c xc]; cbn [str_truthy negb]; [discriminate|].
  destruct (parse_full _ _) as [ar|] eqn:P; cbn [bind]; [|discriminate].
  intros [= <- <- <-]. split; [discriminate|]. split; [exact P|].
  destruct (first_xhtml_Some members _ F) as [pre [name [post [E [N NP]]]]].
  exists docs, dok, members, pre, name, post.
  repeat split; try assumption; apply (list_index_bounds docs index dok I).
Qed.

Lemma fetch_and_parse_arsredovisning_Ok_witness :
  let world := world_arkiv [("META-INF/manifest.txt", Ok "x");
                            ("Arsredovisning.XHTML", Ok "<html/>")]
                 (fun _ => []) in
  let a := arsredovisning_i [] in
  fetch_and_parse_arsredovisning world "556767-1267" 0
  = Ok (a, "<html/>"%string, "zip"%string) /\
  parse_full (libm_pow10 world) (parse_xhtml world "<html/>") = Ok a.
Proof.
  intros world a.
  assert (fetch_and_parse_arsredovisning world "556767-1267" 0
          = Ok (a, "<html/>"%string, "zip"%string)) as R
    by (vm_compute; reflexivity).
  split; [exact R|].
  exact (proj1 (proj2 (fetch_and_parse_arsredovisning_Ok world _ _ _ _ _ R))).
Defined.

(** ** The index of a filing *)

Lemma list_index_negative {A : Type} (l : list A) (k : Z) :
  1 <= k <= Z.of_nat (List.length l) ->
  list_index l (- k) = list_index l (Z.of_nat (List.length l) - k).
Proof.
  intros K. unfold list_index.
  assert ((- k <? 0) = true) as -> by (apply Z.ltb_lt; lia).
  assert ((Z.of_nat (List.length l) - k <? 0) = false) as ->
    by (apply Z.ltb_ge; lia).
  replace (Z.of_nat (List.length l) + - k)
    with (Z.of_nat (List.length l) - k) by lia.
  reflexivity.
Qed.

(** X11.  The index of a filing is a Python index: when the
    organisation has [len] filings, a negative index [-k] with
    [1 <= k <= len] retrieves what the index [len - k] retrieves (the
    guard of the retrieval refuses only [index >= len]), and a negative
    index below [-len] makes the retrieval raise [IndexError]. *)
Theorem fetch_negative_index (world : World) (org : string)
    (docs : list Dokument) (k : Z) :
  dokumentlista world (clean_org_nummer org) = Ok docs ->
  1 <= k ->
  docs <> [] ->
  (k <= Z.of_nat (List.length docs) ->
   fetch_and_parse_arsredovisning world org (- k)
   = fetch_and_parse_arsredovisning world org (Z.of_nat (List.length docs) - k))
  /\
  (Z.of_nat (List.length docs) < k ->
   fetch_and_parse_arsredovisning world org (- k) = Raise IndexError).
Proof.
  intros D K NE. unfold fetch_and_parse_arsredovisning. rewrite D. cbn [bind].
  destruct docs as [|d docs']; [contradiction|].
  set (docs := d :: docs') in *.
  assert ((Z.of_nat (List.length docs) <=? - k) = false) as ->
    by (apply Z.leb_gt; lia).
  split; intros L.
  - assert ((Z.of_nat (List.length docs) <=? Z.of_nat (List.length docs) - k)
            = false) as -> by (apply Z.leb_gt; lia).
    now rewrite list_index_negative by lia.
  - unfold list_index.
    assert ((- k <? 0) = true) as -> by (apply Z.ltb_lt; lia).
    assert ((Z.of_nat (List.length docs) + - k <? 0) = true) as ->
      by (apply Z.ltb_lt; lia).
    reflexivity.
Qed.

Lemma fetch_negative_index_witness :
  let docs := [mkDokument (Some "dok-1"); mkDokument (Some "dok-2")] in
  let world := world_med docs in
  dokumentlista world (clean_org_nummer "5567671267") = Ok docs /\
  1 <= 1 /\ docs <> [] /\
  fetch_and_parse_arsredovisning world "5567671267" (- (1))
  = fetch_and_parse_arsredovisning world "5567671267" (2 - 1).
Proof.
  intros docs world.
  assert (dokumentlista world (clean_org_nummer "5567671267") = Ok docs) as D
    by reflexivity.
  assert (1 <= 1) as K by lia.
  assert (docs <> []) as NE by discriminate.
  split; [exact D|]. split; [exact K|]. split; [exact NE|].
  exact (proj1 (fetch_negative_index world "5567671267" docs 1 D K NE)
           ltac:(cbn; lia)).
Defined.

(** When the organisation has no filing at all, the retrieval
    raises the exception "Inga årsredovisningar hittades" whatever the
    index is, before anything is downloaded. *)
Lemma fetch_no_filings (world : World) (org : string) (index : Z) :
  dokumentlista world (clean_org_nummer org) = Ok [] ->
  fetch_and_parse_arsredovisning world org index
  = Raise (Exception "Inga årsredovisningar hittades").
Proof.
  intros D. unfold fetch_and_parse_arsredovisning. rewrite D. reflexivity.
Qed.

(** ** The tools on an invalid organisation number *)

(** X12.  An organisation number that [validate_org_nummer] refuses is
    refused by the three tools that take a filing index, whatever the
    world answers: each replies the error [INVALID_INPUT] with the
    message of the validation (one of its two messages) and no details,
    and asks nothing of the network. *)
Theorem tools_invalid_org_nummer (world : World) (org msg : string) :
  validate_org_nummer org = (false, msg) ->
  (msg = msg_siffror \/ msg = msg_langd) /\
  (forall index format,
     bolagsverket_get_nyckeltal world (mkFinansiellDataInput org index format)
     = handle_error INVALID_INPUT (Text msg) []) /\
  (forall index format filename,
     bolagsverket_export world (mkExportInput org index format filename)
     = handle_error INVALID_INPUT (Text msg) []) /\
  (forall index format destination,
     bolagsverket_download_original world
       (mkDownloadInput org index format destination)
     = handle_error INVALID_INPUT (Text msg) []).
Proof.
  intros V. split; [|split; [|split]].
  - revert V. unfold validate_org_nummer.
    destruct (negb (isdigit _)); [intros [= <-]; now left|].
    destruct (negb _); [intros [= <-]; now right | discriminate].
  - intros index format. unfold bolagsverket_get_nyckeltal.
    cbn [fd_org_nummer]. rewrite V. reflexivity.
  - intros index format filename. unfold bolagsverket_export.
    cbn [ex_org_nummer]. rewrite V. reflexivity.
  - intros index format destination. unfold bolagsverket_download_original.
    cbn [dl_org_nummer]. rewrite V. reflexivity.
Qed.

Lemma tools_invalid_org_nummer_witness :
  validate_org_nummer "55676-7126" = (false, msg_langd) /\
  bolagsverket_export (world_med []) (mkExportInput "55676-7126" 0 PDF None)
  = handle_error INVALID_INPUT (Text msg_langd) [].
Proof.
  assert (validate_org_nummer "55676-7126" = (false, msg_langd)) as V
    by reflexivity.
  split; [exact V|].
  exact (proj1 (proj2 (proj2
           (tools_invalid_org_nummer (world_med []) "55676-7126" msg_langd V)))
           0 PDF None).
Defined.

(* ================================================================== *)
(** * Further properties of the iXBRL parser *)
(* ================================================================== *)

Section ParserOutcome.

Variable pow10_neg : Z -> float.
Variable self : IXBRLParser.

(** ** The exceptions of the parser *)

Lemma get_int_outcome (name_pattern context : string) :
  (exists v, get_int pow10_neg self name_pattern context = Ok v) \/
  get_int pow10_neg self name_pattern context = Raise OverflowError.
Proof.
  unfold get_int.
  destruct (get_value_outcome pow10_neg self name_pattern (Some context))
    as [[v ->]| ->]; [left; eexists; reflexivity | now right].
Qed.

Lemma get_str_returns (name_pattern : string) :
  exists s, get_str pow10_neg self name_pattern = Ok s.
Proof.
  unfold get_str, _get_value.
  destruct (find _ _ self); eexists; reflexivity.
Qed.

Lemma get_metadata_returns :
  exists namn nr start slut datum sate,
    get_metadata pow10_neg self
    = Ok [("foretag_namn", namn); ("org_nummer", nr);
          ("rakenskapsar_start", start); ("rakenskapsar_slut", slut);
          ("undertecknat_datum", datum); ("sate", sate)].
Proof.
  unfold get_metadata.
  destruct (get_str_returns "ForetagetsNamn") as [s1 ->].
  destruct (get_str_returns "Organisationsnummer") as [s2 ->].
  destruct (get_str_returns "RakenskapsarForstaDag") as [s3 ->].
  destruct (get_str_returns "RakenskapsarSistaDag") as [s4 ->].
  destruct (get_str_returns "UndertecknandeDatum") as [s5 ->].
  destruct (get_str_returns "ForetagetsSate") as [s6 ->].
  cbn [bind]. exists s1, s2, s3, s4, s5, s6. reflexivity.
Qed.

Lemma procent_outcome (x y : option Z) :
  truthy x = true -> truthy y = true ->
  (exists v, procent x y = Ok v) \/ procent x y = Raise OverflowError.
Proof.
  intros X Y. destruct x as [a|]; [|discriminate].
  destruct y as [b|]; [|discriminate]. cbn in Y.
  apply negb_true_iff, Z.eqb_neq in Y.
  unfold procent. cbn [as_int bind].
  destruct (int_truediv_outcome a b Y) as [[q ->]| ->]; [|now right].
  cbn [bind]. destruct (fmul_int_100_returns q) as [p ->]. cbn [bind].
  left. eexists. reflexivity.
Qed.

Lemma berakna_nyckeltal_outcome (n : Nyckeltal) :
  fst (berakna_nyckeltal n) = Ok tt \/
  fst (berakna_nyckeltal n) = Raise OverflowError.
Proof.
  unfold berakna_nyckeltal, seq, assign, pass.
  destruct (truthy (nettoomsattning n) && truthy (arets_resultat n)) eqn:G1.
  - apply andb_true_iff in G1 as [G1 G1'].
    destruct (procent_outcome _ _ G1' G1) as [[v ->]| ->]; [|now right].
    cbn [set_vinstmarginal eget_kapital arets_resultat].
    destruct (truthy (eget_kapital n) && truthy (arets_resultat n)
              && positive_int (eget_kapital n)) eqn:G2; [|now left].
    apply andb_true_iff in G2 as [G2 _]. apply andb_true_iff in G2 as [G2 G2'].
    destruct (procent_outcome _ _ G2' G2) as [[w ->]| ->];
      [now left | now right].
  - destruct (truthy (eget_kapital n) && truthy (arets_resultat n)
              && positive_int (eget_kapital n)) eqn:G2; [|now left].
    apply andb_true_iff in G2 as [G2 _]. apply andb_true_iff in G2 as [G2 G2'].
    destruct (procent_outcome _ _ G2' G2) as [[w ->]| ->];
      [now left | now right].
Qed.

Ltac step_int :=
  match goal with
  | |- context [get_int pow10_neg self ?p ?c] =>
      let v := fresh "v" in
      destruct (get_int_outcome p c) as [[v ->]| ->];
      [cbn [bind] | now right]
  end.

Lemma get_nyckeltal_outcome (period : string) :
  (exists n, get_nyckeltal pow10_neg self period = Ok n) \/
  get_nyckeltal pow10_neg self period = Raise OverflowError.
Proof.
  unfold get_nyckeltal. do 5 step_int.
  destruct (truthy v3); cbn [bind]; [|step_int]; do 2 step_int;
    match goal with
    | |- context [berakna_nyckeltal ?n] =>
        destruct (berakna_nyckeltal_outcome n) as [B|B];
        destruct (berakna_nyckeltal n) as [r n']; cbn [fst] in B; subst r;
        [left; eexists; reflexivity | now right]
    end.
Qed.

Lemma get_fields_outcome (period : string) (fields : list (string * string)) :
  (exists d, get_fields pow10_neg self period fields = Ok d) \/
  get_fields pow10_neg self period fields = Raise OverflowError.
Proof.
  induction fields as [|[key pat] rest IH]; cbn [get_fields];
    [left; eexists; reflexivity|].
  step_int. destruct IH as [[d ->]| ->]; [|now right].
  cbn [bind]. left. eexists. reflexivity.
Qed.

End ParserOutcome.

(** X13.  Parsing a document returns a report or raises
    [OverflowError] (a numeric fact too large for a float, or for the
    ratio calculator); it raises no other exception, whatever the
    document is: no [ValueError] on a text that is not a number, no
    [ZeroDivisionError] on a revenue or an equity of zero, no
    [TypeError] on an absent amount and no [KeyError] on the metadata. *)
Theorem parse_full_outcome (pow10_neg : Z -> float) (self : IXBRLParser) :
  (exists a, parse_full pow10_neg self = Ok a) \/
  parse_full pow10_neg self = Raise OverflowError.
Proof.
  unfold parse_full.
  destruct (get_metadata_returns pow10_neg self)
    as [s1 [s2 [s3 [s4 [s5 [s6 ->]]]]]].
  cbn [bind dict_item dict_get String.eqb Ascii.eqb Bool.eqb].
  destruct (get_nyckeltal_outcome pow10_neg self "period0") as [[n ->]| ->];
    [|now right]. cbn [bind].
  unfold get_balansrakning.
  match goal with
  | |- context [get_fields pow10_neg self ?p ?f] =>
      destruct (get_fields_outcome pow10_neg self p f) as [[d1 ->]| ->];
      [|now right]
  end. cbn [bind].
  match goal with
  | |- context [get_fields pow10_neg self ?p ?f] =>
      destruct (get_fields_outcome pow10_neg self p f) as [[d2 ->]| ->];
      [|now right]
  end. cbn [bind].
  unfold get_resultatrakning.
  match goal with
  | |- context [get_fields pow10_neg self ?p ?f] =>
      destruct (get_fields_outcome pow10_neg self p f) as [[d3 ->]| ->];
      [|now right]
  end. cbn [bind].
  left. eexists. reflexivity.
Qed.

(** ** A document without numeric facts *)

Section NoFacts.

Variable pow10_neg : Z -> float.
Variable self : IXBRLParser.
Hypothesis no_facts :
  forall t, In t self -> tag_name t <> "ix:nonfraction"%string.

Lemma find_nonfraction (attrs : dict matcher) :
  find "ix:nonfraction" attrs self = None.
Proof.
  unfold find. destruct (List.find _ self) as [t|] eqn:F; [|reflexivity].
  apply find_some in F as [I M]. unfold tag_matches in M.
  apply andb_true_iff in M as [M _]. apply String.eqb_eq in M.
  now apply no_facts in I.
Qed.

Lemma get_int_no_facts (name_pattern context : string) :
  get_int pow10_neg self name_pattern context = Ok None.
Proof.
  unfold get_int, _get_value. now rewrite find_nonfraction.
Qed.

Lemma get_nyckeltal_no_facts (period : string) :
  get_nyckeltal pow10_neg self period = Ok nyckeltal_tomt.
Proof.
  unfold get_nyckeltal. rewrite !get_int_no_facts. cbn [bind truthy].
  rewrite ?get_int_no_facts. reflexivity.
Qed.

Lemma get_fields_no_facts (period : string) (fields : list (string * string)) :
  get_fields pow10_neg self period fields
  = Ok (map (fun f => (fst f, None)) fields).
Proof.
  induction fields as [|[key pat] rest IH]; cbn [get_fields map fst];
    [reflexivity|].
  rewrite get_int_no_facts, IH. reflexivity.
Qed.

End NoFacts.

(** X14.  A document without any [ix:nonfraction] element still parses:
    every key metric of the report is absent, the multi-year overview is
    empty, and the only finding of [analyze_risks] on the report, with
    that overview, is the informational one that no staff is reported. *)
Theorem parse_full_no_facts (pow10_neg : Z -> float) (self : IXBRLParser) :
  (forall t, In t self -> tag_name t <> "ix:nonfraction"%string) ->
  get_flerarsoversikt pow10_neg self = Ok [] /\
  exists a,
    parse_full pow10_neg self = Ok a /\
    nyckeltal a = nyckeltal_tomt /\
    personer a = get_personer self /\
    analyze_risks a (Some []) = Ok [flag_inga_anstallda].
Proof.
  intros NF. split.
  - unfold get_flerarsoversikt, flerarsoversikt_step. cbn [fold_left bind].
    rewrite !(get_nyckeltal_no_facts pow10_neg self NF). reflexivity.
  - unfold parse_full.
    destruct (get_metadata_returns pow10_neg self)
      as [s1 [s2 [s3 [s4 [s5 [s6 ->]]]]]].
    cbn [bind dict_item dict_get String.eqb Ascii.eqb Bool.eqb].
    rewrite (get_nyckeltal_no_facts pow10_neg self NF). cbn [bind].
    unfold get_balansrakning, get_resultatrakning.
    rewrite !(get_fields_no_facts pow10_neg self NF). cbn [bind].
    eexists. split; [reflexivity|]. split; [reflexivity|].
    split; reflexivity.
Qed.

Lemma parse_full_no_facts_witness :
  (forall t, In t soup_samma_person ->
     tag_name t <> "ix:nonfraction"%string) /\
  get_flerarsoversikt pow10_rounded soup_samma_person = Ok [].
Proof.
  assert (forall t, In t soup_samma_person ->
            tag_name t <> "ix:nonfraction"%string) as NF.
  { intros t I. cbn in I.
    repeat (destruct I as [<-|I]; [discriminate|]). destruct I. }
  split; [exact NF|].
  exact (proj1 (parse_full_no_facts pow10_rounded soup_samma_person NF)).
Defined.

(** ** The entries of the overview *)

Lemma period_0 : period 0 = "period0"%string.
Proof. reflexivity. Qed.
Lemma period_1 : period 1 = "period1"%string.
Proof. reflexivity. Qed.
Lemma period_2 : period 2 = "period2"%string.
Proof. reflexivity. Qed.
Lemma period_3 : period 3 = "period3"%string.
Proof. reflexivity. Qed.

Ltac four_periods i :=
  let H := fresh in
  assert (i = 0 \/ i = 1 \/ i = 2 \/ i = 3) as H by lia;
  destruct H as [H|[H|[H|H]]]; subst i.

(** X15.  The multi-year overview holds, for each of the periods 0 to 3
    and for nothing else, the key metrics of that period exactly when
    their revenue is present; its keys are in ascending order, so that
    sorting them (as the classifier and the trend tool do) changes
    nothing. *)
Theorem get_flerarsoversikt_entries (pow10_neg : Z -> float)
    (self : IXBRLParser) (trends : dict Nyckeltal) :
  get_flerarsoversikt pow10_neg self = Ok trends ->
  (forall i n, 0 <= i <= 3 ->
     (dict_get (period i) trends = Some n <->
      get_nyckeltal pow10_neg self (period i) = Ok n /\
      nettoomsattning n <> None)) /\
  (forall k n, In (k, n) trends -> exists i, 0 <= i <= 3 /\ k = period i) /\
  sorted (dict_keys trends) = dict_keys trends.
Proof.
  intros H.
  destruct (get_flerarsoversikt_Ok pow10_neg self trends H)
    as [n0 [n1 [n2 [n3 [N0 [N1 [N2 [N3 ->]]]]]]]].
  unfold oversikt_av, retained. cbn [filter snd].
  rewrite period_0, period_1, period_2, period_3 in *.
  split; [|split].
  - intros i n R. four_periods i;
      rewrite ?period_0, ?period_1, ?period_2, ?period_3;
      rewrite ?N0, ?N1, ?N2, ?N3;
      destruct (nettoomsattning n0) eqn:R0;
      destruct (nettoomsattning n1) eqn:R1;
      destruct (nettoomsattning n2) eqn:R2;
      destruct (nettoomsattning n3) eqn:R3;
      cbn;
      (split;
       [intros E;
        first [discriminate E
              | injection E as <-; split; [reflexivity | congruence]]
       | intros [E NN]; injection E as <-;
         first [reflexivity | congruence]]).
  - intros k n.
    destruct (nettoomsattning n0); destruct (nettoomsattning n1);
      destruct (nettoomsattning n2); destruct (nettoomsattning n3);
      cbn [In]; intros I;
      repeat (destruct I as [[= <- <-]|I];
              [first [exists 0; split; [lia | reflexivity]
                     | exists 1; split; [lia | reflexivity]
                     | exists 2; split; [lia | reflexivity]
                     | exists 3; split; [lia | reflexivity]]|]);
      destruct I.
  - destruct (nettoomsattning n0); destruct (nettoomsattning n1);
      destruct (nettoomsattning n2); destruct (nettoomsattning n3);
      reflexivity.
Qed.

Lemma get_flerarsoversikt_entries_witness :
  let soup := soup_omsattning [Some "700"; None; Some "1 000"; None] in
  get_flerarsoversikt pow10_rounded soup = Ok (oversikt_i soup) /\
  dict_keys (oversikt_i soup) = ["period0"; "period2"]%string /\
  sorted (dict_keys (oversikt_i soup)) = dict_keys (oversikt_i soup).
Proof.
  intros soup.
  assert (get_flerarsoversikt pow10_rounded soup = Ok (oversikt_i soup)) as R
    by (vm_compute; reflexivity).
  split; [exact R|]. split; [vm_compute; reflexivity|].
  exact (proj2 (proj2 (get_flerarsoversikt_entries pow10_rounded soup _ R))).
Defined.

(** ** The persons of a document *)

Lemma fold_left_inv_In {A B : Type} (P : A -> Prop) (f : A -> B -> A)
    (l : list B) (a : A) :
  (forall x b, In b l -> P x -> P (f x b)) -> P a -> P (fold_left f l a).
Proof.
  revert a. induction l as [|b l IH]; intros a Step H; cbn; [exact H|].
  apply IH.
  - intros x b' I. apply Step. now right.
  - apply Step; [now left | exact H].
Qed.

Lemma personer_step_named (self : IXBRLParser)
    (pat : string * string * option string)
    (st : list Person * list person_key) (tag : Tag) :
  In tag self -> tag_name tag = "ix:nonnumeric"%string ->
  Forall (named_in self) (fst st) ->
  Forall (named_in self) (fst (personer_step self pat st tag)).
Proof.
  destruct pat as [[fp ep] rp], st as [personer seen]. intros I T N.
  unfold personer_step.
  set (er := match tag_get "tupleref" tag with
             | Some ref => if str_truthy ref then _ else _
             | None => _
             end).
  destruct er as [en rl].
  set (r := if negb (str_truthy rl) then _ else rl).
  set (f := strip (tag_text tag)).
  destruct (negb (key_in (f, en, r) seen) && str_truthy f) eqn:G;
    [|exact N].
  apply andb_true_iff in G as [_ G]. cbn [fst] in *.
  apply Forall_app. split; [exact N|]. constructor; [|constructor].
  unfold named_in. cbn [fornamn roll datum].
  split; [intros E; rewrite E in G; discriminate G|].
  split; [|split; [reflexivity | now exists tag]].
  unfold r. destruct rl as [|c rl']; cbn [str_truthy negb]; [|discriminate].
  destruct (contains "Revisor" fp); [discriminate|].
  destruct (contains "Foretradar" fp); discriminate.
Qed.

Lemma personer_pattern_named (self : IXBRLParser)
    (st : list Person * list person_key)
    (pat : string * string * option string) :
  Forall (named_in self) (fst st) ->
  Forall (named_in self) (fst (personer_pattern self st pat)).
Proof.
  intros H. unfold personer_pattern.
  apply (fold_left_inv_In (fun st => Forall (named_in self) (fst st)));
    [|exact H].
  intros x tag I. unfold find_all in I. apply filter_In in I as [I M].
  unfold tag_matches in M. apply andb_true_iff in M as [M _].
  apply String.eqb_eq in M. now apply personer_step_named.
Qed.

Lemma personer_named (self : IXBRLParser) :
  Forall (named_in self) (get_personer self).
Proof.
  unfold get_personer.
  apply (fold_left_inv (fun st => Forall (named_in self) (fst st))
           (personer_pattern self) patterns).
  - intros x b. apply personer_pattern_named.
  - constructor.
Qed.

(** X16.  Every person that [get_personer] lists is named: the first
    name is not empty and is the stripped text of an [ix:nonnumeric]
    element of the document, the role is not empty (a person without a
    role element gets the default role of the signature block), and the
    date is left absent. *)
Theorem get_personer_named (self : IXBRLParser) (p : Person) :
  In p (get_personer self) -> named_in self p.
Proof.
  intros I. exact (proj1 (Forall_forall _ _) (personer_named self) p I).
Qed.

Lemma get_personer_named_witness :
  let p := mkPerson "Eva" "" "Styrelseledamot" None in
  In p (get_personer soup_utan_tupel) /\ named_in soup_utan_tupel p.
Proof.
  intros p.
  assert (In p (get_personer soup_utan_tupel)) as I
    by (vm_compute; now left).
  split; [exact I|].
  exact (get_personer_named soup_utan_tupel p I).
Defined.

Example get_personer_utan_tupel :
  get_personer soup_utan_tupel = [mkPerson "Eva" "" "Styrelseledamot" None].
Proof. vm_compute. reflexivity. Qed.

(** ** The balance context of a period *)

Lemma string_of_uint_lacks_p (d : Decimal.uint) :
  lacks p_char (NilEmpty.string_of_uint d).
Proof.
  induction d as [|d IH|d IH|d IH|d IH|d IH|d IH|d IH|d IH|d IH|d IH];
    cbn [NilEmpty.string_of_uint lacks]; try exact I;
    (split; [discriminate | exact IH]).
Qed.

Lemma nilzero_string_of_uint_lacks_p (d : Decimal.uint) :
  lacks p_char (NilZero.string_of_uint d).
Proof.
  unfold NilZero.string_of_uint.
  destruct d; try apply string_of_uint_lacks_p.
  cbn. split; [discriminate | exact I].
Qed.

Lemma str_of_int_lacks_p (i : Z) : lacks p_char (str_of_int i).
Proof.
  unfold str_of_int, NilZero.string_of_int.
  destruct (Z.to_int i) as [d|d]; [apply nilzero_string_of_uint_lacks_p|].
  cbn [lacks]. split; [discriminate | apply nilzero_string_of_uint_lacks_p].
Qed.

Lemma replace_period_lacks (s : string) :
  lacks p_char s -> replace_from 0 "period" "balans" s = s.
Proof.
  induction s as [|c s IH]; cbn [lacks]; [reflexivity|]. intros [N L].
  cbn [replace_from String.prefix].
  destruct (ascii_dec "p"%char c) as [E|_]; [now contradiction N|].
  now rewrite IH.
Qed.

Lemma replace_period (i : Z) :
  replace "period" "balans" (period i) = balans i.
Proof.
  unfold period, balans, replace.
  pose proof (replace_period_lacks _ (str_of_int_lacks_p i)) as E.
  remember (str_of_int i) as d eqn:D. clear D. simpl.
  assert (String.prefix "" d = true) as -> by now destruct d.
  now rewrite E.
Qed.

(** X17.  The key metrics of period [i] take their balance-sheet
    amounts from the context [balans] followed by [i]: the equity is the
    fact [EgetKapital] of that context, and the balance-sheet total is
    the fact [Tillgangar] of that context unless it is absent or zero, in
    which case it is the fact [SummaEgetKapitalSkulder]. *)
Theorem get_nyckeltal_balans (pow10_neg : Z -> float) (self : IXBRLParser)
    (i : Z) (n : Nyckeltal) :
  get_nyckeltal pow10_neg self (period i) = Ok n ->
  get_int pow10_neg self "EgetKapital" (balans i) = Ok (eget_kapital n) /\
  exists t,
    get_int pow10_neg self "Tillgangar" (balans i) = Ok t /\
    (truthy t = true -> balansomslutning n = t) /\
    (truthy t = false ->
     get_int pow10_neg self "SummaEgetKapitalSkulder" (balans i)
     = Ok (balansomslutning n)).
Proof.
  unfold get_nyckeltal. rewrite replace_period.
  destruct (get_int pow10_neg self "Nettoomsattning" _) as [oms|]; cbn [bind];
    [|discriminate].
  destruct (get_int pow10_neg self "ResultatEfterFinansiellaPoster" _)
    as [ref|]; cbn [bind]; [|discriminate].
  destruct (get_int pow10_neg self "AretsResultat" _) as [res|]; cbn [bind];
    [|discriminate].
  destruct (get_int pow10_neg self "EgetKapital" _) as [ek|]; cbn [bind];
    [|discriminate].
  destruct (get_int pow10_neg self "Tillgangar" _) as [t|]; cbn [bind];
    [|discriminate].
  destruct (truthy t) eqn:T; cbn [bind].
  - destruct (get_int pow10_neg self "Soliditet" _) as [sol|]; cbn [bind];
      [|discriminate].
    destruct (get_int pow10_neg self "MedelantalAnstallda" _) as [ans|];
      cbn [bind]; [|discriminate].
    match goal with
    | |- context [berakna_nyckeltal ?m] =>
        pose proof (berakna_nyckeltal_frame m) as F;
        destruct (berakna_nyckeltal m) as [[u|e] n']
    end.
    2: discriminate.
    cbn in F. destruct F as [_ [_ [_ [F4 [F5 _]]]]]. intros [= <-].
    rewrite F4, F5. split; [reflexivity|]. exists t.
    split; [reflexivity|]. split; [reflexivity | intros T'; congruence].
  - destruct (get_int pow10_neg self "SummaEgetKapitalSkulder" _) as [b|];
      cbn [bind]; [|discriminate].
    destruct (get_int pow10_neg self "Soliditet" _) as [sol|]; cbn [bind];
      [|discriminate].
    destruct (get_int pow10_neg self "MedelantalAnstallda" _) as [ans|];
      cbn [bind]; [|discriminate].
    match goal with
    | |- context [berakna_nyckeltal ?m] =>
        pose proof (berakna_nyckeltal_frame m) as F;
        destruct (berakna_nyckeltal m) as [[u|e] n']
    end.
    2: discriminate.
    cbn in F. destruct F as [_ [_ [_ [F4 [F5 _]]]]]. intros [= <-].
    rewrite F4, F5. split; [reflexivity|]. exists t.
    split; [reflexivity|]. split; [intros T'; congruence | reflexivity].
Qed.

Lemma get_nyckeltal_balans_witness :
  get_nyckeltal pow10_rounded soup_tillgangar_noll (period 0)
  = Ok (nyckeltal_i soup_tillgangar_noll 0) /\
  balansomslutning (nyckeltal_i soup_tillgangar_noll 0) = Some 1500 /\
  get_int pow10_rounded soup_tillgangar_noll "EgetKapital" (balans 0)
  = Ok (eget_kapital (nyckeltal_i soup_tillgangar_noll 0)).
Proof.
  assert (get_nyckeltal pow10_rounded soup_tillgangar_noll (period 0)
          = Ok (nyckeltal_i soup_tillgangar_noll 0)) as R
    by (vm_compute; reflexivity).
  split; [exact R|]. split; [vm_compute; reflexivity|].
  exact (proj1 (get_nyckeltal_balans pow10_rounded soup_tillgangar_noll 0 _ R)).
Defined.

(* ================================================================== *)
(** * Numeric facts are read back *)
(* ================================================================== *)

(** ** Decimal strings *)

(** A printable character of ASCII that is no space. *)
Lemma after_space_graph (c : ascii) (s : string) :
  graph c = true -> after_space (String c s) = None.
Proof.
  unfold graph, between. intros G. apply andb_true_iff in G as [G1 G2].
  apply N.leb_le in G1, G2. unfold after_space, is_space, between.
  assert ((Py.code c <=? 13)%N = false) as -> by (apply N.leb_gt; lia).
  assert ((Py.code c <=? 32)%N = false) as -> by (apply N.leb_gt; lia).
  rewrite !andb_false_r. cbn [orb].
  assert ((Py.code c =? 194)%N = false) as -> by (apply N.eqb_neq; lia).
  assert ((Py.code c =? 225)%N = false) as -> by (apply N.eqb_neq; lia).
  assert ((Py.code c =? 226)%N = false) as -> by (apply N.eqb_neq; lia).
  assert ((Py.code c =? 227)%N = false) as -> by (apply N.eqb_neq; lia).
  destruct s as [|d [|e s]]; reflexivity.
Qed.

Lemma lstrip_graph (s : string) : all_chars graph s = true -> lstrip s = s.
Proof.
  destruct s as [|c s]; [reflexivity|]. cbn [all_chars]. intros G.
  apply andb_true_iff in G as [G _]. unfold lstrip.
  cbn [String.length lstrip_upto]. now rewrite after_space_graph.
Qed.

Lemma rstrip_graph (s : string) : all_chars graph s = true -> rstrip s = s.
Proof.
  induction s as [|c s IH]; [reflexivity|]. intros G.
  cbn [rstrip]. rewrite (lstrip_graph _ G).
  cbn [all_chars] in G. apply andb_true_iff in G as [_ G].
  now rewrite IH.
Qed.

Lemma strip_graph (s : string) : all_chars graph s = true -> strip s = s.
Proof.
  intros G. unfold strip. rewrite (lstrip_graph s G). now apply rstrip_graph.
Qed.

Lemma string_of_uint_graph (d : Decimal.uint) :
  all_chars graph (NilEmpty.string_of_uint d) = true.
Proof.
  induction d as [|d IH|d IH|d IH|d IH|d IH|d IH|d IH|d IH|d IH|d IH];
    cbn [NilEmpty.string_of_uint all_chars]; try reflexivity;
    rewrite IH; reflexivity.
Qed.

Lemma str_of_int_graph (z : Z) : all_chars graph (str_of_int z) = true.
Proof.
  unfold str_of_int, NilZero.string_of_int, NilZero.string_of_uint.
  destruct (Z.to_int z) as [d|d]; destruct d;
    cbn [all_chars]; rewrite ?string_of_uint_graph; reflexivity.
Qed.

(** The digits of a decimal number, read from the left. *)
Lemma digits_tail_uint (d : Decimal.uint) (acc : positive) (cnt : Z) :
  exists n, digits_tail (Z.pos acc) cnt (NilEmpty.string_of_uint d)
            = (Z.pos (Pos.of_uint_acc d acc), n, "").
Proof.
  revert acc cnt.
  induction d as [|d IH|d IH|d IH|d IH|d IH|d IH|d IH|d IH|d IH|d IH];
    intros acc cnt; cbn [NilEmpty.string_of_uint Pos.of_uint_acc];
    [eexists; reflexivity|..];
    cbn [digits_tail];
    match goal with
    | |- context [digit_val ?c] =>
        let v := eval vm_compute in (digit_val c) in
        change (digit_val c) with v
    end; cbv iota beta;
    match goal with
    | |- context [digits_tail ?a ?k _] =>
        match goal with
        | |- context [Pos.of_uint_acc d ?b] =>
            replace a with (Z.pos b) by lia; apply IH
        end
    end.
Qed.

Lemma digits_tail_zero (d : Decimal.uint) (cnt : Z) :
  exists n, digits_tail 0 cnt (NilEmpty.string_of_uint d)
            = (Z.of_N (Pos.of_uint d), n, "").
Proof.
  revert cnt.
  induction d as [|d IH|d IH|d IH|d IH|d IH|d IH|d IH|d IH|d IH|d IH];
    intros cnt; cbn [NilEmpty.string_of_uint Pos.of_uint];
    [eexists; reflexivity|..];
    cbn [digits_tail];
    match goal with
    | |- context [digit_val ?c] =>
        let v := eval vm_compute in (digit_val c) in
        change (digit_val c) with v
    end; cbv iota beta;
    first [apply IH | apply (digits_tail_uint d _ _)].
Qed.

Lemma digitpart_uint (d : Decimal.uint) :
  d <> Decimal.Nil ->
  exists n, digitpart 0 (NilEmpty.string_of_uint d)
            = Some (Z.of_N (Pos.of_uint d), n, "").
Proof.
  intros NN. destruct (digits_tail_zero d 0) as [n E].
  exists n. rewrite <- E.
  destruct d; [contradiction|..]; reflexivity.
Qed.

(** The text of a positive integer is read back as the integer. *)
Lemma digitpart_str_of_pos (p : positive) :
  exists n, digitpart 0 (str_of_int (Z.pos p)) = Some (Z.pos p, n, "").
Proof.
  unfold str_of_int. cbn [Z.to_int NilZero.string_of_int].
  pose proof (DecimalPos.Unsigned.to_uint_nonnil p) as NN.
  destruct (digitpart_uint (Pos.to_uint p) NN) as [n E]. exists n.
  rewrite DecimalPos.Unsigned.of_to in E. cbn [Z.of_N] in E.
  unfold NilZero.string_of_uint.
  destruct (Pos.to_uint p); [contradiction|..]; exact E.
Qed.

(** ** Products of small integers are exact *)

(** Shifting out zeros loses nothing. *)
Lemma iter_pos_shr_1_exact (p : positive) (M : Z) :
  0 < M -> (2 ^ Z.pos p | M) ->
  iter_pos shr_1 p {| shr_m := M; shr_r := false; shr_s := false |}
  = {| shr_m := M / 2 ^ Z.pos p; shr_r := false; shr_s := false |}.
Proof.
  revert M.
  assert (forall M, 0 < M -> (2 | M) ->
            shr_1 {| shr_m := M; shr_r := false; shr_s := false |}
            = {| shr_m := M / 2; shr_r := false; shr_s := false |}) as One.
  { intros M P [c E]. destruct M as [|m|m]; try lia.
    rewrite shr_1_pos by lia. f_equal. rewrite E.
    rewrite Z.mul_comm, Z.odd_mul. reflexivity. }
  assert (forall q M, 0 < M -> (2 ^ Z.pos q | M) ->
            0 < M / 2 ^ Z.pos q /\ M = M / 2 ^ Z.pos q * 2 ^ Z.pos q) as Div.
  { intros q M P [c E].
    pose proof (Z.pow_pos_nonneg 2 (Z.pos q) ltac:(lia) ltac:(lia)) as Q.
    rewrite E at 1 3. rewrite Z.div_mul by lia. split; [|lia]. nia. }
  induction p as [p IH|p IH|]; intros M P D; cbn [iter_pos].
  - replace (Z.pos p~1) with (1 + Z.pos p + Z.pos p) in * by lia.
    rewrite !Z.pow_add_r in * by lia. change (2 ^ 1) with 2 in *.
    pose proof (Z.pow_pos_nonneg 2 (Z.pos p) ltac:(lia) ltac:(lia)) as Q.
    destruct D as [c E].
    assert (M / 2 = c * 2 ^ Z.pos p * 2 ^ Z.pos p) as E1.
    { rewrite E. replace (c * (2 * 2 ^ Z.pos p * 2 ^ Z.pos p))
        with (c * 2 ^ Z.pos p * 2 ^ Z.pos p * 2) by lia.
      now rewrite Z.div_mul by lia. }
    rewrite One; [|exact P|exists (c * 2 ^ Z.pos p * 2 ^ Z.pos p); lia].
    assert (0 < c) by nia.
    rewrite IH; [|nia|exists (c * 2 ^ Z.pos p); lia].
    assert (M / 2 / 2 ^ Z.pos p = c * 2 ^ Z.pos p) as E2
      by (rewrite E1; now rewrite Z.div_mul by lia).
    rewrite E2. rewrite IH; [|nia|exists c; lia].
    f_equal. rewrite Z.div_mul by lia. rewrite E.
    now rewrite Z.div_mul by lia.
  - replace (Z.pos p~0) with (Z.pos p + Z.pos p) in * by lia.
    rewrite !Z.pow_add_r in * by lia.
    pose proof (Z.pow_pos_nonneg 2 (Z.pos p) ltac:(lia) ltac:(lia)) as Q.
    destruct D as [c E]. assert (0 < c) by nia.
    assert (M / 2 ^ Z.pos p = c * 2 ^ Z.pos p) as E1.
    { rewrite E. replace (c * (2 ^ Z.pos p * 2 ^ Z.pos p))
        with (c * 2 ^ Z.pos p * 2 ^ Z.pos p) by lia.
      now rewrite Z.div_mul by lia. }
    rewrite IH; [|exact P|exists (c * 2 ^ Z.pos p); lia].
    rewrite E1. rewrite IH; [|nia|exists c; lia].
    f_equal. rewrite Z.div_mul by lia. rewrite E.
    now rewrite Z.div_mul by lia.
  - change (2 ^ 1) with 2 in *. now apply One.
Qed.

(** The product of two floats of 53 bits that hold the integers [A] and
    [B] holds [A * B], when this is below [2^53]. *)
Lemma fmul_small (sx sy : bool) (mx my : positive) (ex ey A B : Z) :
  digits2_pos mx = 53%positive -> digits2_pos my = 53%positive ->
  -52 <= ex <= 0 -> -52 <= ey <= 0 ->
  Z.pos mx = A * 2 ^ (- ex) -> Z.pos my = B * 2 ^ (- ey) ->
  A * B < 2 ^ 53 ->
  exists m e,
    fmul (S754_finite sx mx ex) (S754_finite sy my ey)
    = S754_finite (xorb sx sy) m e /\
    e <= 0 /\ Z.pos m = A * B * 2 ^ (- e).
Proof.
  intros Dx Dy Rx Ry Vx Vy Small.
  pose proof (digits2_pos_lower mx) as Lx. pose proof (digits2_pos_upper mx) as Ux.
  pose proof (digits2_pos_lower my) as Ly. pose proof (digits2_pos_upper my) as Uy.
  rewrite Dx in Lx, Ux. rewrite Dy in Ly, Uy.
  change (53 - 1) with 52 in *.
  set (M := Z.pos (mx * my)).
  assert (M = Z.pos mx * Z.pos my) as EM by (unfold M; lia).
  assert (2 ^ 104 <= M < 2 ^ 106) as BM.
  { change (2 ^ 104) with (2 ^ 52 * 2 ^ 52).
    change (2 ^ 106) with (2 ^ 53 * 2 ^ 53). rewrite EM. nia. }
  set (k := - ex - ey).
  pose proof (Z.pow_pos_nonneg 2 (- ex) ltac:(lia) ltac:(lia)) as Pex.
  pose proof (Z.pow_pos_nonneg 2 (- ey) ltac:(lia) ltac:(lia)) as Pey.
  assert (M = A * B * 2 ^ k) as EP.
  { rewrite EM, Vx, Vy. unfold k.
    replace (- ex - ey) with (- ex + - ey) by lia.
    rewrite Z.pow_add_r by lia. lia. }
  assert (0 < A * B) as PP by nia.
  pose proof (Z.pow_pos_nonneg 2 k ltac:(lia) ltac:(unfold k; lia)) as Pk.
  set (D := Z.pos (digits2_pos (mx * my))).
  pose proof (digits2_pos_lower (mx * my)) as LD.
  pose proof (digits2_pos_upper (mx * my)) as UD.
  fold D in LD, UD. fold M in LD, UD.
  assert (105 <= D <= 106) as BD.
  { split.
    - destruct (Z_le_gt_dec 105 D) as [|G]; [assumption|].
      assert (2 ^ D <= 2 ^ 104) by (apply Z.pow_le_mono_r; lia). lia.
    - destruct (Z_le_gt_dec D 106) as [|G]; [assumption|].
      assert (2 ^ 106 <= 2 ^ (D - 1)) by (apply Z.pow_le_mono_r; lia). lia. }
  assert (D - 53 <= k) as Nk.
  { destruct (Z_le_gt_dec (D - 53) k) as [|G]; [assumption|].
    assert (2 ^ (53 + k) <= 2 ^ (D - 1))
      by (apply Z.pow_le_mono_r; unfold k in *; lia).
    rewrite Z.pow_add_r in H by (unfold k; lia). nia. }
  set (n := D - 53).
  assert (M = A * B * 2 ^ (k - n) * 2 ^ n) as EN.
  { rewrite EP. replace k with ((k - n) + n) at 1 by lia.
    rewrite Z.pow_add_r by (unfold n; lia). lia. }
  pose proof (Z.pow_pos_nonneg 2 n ltac:(lia) ltac:(unfold n; lia)) as Pn.
  pose proof (Z.pow_pos_nonneg 2 (k - n) ltac:(lia) ltac:(lia)) as Pkn.
  set (m1 := A * B * 2 ^ (k - n)) in *.
  assert (2 ^ 52 <= m1 < 2 ^ 53) as B1.
  {
    assert (2 ^ (D - 1) = 2 ^ 52 * 2 ^ n) as E1.
    { replace (D - 1) with (52 + n) by (unfold n; lia).
      now rewrite Z.pow_add_r by (unfold n; lia). }
    assert (2 ^ D = 2 ^ 53 * 2 ^ n) as E2.
    { replace D with (53 + n) at 1 by (unfold n; lia).
      now rewrite Z.pow_add_r by (unfold n; lia). }
    rewrite E1 in LD. rewrite E2 in UD. rewrite EN in LD, UD. nia. }
  assert (m1 = A * B * 2 ^ (k - n)) as Hm1 by reflexivity. clearbody m1.
  destruct m1 as [|pm|pm]; try lia.
  exists pm, (ex + ey + n). split; [|split].
  - unfold fmul, SFmul, binary_round_aux. fold M.
    assert (shr_fexp prec emax M (ex + ey) loc_Exact
            = ({| shr_m := Z.pos pm; shr_r := false; shr_s := false |},
               ex + ey + n)) as ->.
    { unfold shr_fexp, fexp, emin, prec, emax. unfold M at 2.
      cbn [Zdigits2]. fold D.
      replace (Z.max (D + (ex + ey) - 53) (3 - 1024 - 53) - (ex + ey))
        with n by (unfold n; lia).
      unfold shr. destruct n as [|pn|pn] eqn:En; try lia.
      cbn [shr_record_of_loc]. f_equal.
      rewrite iter_pos_shr_1_exact; [|lia|exists (Z.pos pm); lia].
      f_equal. rewrite EN. now rewrite Z.div_mul by lia. }
    cbn [shr_m loc_of_shr_record round_nearest_even].
    rewrite shr_fexp_53 by (unfold k in *; lia).
    cbn [shr_m]. unfold emax, prec.
    assert ((ex + ey + n <=? 1024 - 53) = true) as ->
      by (apply Z.leb_le; unfold k in *; lia).
    reflexivity.
  - unfold k in *. lia.
  - rewrite Hm1. f_equal. f_equal. unfold k. lia.
Qed.

(** ** Reading the text of an integer *)

Lemma float_of_str_uint (neg : bool) (d : Decimal.uint) (v n : Z) :
  d <> Decimal.Nil ->
  digitpart 0 (NilEmpty.string_of_uint d) = Some (v, n, "") ->
  float_of_str (if neg then String "-" (NilEmpty.string_of_uint d)
                else NilEmpty.string_of_uint d)
  = Ok (decimal_float neg v 0).
Proof.
  intros NN H. unfold float_of_str.
  rewrite strip_graph
    by (destruct neg; cbn [all_chars]; rewrite string_of_uint_graph;
        reflexivity).
  assert (sign (if neg then String "-" (NilEmpty.string_of_uint d)
                else NilEmpty.string_of_uint d)
          = (neg, NilEmpty.string_of_uint d)) as ->
    by (destruct neg; [reflexivity|];
        destruct d; [contradiction|..]; reflexivity).
  assert (String.eqb (lower (NilEmpty.string_of_uint d)) "inf" = false
          /\ String.eqb (lower (NilEmpty.string_of_uint d)) "infinity" = false
          /\ String.eqb (lower (NilEmpty.string_of_uint d)) "nan" = false)
    as [-> [-> ->]]
    by (destruct d; [contradiction|..]; repeat split; reflexivity).
  cbn [orb]. rewrite H. reflexivity.
Qed.

(** The text of a nonzero integer below [2^53] is read by [float] as the
    float that holds the integer. *)
Lemma float_of_str_int (z : Z) :
  z <> 0 -> Z.abs z < 2 ^ 53 ->
  exists mz ez,
    float_of_str (str_of_int z) = Ok (S754_finite (z <? 0) mz ez) /\
    digits2_pos mz = 53%positive /\ -52 <= ez <= 0 /\
    Z.pos mz = Z.abs z * 2 ^ (- ez).
Proof.
  intros NZ B.
  assert (forall (neg : bool) (p : positive), Z.pos p < 2 ^ 53 ->
            exists mz ez,
              float_of_str
                (if neg then String "-" (NilZero.string_of_uint (Pos.to_uint p))
                 else NilZero.string_of_uint (Pos.to_uint p))
              = Ok (S754_finite neg mz ez) /\
              digits2_pos mz = 53%positive /\ -52 <= ez <= 0 /\
              Z.pos mz = Z.pos p * 2 ^ (- ez)) as Core.
  { intros neg p Bp.
    pose proof (DecimalPos.Unsigned.to_uint_nonnil p) as NN.
    destruct (digitpart_uint (Pos.to_uint p) NN) as [n E].
    rewrite DecimalPos.Unsigned.of_to in E. cbn [Z.of_N] in E.
    assert (NilZero.string_of_uint (Pos.to_uint p)
            = NilEmpty.string_of_uint (Pos.to_uint p)) as ->
      by (unfold NilZero.string_of_uint;
          destruct (Pos.to_uint p); [contradiction|..]; reflexivity).
    rewrite (float_of_str_uint neg _ _ _ NN E).
    destruct (binary_round_small neg p Bp) as [mz [ez [R F]]].
    exists mz, ez. split; [|exact F]. f_equal.
    unfold decimal_float. cbn [Z.leb Z.compare Z.opp].
    change (10 ^ 0) with 1. rewrite Z.mul_1_r.
    destruct neg; cbn [binary_normalize Z.opp]; exact R. }
  destruct z as [|p|p]; [contradiction| |].
  - destruct (Core false p B) as [mz [ez [E F]]]. exists mz, ez.
    split; [exact E | exact F].
  - destruct (Core true p B) as [mz [ez [E F]]]. exists mz, ez.
    split; [exact E | exact F].
Qed.

Lemma int_of_str_scale (s : Z) :
  0 <= s <= 15 -> int_of_str (str_of_int s) = Ok s.
Proof.
  intros R.
  assert (s = 0 \/ s = 1 \/ s = 2 \/ s = 3 \/ s = 4 \/ s = 5 \/ s = 6 \/ s = 7
          \/ s = 8 \/ s = 9 \/ s = 10 \/ s = 11 \/ s = 12 \/ s = 13 \/ s = 14
          \/ s = 15) as C by lia.
  repeat (destruct C as [->|C]; [vm_compute; reflexivity|]).
  subst s. vm_compute. reflexivity.
Qed.

Lemma pow10_small (s : Z) : 0 <= s <= 15 -> 0 < 10 ^ s < 2 ^ 53.
Proof.
  intros R. split; [apply Z.pow_pos_nonneg; lia|].
  assert (10 ^ s <= 10 ^ 15) by (apply Z.pow_le_mono_r; lia).
  assert (10 ^ 15 < 2 ^ 53) by reflexivity. lia.
Qed.

(** The integer part of a float that holds an integer. *)
Lemma int_of_float_exact (s : bool) (m : positive) (e P : Z) :
  e <= 0 -> Z.pos m = P * 2 ^ (- e) ->
  int_of_float (S754_finite s m e) = Ok (if s then - P else P).
Proof.
  intros R V. unfold int_of_float. f_equal.
  destruct (Z.leb_spec 0 e) as [G|L].
  - assert (e = 0) as -> by lia. cbn in V. cbn [Z.pow]. 
    rewrite Z.mul_1_r in *. now rewrite V.
  - rewrite V.
    pose proof (Z.pow_pos_nonneg 2 (- e) ltac:(lia) ltac:(lia)).
    now rewrite Z.div_mul by lia.
Qed.

(** X18.  Reading is the inverse of writing an integer: when the element
    that a numeric query selects has a text that is, after the
    normalisation of [_get_value] (outer whitespace and all spaces
    removed, a comma for the decimal point, the typographic minus), the
    decimal text of an integer [z], and a scale attribute that is the
    decimal text of [s] (the attribute may be absent for [s = 0]), the
    query returns [z * 10^s], for [0 <= s <= 15] and a product below
    [2^53] in absolute value. *)
Theorem get_int_reads_integer (pow10_neg : Z -> float) (self : IXBRLParser)
    (name_pattern context : string) (tag : Tag) (z s : Z) :
  fact self name_pattern context = Some tag ->
  normalised (tag_text tag) = str_of_int z ->
  tag_get_default "scale" "0" tag = str_of_int s ->
  0 <= s <= 15 ->
  Z.abs z * 10 ^ s < 2 ^ 53 ->
  get_int pow10_neg self name_pattern context = Ok (Some (z * 10 ^ s)).
Proof.
  intros F T S R B. unfold get_int, _get_value.
  assert (find "ix:nonfraction"
            (if str_truthy context
             then dict_set "contextref" (Exactly context)
                    [("name", Satisfies (name_match name_pattern))]
             else [("name", Satisfies (name_match name_pattern))]) self
          = Some tag) as ->
    by (unfold fact in F; destruct (str_truthy context); exact F).
  fold (normalised (tag_text tag)). rewrite T, S.
  rewrite (int_of_str_scale s R). cbn [bind].
  pose proof (pow10_small s R) as [P10 B10].
  assert (pow10 pow10_neg s = Int (10 ^ s)) as ->
    by (unfold pow10; assert ((s <? 0) = false) as -> by (apply Z.ltb_ge; lia);
        reflexivity).
  destruct (float_of_int_small (10 ^ s) ltac:(lia) ltac:(lia))
    as [my [ey [FY [DY [RY VY]]]]].
  rewrite Z.abs_eq in VY by lia.
  assert ((10 ^ s <? 0) = false) as E10 by (apply Z.ltb_ge; lia).
  rewrite E10 in FY.
  destruct (Z.eq_dec z 0) as [->|NZ].
  - change (float_of_str (str_of_int 0)) with (Ok (S754_zero false)).
    cbn [bind fmul_num]. unfold fmul_int. rewrite FY. reflexivity.
  - assert (Z.abs z < 2 ^ 53) as BZ by nia.
    destruct (float_of_str_int z NZ BZ) as [mx [ex [FX [DX [RX VX]]]]].
    rewrite FX. cbn [bind fmul_num]. unfold fmul_int. rewrite FY. cbn [bind].
    destruct (fmul_small (z <? 0) false mx my ex ey (Z.abs z) (10 ^ s)
                DX DY RX RY VX VY B) as [m [e [FM [RE VM]]]].
    rewrite FM. rewrite xorb_false_r.
    rewrite (int_of_float_exact (z <? 0) m e (Z.abs z * 10 ^ s) RE VM).
    cbn [bind except_ValueError int_value]. do 2 f_equal.
    destruct (Z.ltb_spec z 0); [rewrite Z.abs_neq by lia | rewrite Z.abs_eq by lia];
      lia.
Qed.

Lemma get_int_reads_integer_witness :
  let self := soup_fact " 1 234 " (Some "3") in
  let tag := mkTag "ix:nonfraction"
               [("name", "se-gen-base:Nettoomsattning");
                ("contextref", "period0"); ("scale", "3")] " 1 234 " in
  fact self "Nettoomsattning" "period0" = Some tag /\
  normalised (tag_text tag) = str_of_int 1234 /\
  tag_get_default "scale" "0" tag = str_of_int 3 /\
  0 <= 3 <= 15 /\ Z.abs 1234 * 10 ^ 3 < 2 ^ 53 /\
  get_int pow10_rounded self "Nettoomsattning" "period0" = Ok (Some 1234000).
Proof.
  intros self tag.
  assert (fact self "Nettoomsattning" "period0" = Some tag) as F by reflexivity.
  assert (normalised (tag_text tag) = str_of_int 1234) as T by reflexivity.
  assert (tag_get_default "scale" "0" tag = str_of_int 3) as S by reflexivity.
  assert (0 <= 3 <= 15) as R by lia.
  assert (Z.abs 1234 * 10 ^ 3 < 2 ^ 53) as B by reflexivity.
  repeat (split; [assumption|]).
  exact (get_int_reads_integer pow10_rounded self "Nettoomsattning" "period0"
           tag 1234 3 F T S R B).
Defined.

(* ================================================================== *)
(** * The debt ratio of the comparison and of the snapshot *)
(* ================================================================== *)

Lemma fdiv_negative (p d : positive) (z : Z) :
  0 <= z ->
  float_gt_int (fdiv (S754_finite true p 0) (S754_finite false d 0)) z = false.
Proof.
  intros Hz. apply float_gt_int_negative; [exact Hz|].
  unfold fdiv, SFdiv. cbn [xorb].
  destruct (SFdiv_core_binary prec emax (Z.pos p) 0 (Z.pos d) 0) as [[mz ez] lz].
  apply binary_round_aux_negative.
Qed.

Lemma div_half_even_above (n d w : Z) :
  0 <= n -> 0 < d -> 0 <= w ->
  w < div_half_even n d -> w * d < n.
Proof.
  intros N D W. unfold div_half_even.
  pose proof (Z.div_mod n d ltac:(lia)) as E.
  pose proof (Z.mod_pos_bound n d D) as R.
  destruct (Z.compare_spec (2 * (n mod d)) d) as [C|C|C].
  - destruct (Z.even (n / d)); intros H; nia.
  - intros H. nia.
  - intros H. nia.
Qed.

(** A ratio whose rounding to two decimals exceeds an integer exceeds
    the integer. *)
Lemma round2_gt (q : float) (z : Z) :
  0 <= z -> 100 * z < 2 ^ 53 ->
  float_gt_int (round2 q) z = true -> float_gt_int q z = true.
Proof.
  intros Hz Bz. destruct q as [s|s| |s m e]; cbn [round2]; try (intros H; exact H).
  set (k := if 0 <=? e then 100 * Z.pos m * 2 ^ e
            else div_half_even (100 * Z.pos m) (2 ^ (- e))).
  destruct s.
  - destruct k as [|p|p]; intros H.
    + rewrite float_gt_int_negative in H by (exact Hz || reflexivity).
      discriminate H.
    + change (exact_int 100) with (S754_finite false 100 0) in H.
      rewrite fdiv_negative in H by exact Hz. discriminate H.
    + rewrite float_gt_int_negative in H by (exact Hz || reflexivity).
      discriminate H.
  - assert (float_gt_int
              (match k with
               | Z.pos p => fdiv (S754_finite false p 0) (exact_int 100)
               | _ => S754_zero false
               end) z = true -> 100 * z < k) as K.
    { destruct k as [|p|p]; unfold float_gt_int, float_compare_int.
      - destruct (Z.compare_spec 0 z); try discriminate. lia.
      - fold (float_compare_int
                (fdiv (S754_finite false p 0) (exact_int 100)) z).
        destruct (Z.ltb_spec (Z.pos p) (2 ^ 53)) as [L|G]; [|intros _; lia].
        change (exact_int 100) with (S754_finite false 100 0).
        rewrite (fdiv_compare_int p 100 z L ltac:(reflexivity)).
        destruct (Z.compare_spec (Z.pos p) (z * 100)); try discriminate. lia.
      - destruct (Z.compare_spec 0 z); try discriminate. lia. }
    intros H. apply K in H. clear K.
    unfold float_gt_int, float_compare_int. unfold k in H.
    destruct (Z.leb_spec 0 e) as [P|N].
    + pose proof (Z.pow_pos_nonneg 2 e ltac:(lia) P).
      destruct (Z.compare_spec (Z.pos m * 2 ^ e) z); try reflexivity; nia.
    + pose proof (Z.pow_pos_nonneg 2 (- e) ltac:(lia) ltac:(lia)) as D.
      apply div_half_even_above in H; try lia.
      destruct (Z.compare_spec (Z.pos m) (z * 2 ^ (- e))); try reflexivity; nia.
Qed.

Lemma calc_skuldsattning_Some (n : Nyckeltal) (r : float) :
  calc_skuldsattning n = Ok (Some r) ->
  exists ek bal q,
    eget_kapital n = Some ek /\ balansomslutning n = Some bal /\
    0 < ek /\ bal <> 0 /\
    int_truediv (bal - ek) ek = Ok q /\ r = round2 q.
Proof.
  unfold calc_skuldsattning.
  destruct (eget_kapital n) as [ek|]; [|discriminate].
  destruct (balansomslutning n) as [bal|];
    [|cbn; rewrite andb_false_r; discriminate].
  cbn [truthy positive_int as_int bind].
  destruct (Z.eqb_spec ek 0); [discriminate|].
  destruct (Z.eqb_spec bal 0); [discriminate|].
  destruct (Z.ltb_spec 0 ek); [|discriminate]. cbn [negb andb].
  destruct (int_truediv (bal - ek) ek) as [q|] eqn:Q; [|discriminate].
  cbn [bind]. intros [= <-]. exists ek, bal, q. repeat split; assumption.
Qed.

(** X19.  The comparison and the snapshot agree with the classifier on
    a high debt ratio: whenever the debt ratio that they compute
    ([round(skulder / eget_kapital, 2)]) exceeds 3, which the snapshot
    assesses as "Hög", [analyze_risks] returns the finding on the
    leverage for the same quotient. *)
Theorem calc_skuldsattning_high (a : Arsredovisning)
    (trends : option (dict Nyckeltal)) (flags : list RiskFlag) (r : float) :
  calc_skuldsattning (nyckeltal a) = Ok (Some r) ->
  analyze_risks a trends = Ok flags ->
  bedomning_skuldsattning r = "⚠️ Hög"%string ->
  exists ek bal q,
    eget_kapital (nyckeltal a) = Some ek /\
    balansomslutning (nyckeltal a) = Some bal /\
    int_truediv (bal - ek) ek = Ok q /\ r = round2 q /\
    In (flag_hog_skuldsattning q) flags.
Proof.
  intros C H B.
  destruct (calc_skuldsattning_Some _ _ C) as [ek [bal [q [EK [BAL [P [NZ [Q R]]]]]]]].
  exists ek, bal, q. repeat (split; [assumption|]).
  assert (float_gt_int r 3 = true) as G.
  { unfold bedomning_skuldsattning in B.
    destruct (float_gt_int r 3); [reflexivity|].
    destruct (float_gt_int r 2); discriminate B. }
  rewrite R in G. apply round2_gt in G; [|lia|reflexivity].
  destruct (analyze_risks_Ok a trends flags H) as [k [s [g [_ [S [_ ->]]]]]].
  destruct (hog_skuldsattning_spec _ ek bal s EK BAL P S) as [V _].
  rewrite (V q Q), G.
  do 6 (apply in_or_app; right). apply in_or_app. left. now left.
Qed.

Example skuldsattning_3004 :
  let n := nyckeltal_av None None (Some 1000) (Some 4004) in
  calc_skuldsattning n = Ok (Some f3) /\
  bedomning_skuldsattning f3 = "⚡ Förhöjd"%string /\
  exists q, flags_av (arsredovisning_av n None) = [flag_hog_skuldsattning q;
                                                   flag_inga_anstallda].
Proof.
  cbv zeta. split; [vm_compute; reflexivity|]. split; [reflexivity|].
  eexists. vm_compute. reflexivity.
Qed.

Lemma calc_skuldsattning_high_witness :
  let a := arsredovisning_av
             (nyckeltal_av None None (Some 1000000) (Some 5000000)) None in
  calc_skuldsattning (nyckeltal a) = Ok (Some f4) /\
  analyze_risks a None = Ok (flags_av a) /\
  bedomning_skuldsattning f4 = "⚠️ Hög"%string /\
  exists ek bal q,
    eget_kapital (nyckeltal a) = Some ek /\
    balansomslutning (nyckeltal a) = Some bal /\
    int_truediv (bal - ek) ek = Ok q /\ f4 = round2 q /\
    In (flag_hog_skuldsattning q) (flags_av a).
Proof.
  intros a.
  assert (calc_skuldsattning (nyckeltal a) = Ok (Some f4)) as C
    by (vm_compute; reflexivity).
  assert (analyze_risks a None = Ok (flags_av a)) as R
    by (vm_compute; reflexivity).
  assert (bedomning_skuldsattning f4 = "⚠️ Hög"%string) as B by reflexivity.
  split; [exact C|]. split; [exact R|]. split; [exact B|].
  exact (calc_skuldsattning_high a None (flags_av a) f4 C R B).
Defined.

(* ================================================================== *)
(** * Properties of [Person.fullnamn] *)
(* ================================================================== *)

(** ** Whitespace at the two ends of a string *)

Lemma after_space_shorter (s r : string) :
  after_space s = Some r -> (String.length r < String.length s)%nat.
Proof.
  destruct s as [|c [|d [|e s]]]; cbn [after_space];
    repeat match goal with
           | |- context [if ?b then _ else _] => destruct b
           end;
    try discriminate; intros [= <-]; cbn [String.length]; lia.
Qed.

Lemma after_space_app (s r t : string) :
  after_space s = Some r -> after_space (s ++ t) = Some (r ++ t)%string.
Proof.
  destruct s as [|c [|d [|e s]]]; cbn [after_space String.append];
    try discriminate.
  - destruct (is_space c); [|discriminate]. intros [= <-].
    destruct t; reflexivity.
  - destruct (is_space c); [intros [= <-]; reflexivity|].
    destruct (Py.code c =? 194)%N; [|discriminate].
    destruct ((Py.code d =? 133)%N || (Py.code d =? 160)%N); [|discriminate].
    intros [= <-]. reflexivity.
  - destruct (is_space c); [intros [= <-]; reflexivity|].
    destruct (Py.code c =? 194)%N.
    + destruct ((Py.code d =? 133)%N || (Py.code d =? 160)%N); [|discriminate].
      intros [= <-]. reflexivity.
    + match goal with
      | |- context [if ?b then _ else _] => destruct b
      end; [|discriminate].
      intros [= <-]. reflexivity.
Qed.

Lemma lstrip_upto_blank (n : nat) (s : string) :
  lstrip_upto n s = ""%string -> blank s.
Proof.
  revert s. induction n as [|n IH]; intros s; cbn [lstrip_upto].
  - intros ->. constructor.
  - destruct (after_space s) as [r|] eqn:A.
    + intros H. exact (blank_cons s r A (IH r H)).
    + intros ->. constructor.
Qed.

Lemma blank_lstrip_upto (s : string) :
  blank s -> forall n, (String.length s <= n)%nat -> lstrip_upto n s = ""%string.
Proof.
  induction 1 as [|s r A B IH]; intros n L.
  - destruct n; reflexivity.
  - pose proof (after_space_shorter s r A) as Sh.
    destruct n as [|n]; [lia|]. cbn [lstrip_upto]. rewrite A.
    apply IH. lia.
Qed.

Lemma lstrip_blank (s : string) : lstrip s = ""%string <-> blank s.
Proof.
  split.
  - apply lstrip_upto_blank.
  - intros B. apply blank_lstrip_upto; [exact B | lia].
Qed.

Lemma blank_app (s t : string) : blank s -> blank t -> blank (s ++ t).
Proof.
  induction 1 as [|s r A B IH]; intros T; [exact T|].
  apply (blank_cons _ (r ++ t)); [now apply after_space_app | now apply IH].
Qed.

(** What [lstrip] leaves does not begin with whitespace. *)
Lemma after_space_lstrip_upto (n : nat) (s : string) :
  (String.length s <= n)%nat -> after_space (lstrip_upto n s) = None.
Proof.
  revert s. induction n as [|n IH]; intros s L; cbn [lstrip_upto].
  - destruct s; [reflexivity | cbn in L; lia].
  - destruct (after_space s) as [r|] eqn:A; [|exact A].
    apply IH. pose proof (after_space_shorter s r A). lia.
Qed.

Lemma after_space_lstrip (s : string) : after_space (lstrip s) = None.
Proof. apply after_space_lstrip_upto. lia. Qed.

(** [rstrip] cuts off a run of whitespace. *)
Lemma rstrip_split (s : string) :
  exists w, s = (rstrip s ++ w)%string /\ blank w.
Proof.
  induction s as [|c s [w [E B]]]; [exists ""%string; split; [reflexivity | constructor]|].
  cbn [rstrip]. destruct (lstrip (String c s)) as [|c' s'] eqn:L.
  - exists (String c s). split; [reflexivity|]. now apply lstrip_blank.
  - exists w. split; [|exact B]. cbn [String.append]. now rewrite <- E.
Qed.

(** The first byte of a run of whitespace starts a character. *)
Lemma blank_starts_char (w : string) : blank w -> starts_char w.
Proof.
  intros [|s r A _]; [exact I|].
  destruct s as [|c s]; [exact I|]. cbn [starts_char].
  unfold is_cont, between.
  destruct (N.leb_spec 128 (Py.code c)) as [L|L]; [|reflexivity].
  destruct (N.leb_spec (Py.code c) 191) as [U|U]; [|reflexivity].
  exfalso. revert A. cbn [after_space]. unfold is_space, between.
  assert ((Py.code c <=? 13)%N = false) as -> by (apply N.leb_gt; lia).
  assert ((Py.code c <=? 32)%N = false) as -> by (apply N.leb_gt; lia).
  rewrite !andb_false_r. cbn [orb].
  assert ((Py.code c =? 194)%N = false) as -> by (apply N.eqb_neq; lia).
  assert ((Py.code c =? 225)%N = false) as -> by (apply N.eqb_neq; lia).
  assert ((Py.code c =? 226)%N = false) as -> by (apply N.eqb_neq; lia).
  assert ((Py.code c =? 227)%N = false) as -> by (apply N.eqb_neq; lia).
  destruct s as [|d [|e s]]; discriminate.
Qed.

(** A byte that starts a character is none of the continuation bytes
    that the whitespace characters of several bytes have. *)
Ltac byte_facts :=
  repeat split;
  repeat match goal with
         | |- (_ || _) = false => apply orb_false_iff; split
         | |- (_ && _) = false =>
             apply andb_false_iff;
             first [left; apply N.leb_gt; lia | right; apply N.leb_gt; lia]
         | |- (_ =? _)%N = false => apply N.eqb_neq; lia
         end.

Lemma not_cont_bytes (d : ascii) :
  is_cont d = false ->
  (Py.code d =? 133)%N || (Py.code d =? 160)%N = false /\
  (Py.code d =? 154)%N = false /\ (Py.code d =? 128)%N = false /\
  (Py.code d =? 129)%N = false /\ (Py.code d =? 159)%N = false /\
  between 128 138 d || between 168 169 d || (Py.code d =? 175)%N = false.
Proof.
  unfold is_cont, between. intros H.
  apply andb_false_iff in H. destruct H as [H|H]; apply N.leb_gt in H;
    byte_facts.
Qed.

(** The second and third byte of a whitespace character continue it:
    a whitespace character at the head of [s ++ w] lies within [s]. *)
Lemma after_space_straddle (s w r : string) :
  s <> ""%string -> starts_char w ->
  after_space (s ++ w) = Some r ->
  exists r', after_space s = Some r' /\ r = (r' ++ w)%string.
Proof.
  intros NE SC.
  destruct s as [|c [|d [|e s]]]; [contradiction| | |];
    cbn [String.append after_space].
  - destruct (is_space c); [intros [= <-]; now exists ""%string|].
    destruct w as [|d [|e w]]; [discriminate| |]; cbn [starts_char] in SC;
      destruct (not_cont_bytes d SC) as [C2 [C154 [C128 [C129 [C159 C3]]]]].
    + destruct (Py.code c =? 194)%N; [|discriminate].
      rewrite C2. discriminate.
    + destruct (Py.code c =? 194)%N; [rewrite C2; discriminate|].
      rewrite C154, C128, C129. rewrite !andb_false_r. cbn [orb andb].
      discriminate.
  - destruct (is_space c); [intros [= <-]; now exists (String d "")|].
    destruct (Py.code c =? 194)%N.
    + destruct ((Py.code d =? 133)%N || (Py.code d =? 160)%N); [|discriminate].
      intros [= <-]. now exists ""%string.
    + destruct w as [|e w]; [discriminate|]. cbn [starts_char] in SC.
      destruct (not_cont_bytes e SC) as [C2 [C154 [C128 [C129 [C159 C3]]]]].
      rewrite C128, C159, C3. rewrite !andb_false_r. cbn [orb].
      discriminate.
  - destruct (is_space c); [intros [= <-]; eexists; split; reflexivity|].
    destruct (Py.code c =? 194)%N.
    + destruct ((Py.code d =? 133)%N || (Py.code d =? 160)%N); [|discriminate].
      intros [= <-]. eexists; split; reflexivity.
    + match goal with
      | |- context [if ?b then _ else _] => destruct b
      end; [|discriminate].
      intros [= <-]. eexists; split; reflexivity.
Qed.

(** A run of whitespace that ends in a run of whitespace. *)
Lemma blank_app_inv (x : string) :
  blank x -> forall s w, x = (s ++ w)%string -> blank w -> blank s.
Proof.
  induction 1 as [|x r A B IH]; intros s w E W.
  - destruct s; [constructor | discriminate E].
  - destruct s as [|c s]; [constructor|]. subst x.
    destruct (after_space_straddle (String c s) w r ltac:(discriminate)
                (blank_starts_char w W) A) as [r' [A' ->]].
    exact (blank_cons _ r' A' (IH r' w eq_refl W)).
Qed.

(** Whitespace at the end does not change what [rstrip] leaves. *)
Lemma rstrip_app_blank (s w : string) :
  blank w -> rstrip (s ++ w) = rstrip s.
Proof.
  intros W. induction s as [|c s IH]; cbn [String.append].
  - destruct w as [|c w]; [reflexivity|]. cbn [rstrip].
    now rewrite (proj2 (lstrip_blank _) W).
  - cbn [rstrip]. rewrite IH.
    destruct (lstrip (String c s)) as [|c1 s1] eqn:L1.
    + assert (blank (String c (s ++ w))) as B
        by (apply (blank_app (String c s) w); [now apply lstrip_blank | exact W]).
      now rewrite (proj2 (lstrip_blank _) B).
    + destruct (lstrip (String c (s ++ w))) as [|c2 s2] eqn:L2; [|reflexivity].
      apply lstrip_blank in L2.
      pose proof (blank_app_inv _ L2 (String c s) w eq_refl W) as B.
      apply lstrip_blank in B. rewrite B in L1. discriminate L1.
Qed.

Lemma rstrip_idempotent (s : string) : rstrip (rstrip s) = rstrip s.
Proof.
  destruct (rstrip_split s) as [w [E W]].
  rewrite E at 2. now rewrite rstrip_app_blank.
Qed.

(** A stripped string that is not empty does not begin with whitespace,
    and [rstrip] leaves it as it is. *)
Lemma strip_ends (t : string) :
  strip t <> ""%string ->
  after_space (strip t) = None /\ rstrip (strip t) = strip t.
Proof.
  intros NE. split; [|apply rstrip_idempotent].
  unfold strip in *. destruct (rstrip_split (lstrip t)) as [w [E W]].
  destruct (after_space (rstrip (lstrip t))) as [r|] eqn:A; [|reflexivity].
  pose proof (after_space_app _ r w A) as A'. rewrite <- E in A'.
  rewrite after_space_lstrip in A'. discriminate A'.
Qed.

(** A space after a string that does not begin with whitespace. *)
Lemma after_space_then_space (a b : string) :
  a <> ""%string -> after_space a = None ->
  after_space (a ++ String " " b) = None.
Proof.
  intros NE A.
  destruct (after_space (a ++ String " " b)) as [r|] eqn:E; [|reflexivity].
  destruct (after_space_straddle a (String " " b) r NE ltac:(reflexivity) E)
    as [r' [A' _]].
  rewrite A in A'. discriminate A'.
Qed.

Lemma lstrip_fixed (s : string) : after_space s = None -> lstrip s = s.
Proof.
  intros A. unfold lstrip. destruct (String.length s); cbn [lstrip_upto];
    [reflexivity | now rewrite A].
Qed.

(** A run of whitespace up to a space and what follows the space. *)
Lemma blank_space_inv (x : string) :
  blank x -> forall y b, x = (y ++ String " " b)%string -> blank b.
Proof.
  induction 1 as [|x r A B IH]; intros y b E.
  - destruct y; discriminate E.
  - subst x. destruct y as [|c y].
    + cbn in A. injection A as <-. exact B.
    + destruct (after_space_straddle (String c y) (String " " b) r
                  ltac:(discriminate) ltac:(reflexivity) A) as [r' [_ ->]].
      exact (IH r' b eq_refl).
Qed.

Lemma rstrip_space_fixed (y b : string) :
  b <> ""%string -> after_space b = None -> rstrip b = b ->
  rstrip (y ++ String " " b) = (y ++ String " " b)%string.
Proof.
  intros NE A R.
  assert (~ blank b) as NB.
  { intros B. destruct B as [|s r A' _]; [now contradiction NE|].
    rewrite A in A'. discriminate A'. }
  assert (forall y, lstrip (y ++ String " " b) <> ""%string) as NL.
  { intros y' L. apply lstrip_blank in L.
    exact (NB (blank_space_inv _ L y' b eq_refl)). }
  induction y as [|c y IH]; cbn [String.append rstrip].
  - pose proof (NL ""%string) as N. cbn [String.append] in N.
    destruct (lstrip (String " " b)); [now contradiction N|]. now rewrite R.
  - pose proof (NL (String c y)) as N. cbn [String.append] in N.
    destruct (lstrip (String c (y ++ String " " b))); [now contradiction N|].
    now rewrite IH.
Qed.

(** ** The full name *)

Lemma fullnamn_stripped (p : Person) (t : string) :
  fornamn p = strip t -> fornamn p <> ""%string ->
  efternamn_stripped p ->
  fullnamn p = visat_namn p.
Proof.
  intros F NE ES. unfold fullnamn, visat_namn.
  rewrite F in NE. destruct (strip_ends t NE) as [A R]. rewrite F.
  assert (lstrip (strip t ++ " " ++ efternamn p)
          = (strip t ++ " " ++ efternamn p)%string) as L.
  { apply lstrip_fixed. cbn [String.append].
    now apply after_space_then_space. }
  unfold strip at 1. rewrite L.
  destruct (efternamn p) as [|c e] eqn:E.
  - cbn [String.append]. rewrite (rstrip_app_blank (strip t) " ");
      [exact R | apply (blank_cons " " ""); [reflexivity | constructor]].
  - unfold efternamn_stripped in ES. rewrite E in ES.
    destruct ES as [ES|[u ES]]; [discriminate ES|].
    assert (strip u <> ""%string) as NU by (rewrite <- ES; discriminate).
    destruct (strip_ends u NU) as [AU RU]. rewrite ES.
    cbn [String.append]. now apply rstrip_space_fixed.
Qed.

Lemma personer_step_efternamn (self : IXBRLParser)
    (pat : string * string * option string)
    (st : list Person * list person_key) (tag : Tag) :
  Forall efternamn_stripped (fst st) ->
  Forall efternamn_stripped (fst (personer_step self pat st tag)).
Proof.
  destruct pat as [[fp ep] rp], st as [personer seen]. intros N.
  unfold personer_step.
  destruct (tag_get "tupleref" tag) as [ref|].
  - destruct (str_truthy ref).
    + match goal with
      | |- context [negb (key_in ?k seen) && ?b] =>
          destruct (negb (key_in k seen) && b)
      end; [|exact N].
      cbn [fst] in *. apply Forall_app. split; [exact N|].
      constructor; [|constructor]. unfold efternamn_stripped, tuple_text.
      cbn [efternamn]. destruct (find _ _ self) as [t|];
        [right; now exists (tag_text t) | now left].
    + match goal with
      | |- context [negb (key_in ?k seen) && ?b] =>
          destruct (negb (key_in k seen) && b)
      end; [|exact N].
      cbn [fst] in *. apply Forall_app. split; [exact N|].
      constructor; [|constructor]. now left.
  - match goal with
    | |- context [negb (key_in ?k seen) && ?b] =>
        destruct (negb (key_in k seen) && b)
    end; [|exact N].
    cbn [fst] in *. apply Forall_app. split; [exact N|].
    constructor; [|constructor]. now left.
Qed.

Lemma get_personer_efternamn (self : IXBRLParser) :
  Forall efternamn_stripped (get_personer self).
Proof.
  unfold get_personer.
  apply (fold_left_inv (fun st => Forall efternamn_stripped (fst st))
           (personer_pattern self) patterns); [|constructor].
  intros x pat H. unfold personer_pattern.
  apply (fold_left_inv (fun st => Forall efternamn_stripped (fst st)));
    [|exact H].
  intros y tag. apply personer_step_efternamn.
Qed.

(** X20.  The full name of a person of a document has no stray blank:
    for every person that [get_personer] lists, [fullnamn] is the first
    name alone when the document gives no last name (the blank that the
    format puts after the first name is stripped), and the first name, one
    space and the last name otherwise. *)
Theorem get_personer_fullnamn (self : IXBRLParser) (p : Person) :
  In p (get_personer self) -> fullnamn p = visat_namn p.
Proof.
  intros I.
  pose proof (proj1 (Forall_forall _ _) (personer_named self) p I)
    as [NE [_ [_ [tag [_ [_ F]]]]]].
  pose proof (proj1 (Forall_forall _ _) (get_personer_efternamn self) p I) as ES.
  exact (fullnamn_stripped p (tag_text tag) F NE ES).
Qed.

Lemma get_personer_fullnamn_witness :
  let p := mkPerson "Eva" "" "Styrelseledamot" None in
  In p (get_personer soup_utan_tupel) /\ fullnamn p = "Eva"%string.
Proof.
  intros p.
  assert (In p (get_personer soup_utan_tupel)) as I
    by (rewrite get_personer_utan_tupel; now left).
  split; [exact I|].
  exact (get_personer_fullnamn soup_utan_tupel p I).
Defined.

(* ================================================================== *)
(** * Further properties of the ratio calculator *)
(* ================================================================== *)

(** X21.  Computing the ratios again changes nothing: a second run of
    [berakna_nyckeltal] on the record that a first run leaves has the
    outcome of the first run (it returns, or raises the same exception)
    and leaves the same record. *)
Theorem berakna_nyckeltal_again (n : Nyckeltal) :
  berakna_nyckeltal (snd (berakna_nyckeltal n)) = berakna_nyckeltal n.
Proof.
  destruct n as [oms ref res ek bal sol ans vm r].
  unfold berakna_nyckeltal, seq, assign, pass.
  cbn [nettoomsattning arets_resultat eget_kapital].
  destruct (truthy oms && truthy res) eqn:G1;
    destruct (truthy ek && truthy res && positive_int ek) eqn:G2;
    try destruct (procent res oms) as [v|e1] eqn:P1;
    try destruct (procent res ek) as [w|e2] eqn:P2;
    repeat (unfold set_vinstmarginal, set_roe;
            cbn [nettoomsattning resultat_efter_finansiella
                 arets_resultat eget_kapital balansomslutning soliditet
                 antal_anstallda vinstmarginal roe fst snd];
            rewrite ?G1, ?G2, ?P1, ?P2);
    reflexivity.
Qed.

(* ================================================================== *)
(** * The classifier on amounts in the range of a float *)
(* ================================================================== *)


